(** * Pinger: a shallow embedding of the edge/pinger Go package

    The development follows the package file by file: the [Timer], the
    [Driver] contract and the [pinger] that wraps it, the ICMP message
    provider (the codec), the per-family protocol handler and the ICMP
    driver with its receive and send tasks.

    Conventions.
    - A Go [int], [int64] or [time.Duration] is a [Z]; arithmetic that can
      leave the 64-bit range is wrapped with [Go.wrap64].
    - A [[]byte] is a [list byte]; a nil slice and an empty slice are both
      [[]].
    - A Go [error] is a value of the inductive [error]; a nil error is
      [None] in an [option error].
    - A Go function returning [(T, error)] returns a pair here as well, so
      that the zero values the code returns next to an error are visible.
    - Blocking operations (socket reads and writes, channel receives, the
      cancellation scope) read their outcomes from explicit lists supplied
      by the environment; a loop that has consumed every supplied outcome is
      reported as still running. *)

From Stdlib Require Import ZArith List String Ascii Bool Lia DecimalString.
From Stdlib.Strings Require Import Byte.
Import ListNotations.

Local Open Scope string_scope.
Local Open Scope Z_scope.
Local Open Scope list_scope.

(* ================================================================== *)
(** * Part I: definitions                                              *)
(* ================================================================== *)

(** ** Go machine integers and bytes *)

Module Go.

Definition int64_min : Z := - 2 ^ 63.
Definition int64_max : Z := 2 ^ 63 - 1.

(** The values an [int64] (and, on the 64-bit targets, an [int]) holds. *)
Definition in_int64 (z : Z) : Prop := int64_min <= z <= int64_max.

(** Two's complement wrap-around of signed 64-bit arithmetic. *)
Definition wrap64 (z : Z) : Z := (z + 2 ^ 63) mod 2 ^ 64 - 2 ^ 63.

(** The conversion [uint64(x)] of an [int64]. *)
Definition uint64 (z : Z) : Z := z mod 2 ^ 64.

(** The conversion [byte(x)]: the low eight bits. *)
Definition byte_of_Z (z : Z) : byte :=
  match Byte.of_N (Z.to_N (z mod 256)) with
  | Some b => b
  | None => x00
  end.

Definition Z_of_byte (b : byte) : Z := Z.of_N (Byte.to_N b).

(** [len(s)] *)
Definition len {A : Type} (s : list A) : Z := Z.of_nat (List.length s).

(** [s[lo:hi]] on a slice that is long enough. *)
Definition slice {A : Type} (lo hi : nat) (s : list A) : list A :=
  firstn (hi - lo) (skipn lo s).

(** [make([]byte, n)] *)
Definition make_bytes (n : nat) : list byte := repeat x00 n.

(** [bytes.Repeat([]byte{b}, n)]; a count that is not positive gives
    nothing (the callers guard it). *)
Definition bytes_Repeat (b : byte) (n : Z) : list byte := repeat b (Z.to_nat n).

(** [copy(dst, src)]: overwrite the front of [dst], keep its length. *)
Definition copy (dst src : list byte) : list byte :=
  firstn (List.length dst) src ++ skipn (List.length src) dst.

(** [%d] of [fmt]. *)
Definition fmt_d (z : Z) : string := NilZero.string_of_int (Z.to_int z).

(** Outcome of code that can panic (failed type assertion, nil
    dereference). *)
Inductive result (A : Type) : Type :=
| Ok (a : A)
| Panic (why : string).
Arguments Ok {A} a.
Arguments Panic {A} why.

End Go.

Import Go(Ok, Panic).

(** ** Errors *)

(** The error values that reach this package.  The sentinels declared with
    [errors.New] are constructors (Go compares them by identity);
    [NetOpError] is a [*net.OpError] with its wrapped [Err] and the answer
    of its [Timeout()] method; [OsSyscallError] is the [*os.SyscallError]
    in which package net hands on the error number of a failed system
    call, with the name of the call. *)
Inductive error : Type :=
| ErrAlreadyConnected
| ErrNoAddress
| ErrNotConnected
| ErrICMPIgnoredPacket
| ContextCanceled
| ContextDeadlineExceeded
| Errno (code : Z)
| Errorf (msg : string)
| ErrLibrary (msg : string)
| NetOpError (Err : error) (Timeout : bool)
| OsSyscallError (Syscall : string) (Err : error).

(** [syscall.ENOBUFS] (Linux). *)
Definition ENOBUFS : error := Errno 105.

(** [errMessageTooShort] of golang.org/x/net/icmp. *)
Definition errMessageTooShort : error := ErrLibrary "message too short".

(** [errInvalidConn] of golang.org/x/net/icmp and ipv4. *)
Definition errInvalidConn : error := ErrLibrary "invalid connection".

Fixpoint error_eqb (a b : error) : bool :=
  match a, b with
  | ErrAlreadyConnected, ErrAlreadyConnected => true
  | ErrNoAddress, ErrNoAddress => true
  | ErrNotConnected, ErrNotConnected => true
  | ErrICMPIgnoredPacket, ErrICMPIgnoredPacket => true
  | ContextCanceled, ContextCanceled => true
  | ContextDeadlineExceeded, ContextDeadlineExceeded => true
  | Errno x, Errno y => Z.eqb x y
  | Errorf s, Errorf t => String.eqb s t
  | ErrLibrary s, ErrLibrary t => String.eqb s t
  | NetOpError e s, NetOpError f t => error_eqb e f && Bool.eqb s t
  | OsSyscallError c e, OsSyscallError c' f => String.eqb c c' && error_eqb e f
  | _, _ => false
  end.

(** ** package time *)

Module time.

(** A [time.Duration]: a count of nanoseconds in an [int64]. *)
Definition Duration : Type := Z.

Definition Nanosecond : Duration := 1.
Definition Millisecond : Duration := 1000000.
Definition Second : Duration := 1000000000.

(** A [time.Time]: the wall-clock instant as nanoseconds since the Unix
    epoch (location and monotonic reading are not represented). *)
Definition Time : Type := Z.

(** The zero [time.Time] (January 1, year 1, UTC). *)
Definition zero : Time := - 62135596800 * Second.

(** [time.Unix(sec, nsec)] *)
Definition Unix (sec nsec : Z) : Time := sec * Second + nsec.

(** [t.UnixNano()]: defined when the count fits an [int64], wrapped
    otherwise. *)
Definition UnixNano (t : Time) : Z := Go.wrap64 t.

(** [t.Sub(u)]: the difference, saturated to the [Duration] range. *)
Definition Sub (t u : Time) : Duration :=
  if t - u <? Go.int64_min then Go.int64_min
  else if Go.int64_max <? t - u then Go.int64_max
  else t - u.

End time.

(** ** timer.go *)

Module Timer.

Record t : Type := mk { Started : time.Time; Stopped : time.Time }.

(** [&Timer{}] *)
Definition fresh : t := {| Started := time.zero; Stopped := time.zero |}.

(** [func (t *Timer) Elapsed() time.Duration] *)
Definition Elapsed (tm : t) : time.Duration :=
  time.Sub (Stopped tm) (Started tm).

(** [func (t *Timer) Start()]; [now] is what [time.Now()] returns. *)
Definition Start (now : time.Time) (tm : t) : t :=
  {| Started := now; Stopped := Stopped tm |}.

(** [func (t *Timer) Stop()] *)
Definition Stop (now : time.Time) (tm : t) : t :=
  {| Started := Started tm; Stopped := now |}.

End Timer.

(** ** package net: addresses *)

Module net.

(** [net.IPAddr] *)
Record IPAddr : Type := { IP : list byte; Zone : string }.

(** A [net.Addr] interface value: a [*net.IPAddr] (possibly a nil
    pointer) or an address of another implementation. *)
Inductive Addr : Type :=
| AddrIP (a : option IPAddr)
| AddrOther (network str : string).

End net.

(** A [context.Context] as the package sees it: a name for the scope. *)
Definition Context : Type := nat.

(** ** pinger.go: packets, the Driver contract and the pinger *)

Record RawPacket : Type := {
  Message : list byte;
  Size : Z;
  TTL : time.Duration
}.

(** [RawPacket{}] *)
Definition RawPacket_zero : RawPacket := {| Message := []; Size := 0; TTL := 0 |}.

Record PacketMeta : Type := { Address : option net.Addr }.

Record TimedPacket : Type := { RTT : time.Duration; Sent : time.Time }.

Record Packet : Type := {
  Meta : PacketMeta;
  Raw : RawPacket;
  Timed : TimedPacket
}.

(** [Packet{}] *)
Definition Packet_zero : Packet :=
  {| Meta := {| Address := None |};
     Raw := RawPacket_zero;
     Timed := {| RTT := 0; Sent := time.zero |} |}.

(** The [Driver] interface over a driver state [D].  A method receives the
    state and returns the state it leaves; [Ping] is also handed the
    [*Timer] and returns it as stamped. *)
Record Driver (D : Type) : Type := {
  drvAddress : D -> net.Addr;
  drvConnect : Context -> D -> option error * D;
  drvDisconnect : D -> option error * D;
  drvPing : Timer.t -> D -> (RawPacket * option error) * Timer.t * D
}.
Arguments drvAddress {D} _ _.
Arguments drvConnect {D} _ _ _.
Arguments drvDisconnect {D} _ _.
Arguments drvPing {D} _ _ _.

(** The driver methods a pinger has invoked, oldest first. *)
Inductive DriverCall : Type :=
| CallAddress
| CallConnect (ctx : Context)
| CallDisconnect
| CallPing.

Module pinger.
Section WithDriver.

Context {D : Type} (drv : Driver D).

(** [type pinger struct]: the connected flag and the driver it owns,
    together with the record of the driver calls made so far. *)
Record t : Type := mk {
  connected : bool;
  driver : D;
  calls : list DriverCall
}.

(** [func New(d Driver) Pinger] *)
Definition New (d : D) : t :=
  {| connected := false; driver := d; calls := [] |}.

(** [func (p *pinger) Connect(ctx context.Context) error] *)
Definition Connect (ctx : Context) (p : t) : option error * t :=
  if connected p then (Some ErrAlreadyConnected, p)
  else
    let '(err, d') := drvConnect drv ctx (driver p) in
    let log := calls p ++ [CallConnect ctx] in
    match err with
    | None => (err, {| connected := true; driver := d'; calls := log |})
    | Some _ => (err, {| connected := connected p; driver := d'; calls := log |})
    end.

(** [func (p *pinger) Disconnect() error] *)
Definition Disconnect (p : t) : option error * t :=
  if negb (connected p) then (Some ErrNotConnected, p)
  else
    let '(err, d') := drvDisconnect drv (driver p) in
    let log := calls p ++ [CallDisconnect] in
    match err with
    | None => (err, {| connected := false; driver := d'; calls := log |})
    | Some _ => (err, {| connected := connected p; driver := d'; calls := log |})
    end.

(** [func (p *pinger) Ping() (Packet, error)] *)
Definition Ping (p : t) : (Packet * option error) * t :=
  let timer := Timer.fresh in
  let '(raw, err, timer', d') := drvPing drv timer (driver p) in
  let log := calls p ++ [CallPing] in
  match err with
  | Some _ =>
      ((Packet_zero, err),
       {| connected := connected p; driver := d'; calls := log |})
  | None =>
      let packet :=
        {| Raw := raw;
           Meta := {| Address := Some (drvAddress drv d') |};
           Timed := {| RTT := Timer.Elapsed timer';
                       Sent := Timer.Started timer' |} |} in
      ((packet, None),
       {| connected := connected p; driver := d';
          calls := log ++ [CallAddress] |})
  end.

(** The operations of the [Pinger] interface and a run of a sequence of
    them, collecting what each returned. *)
Inductive op : Type :=
| OpConnect (ctx : Context)
| OpDisconnect
| OpPing.

Definition step (o : op) (p : t) : option error * t :=
  match o with
  | OpConnect ctx => Connect ctx p
  | OpDisconnect => Disconnect p
  | OpPing => let '(_, err, p') := Ping p in (err, p')
  end.

Fixpoint run (ops : list op) (p : t) : list (option error) * t :=
  match ops with
  | [] => ([], p)
  | o :: rest =>
      let '(err, p') := step o p in
      let '(errs, p'') := run rest p' in
      (err :: errs, p'')
  end.

End WithDriver.

(** The connect/disconnect machine as the specification words it: a
    [Connect] that returns no error leaves the pinger connected, a
    [Disconnect] that returns no error leaves it disconnected, and anything
    else leaves the flag as it was. *)
Definition flagAfter (o : op) (err : option error) (flag : bool) : bool :=
  match o, err with
  | OpConnect _, None => true
  | OpDisconnect, None => false
  | _, _ => flag
  end.

Fixpoint flagAfterAll (ops : list op) (errs : list (option error)) (flag : bool)
  : bool :=
  match ops, errs with
  | o :: ops, err :: errs => flagAfterAll ops errs (flagAfter o err flag)
  | _, _ => flag
  end.

End pinger.

(** A driver for exercising the statements below: its state counts the
    probes made; every third probe fails, the others answer with one byte
    and stamp the timer. *)
Definition scriptedDriver : Driver nat :=
  {| drvAddress := fun _ => net.AddrOther "test" "scripted";
     drvConnect := fun _ n => (None, n);
     drvDisconnect := fun n => (None, n);
     drvPing := fun timer n =>
       if (n mod 3 =? 2)%nat
       then ((RawPacket_zero, Some (Errno 113)), timer, S n)
       else (({| Message := [x2a]; Size := 1; TTL := 64 |}, None),
             Timer.Stop 1500 (Timer.Start 1000 timer), S n) |}.

(** ** golang.org/x/net/icmp: the message types the driver handles *)

Module icmp.

(** An [icmp.Type]: an [ipv4.ICMPType] or an [ipv6.ICMPType]; two values
    are equal when family and number agree. *)
Inductive Type_ : Type :=
| ICMPv4 (n : Z)
| ICMPv6 (n : Z).

Definition Type_eqb (a b : Type_) : bool :=
  match a, b with
  | ICMPv4 x, ICMPv4 y => Z.eqb x y
  | ICMPv6 x, ICMPv6 y => Z.eqb x y
  | _, _ => false
  end.

(** [icmp.Echo] *)
Record Echo : Type := { ID : Z; Seq : Z; Data : list byte }.

(** An [icmp.MessageBody].  Only [*icmp.Echo] is ever looked into by this
    package; the other bodies the library produces ([*icmp.DstUnreach],
    [*icmp.TimeExceeded], [*icmp.ParamProb], [*icmp.PacketTooBig],
    extended echo, [*icmp.RawBody]) keep their undecoded bytes. *)
Inductive MessageBody : Type :=
| BodyEcho (e : Echo)
| BodyDstUnreach (b : list byte)
| BodyTimeExceeded (b : list byte)
| BodyParamProb (b : list byte)
| BodyPacketTooBig (b : list byte)
| BodyExtendedEcho (b : list byte)
| BodyRaw (b : list byte).

(** [icmp.Message] *)
Record Message : Type := {
  Type' : Type_;
  Code : Z;
  Checksum : Z;
  Body : MessageBody
}.

Definition be16 (hi lo : byte) : Z := Go.Z_of_byte hi * 256 + Go.Z_of_byte lo.

(** [parseEcho]: identifier and sequence number, big-endian, then the
    data. *)
Definition parseEcho (b : list byte) : MessageBody + error :=
  match b with
  | i1 :: i2 :: s1 :: s2 :: data =>
      inl (BodyEcho {| ID := be16 i1 i2; Seq := be16 s1 s2; Data := data |})
  | _ => inr errMessageTooShort
  end.

(** The other registered parsers want four bytes of body; what they
    decode from them is not represented. *)
Definition parseOther (mk : list byte -> MessageBody) (b : list byte)
  : MessageBody + error :=
  if (List.length b <? 4)%nat then inr errMessageTooShort else inl (mk b).

(** The library's table [parseFns]. *)
Definition parseBody (t : Type_) (b : list byte) : MessageBody + error :=
  match t with
  | ICMPv4 0 | ICMPv4 8 => parseEcho b
  | ICMPv4 3 => parseOther BodyDstUnreach b
  | ICMPv4 11 => parseOther BodyTimeExceeded b
  | ICMPv4 12 => parseOther BodyParamProb b
  | ICMPv4 42 | ICMPv4 43 => parseOther BodyExtendedEcho b
  | ICMPv6 128 | ICMPv6 129 => parseEcho b
  | ICMPv6 1 => parseOther BodyDstUnreach b
  | ICMPv6 2 => parseOther BodyPacketTooBig b
  | ICMPv6 3 => parseOther BodyTimeExceeded b
  | ICMPv6 4 => parseOther BodyParamProb b
  | ICMPv6 160 | ICMPv6 161 => parseOther BodyExtendedEcho b
  | _ => inl (BodyRaw b)
  end.

(** [icmp.ParseMessage(proto, b)], for the two protocol numbers the
    handlers pass (1 and 58). *)
Definition ParseMessage (proto : Z) (b : list byte) : Message + error :=
  match b with
  | ty :: code :: c1 :: c2 :: rest =>
      let t := if proto =? 1 then Some (ICMPv4 (Go.Z_of_byte ty))
               else if proto =? 58 then Some (ICMPv6 (Go.Z_of_byte ty))
               else None in
      match t with
      | None => inr (ErrLibrary "invalid protocol")
      | Some t =>
          match parseBody t rest with
          | inr err => inr err
          | inl body =>
              inl {| Type' := t; Code := Go.Z_of_byte code;
                     Checksum := be16 c1 c2; Body := body |}
          end
      end
  | _ => inr errMessageTooShort
  end.

(** The sequence number a message carries, when it is an echo message. *)
Definition echoSeq (m : Message) : option Z :=
  match Body m with
  | BodyEcho e => Some (Seq e)
  | _ => None
  end.

End icmp.

(** [ipv4.ICMPTypeEchoReply], [ipv4.ICMPTypeEcho],
    [ipv6.ICMPTypeEchoReply], [ipv6.ICMPTypeEchoRequest]. *)
Module ipv4.
Definition ICMPTypeEchoReply : icmp.Type_ := icmp.ICMPv4 0.
Definition ICMPTypeEcho : icmp.Type_ := icmp.ICMPv4 8.
(** [ipv4.ControlMessage]: the per-packet metadata this package reads. *)
Record ControlMessage : Type := { TTL : Z }.
End ipv4.

Module ipv6.
Definition ICMPTypeEchoRequest : icmp.Type_ := icmp.ICMPv6 128.
Definition ICMPTypeEchoReply : icmp.Type_ := icmp.ICMPv6 129.
Record ControlMessage : Type := { HopLimit : Z }.
End ipv6.

(** ** The socket as the package sees it *)

(** What one [ReadFrom] on the raw socket yields: a datagram with the
    control message the system attached to it (if any), or an error. *)
Inductive ReadOutcome (CM : Type) : Type :=
| ReadOK (datagram : list byte) (cm : option CM)
| ReadErr (e : error).
Arguments ReadOK {CM} datagram cm.
Arguments ReadErr {CM} e.

(** [conn.IPv4PacketConn().ReadFrom(b)] (and its IPv6 twin): the datagram
    is copied into [b], as far as it fits, and the count of copied bytes is
    returned; on an error nothing is copied and count and control message
    are zero and nil. *)
Definition ReadFrom {CM : Type} (o : ReadOutcome CM) (b : list byte)
  : list byte * Z * option CM * option error :=
  match o with
  | ReadOK datagram cm =>
      (Go.copy b datagram,
       Z.of_nat (Nat.min (List.length datagram) (List.length b)), cm, None)
  | ReadErr e => (b, 0, None, Some e)
  end.

(** What the system answers to one read on the connection: the control
    message is the family's, so the outcome is kept per family. *)
Record SocketRead : Type := {
  read4 : ReadOutcome ipv4.ControlMessage;
  read6 : ReadOutcome ipv6.ControlMessage
}.

(** What the system answers to the two calls of [Listen]:
    [icmp.ListenPacket] and [SetControlMessage]. *)
Record SocketOpen : Type := {
  listenErr : option error;
  controlErr : option error
}.

(** An open [*icmp.PacketConn]. *)
Inductive PacketConn : Type := Conn (family : Z).

(** ** The protocol handler interface and its two implementations *)

(** [type icmpProtocolHandler interface].  [Listen] also reports whether it
    closed the socket it had opened. *)
Record icmpProtocolHandler : Type := {
  Listen : string -> SocketOpen -> option PacketConn * option error * bool;
  Parse : list byte -> icmp.Message + error;
  Read : SocketRead -> list byte * Z * Z * option error;
  ReplyType : icmp.Type_;
  RequestType : icmp.Type_
}.

(** icmp_ipv4.go *)
Module icmpIPv4Handler.

Definition Listen (addr : string) (s : SocketOpen)
  : option PacketConn * option error * bool :=
  match listenErr s with
  | Some e => (None, Some e, false)
  | None =>
      match controlErr s with
      | Some e => (None, Some e, true)
      | None => (Some (Conn 4), None, false)
      end
  end.

Definition Parse (b : list byte) : icmp.Message + error :=
  icmp.ParseMessage 1 b.

Definition Read (s : SocketRead) : list byte * Z * Z * option error :=
  let b := Go.make_bytes 512 in
  let '(b, nb, cm, err) := ReadFrom (read4 s) b in
  let ttl := match cm with
             | Some c => ipv4.TTL c
             | None => 0
             end in
  (b, nb, ttl, err).

Definition ReplyType : icmp.Type_ := ipv4.ICMPTypeEchoReply.
Definition RequestType : icmp.Type_ := ipv4.ICMPTypeEcho.

Definition handler : icmpProtocolHandler :=
  Build_icmpProtocolHandler Listen Parse Read ReplyType RequestType.

End icmpIPv4Handler.

(** The IPv6 handler (the file that README.md carries). *)
Module icmpIPv6Handler.

Definition Listen (addr : string) (s : SocketOpen)
  : option PacketConn * option error * bool :=
  match listenErr s with
  | Some e => (None, Some e, false)
  | None =>
      match controlErr s with
      | Some e => (None, Some e, true)
      | None => (Some (Conn 6), None, false)
      end
  end.

Definition Parse (b : list byte) : icmp.Message + error :=
  icmp.ParseMessage 58 b.

Definition Read (s : SocketRead) : list byte * Z * Z * option error :=
  let b := Go.make_bytes 512 in
  let '(b, nb, cm, err) := ReadFrom (read6 s) b in
  let ttl := match cm with
             | Some c => ipv6.HopLimit c
             | None => 0
             end in
  (b, nb, ttl, err).

Definition ReplyType : icmp.Type_ := ipv6.ICMPTypeEchoReply.
Definition RequestType : icmp.Type_ := ipv6.ICMPTypeEchoRequest.

Definition handler : icmpProtocolHandler :=
  Build_icmpProtocolHandler Listen Parse Read ReplyType RequestType.

End icmpIPv6Handler.

(** The handlers [newProtocolHandler] chooses between. *)
Definition familyHandler (h : icmpProtocolHandler) : Prop :=
  h = icmpIPv4Handler.handler \/ h = icmpIPv6Handler.handler.

(** The read on the socket yielded this datagram (for either family). *)
Definition yielded (s : SocketRead) (datagram : list byte) : Prop :=
  (exists cm, read4 s = ReadOK datagram cm)
  \/ (exists cm, read6 s = ReadOK datagram cm).

(** ** The conversion helpers of the codec *)

(** Big-endian digits: [n] bytes of [z], most significant first. *)
Fixpoint be_encode (n : nat) (z : Z) : list byte :=
  match n with
  | O => []
  | S k => Go.byte_of_Z (z / 256 ^ Z.of_nat k) :: be_encode k z
  end.

Definition be_decode (bs : list byte) : Z :=
  fold_left (fun acc b => acc * 256 + Go.Z_of_byte b) bs 0.

(** Modelled from the spec: [intToBytes], which is not among the sources.
    The tracker is "encoded as a fixed-width integer", "fixed 8-byte
    big/native-order"; the big-endian order is taken. *)
Definition intToBytes (i : Z) : list byte := be_encode 8 (Go.uint64 i).

(** Modelled from the spec: [bytesToInt], which is not among the sources;
    the decoding that "must match encode/decode endianness exactly". *)
Definition bytesToInt (b : list byte) : Z := Go.wrap64 (be_decode b).

(** Modelled from the spec: [timeToBytes], which is not among the sources;
    "the current time encoded as a fixed-width integer", the encoding unit
    being the nanosecond of [UnixNano]. *)
Definition timeToBytes (t : time.Time) : list byte := intToBytes (time.UnixNano t).

(** Modelled from the spec: [bytesToTime], which is not among the sources;
    the instant that the eight bytes count in encoding units. *)
Definition bytesToTime (b : list byte) : time.Time := time.Unix 0 (bytesToInt b).

(** ** The ICMP message provider (the codec) *)

(** Size in bytes of echo message component. *)
Definition timeSize : Z := 8.
Definition trackerSize : Z := 8.

(** [math.MaxInt16], [math.MaxInt64] *)
Definition MaxInt16 : Z := 2 ^ 15 - 1.
Definition MaxInt64 : Z := 2 ^ 63 - 1.

(** [func errICMPReplyTooShort(expected, actual int) error] *)
Definition errICMPReplyTooShort (expected actual : Z) : error :=
  Errorf ("reply too short (expected " ++ Go.fmt_d expected
          ++ "B; actual " ++ Go.fmt_d actual ++ "B)")%string.

(** A [sync.Mutex]. *)
Inductive Mutex : Type := Unlocked | Locked.

(** The two draws [newICMPMessageProvider] takes from its generator. *)
Record Entropy : Type := { drawID : Z; drawTracker : Z }.

Module icmpMessageProvider.

Record t : Type := mk {
  mut : Mutex;
  id : Z;
  msgType : icmp.Type_;
  seq : Z;
  tracker : Z
}.

(** [rng.Intn(n)], [rng.Int63n(n)]: some value of [[0, n)], here the
    reduction of the draw. *)
Definition Intn (n draw : Z) : Z := draw mod n.

(** [func newICMPMessageProvider(h icmpProtocolHandler, addr *net.IPAddr)] *)
Definition new (h : icmpProtocolHandler) (addr : option net.IPAddr)
    (rng : Entropy) : t :=
  {| mut := Unlocked;
     id := Intn MaxInt16 (drawID rng);
     msgType := RequestType h;
     seq := 0;
     tracker := Intn MaxInt64 (drawTracker rng) |}.

(** [func (p *icmpMessageProvider) ReadData(msg *icmp.Message)
      (int64, time.Time, error)] *)
Definition ReadData (p : t) (msg : icmp.Message)
  : Go.result (Z * time.Time * option error) :=
  match icmp.Body msg with
  | icmp.BodyEcho echo =>
      let ld := Go.len (icmp.Data echo) in
      if ld <? timeSize + trackerSize then
        Ok (0, time.Unix 0 0,
            Some (errICMPReplyTooShort (timeSize + trackerSize) ld))
      else
        let timestamp := bytesToTime (Go.slice 0 (Z.to_nat timeSize) (icmp.Data echo)) in
        let tracker :=
          bytesToInt (Go.slice (Z.to_nat timeSize)
                               (Z.to_nat (timeSize + trackerSize))
                               (icmp.Data echo)) in
        Ok (tracker, timestamp, None)
  | _ => Panic "interface conversion: icmp.MessageBody is not *icmp.Echo"
  end.

(** [func (p *icmpMessageProvider) WriteData(msg *icmp.Message)];
    [now] is what [time.Now()] returns. *)
Definition WriteData (now : time.Time) (p : t) (msg : icmp.Message)
  : Go.result icmp.Message :=
  let data := timeToBytes now in
  let data := data ++ intToBytes (tracker p) in
  let ld := (timeSize + trackerSize) - Go.len data in
  let data := if 0 <? ld then data ++ Go.bytes_Repeat x01 ld else data in
  match icmp.Body msg with
  | icmp.BodyEcho echo =>
      Ok {| icmp.Type' := icmp.Type' msg;
            icmp.Code := icmp.Code msg;
            icmp.Checksum := icmp.Checksum msg;
            icmp.Body := icmp.BodyEcho {| icmp.ID := icmp.ID echo;
                                          icmp.Seq := icmp.Seq echo;
                                          icmp.Data := data |} |}
  | _ => Panic "interface conversion: icmp.MessageBody is not *icmp.Echo"
  end.

Definition Lock (p : t) : t :=
  {| mut := Locked; id := id p; msgType := msgType p; seq := seq p;
     tracker := tracker p |}.

Definition Unlock (p : t) : t :=
  {| mut := Unlocked; id := id p; msgType := msgType p; seq := seq p;
     tracker := tracker p |}.

(** [p.seq++] *)
Definition incSeq (p : t) : t :=
  {| mut := mut p; id := id p; msgType := msgType p;
     seq := Go.wrap64 (seq p + 1); tracker := tracker p |}.

(** [func (p *icmpMessageProvider) Provide() *icmp.Message], from the
    moment the caller holds the mutex to the deferred unlock. *)
Definition Provide (now : time.Time) (p : t) : Go.result (icmp.Message * t) :=
  let p := Lock p in
  let msg := {| icmp.Type' := msgType p;
                icmp.Code := 0;
                icmp.Checksum := 0;
                icmp.Body := icmp.BodyEcho {| icmp.ID := id p;
                                              icmp.Seq := seq p;
                                              icmp.Data := [] |} |} in
  match WriteData now p msg with
  | Panic why => Panic why
  | Ok msg =>
      let p := incSeq p in
      Ok (msg, Unlock p)
  end.

(** The messages of [n] calls in a row, given the clock reading of each. *)
Fixpoint provideN (nows : list time.Time) (p : t)
  : Go.result (list icmp.Message * t) :=
  match nows with
  | [] => Ok ([], p)
  | now :: rest =>
      match Provide now p with
      | Panic why => Panic why
      | Ok (msg, p') =>
          match provideN rest p' with
          | Panic why => Panic why
          | Ok (msgs, p'') => Ok (msg :: msgs, p'')
          end
      end
  end.

End icmpMessageProvider.

(** ** Provide, statement by statement, for callers that run concurrently *)

(** Where a caller of [Provide] stands: before [p.mut.Lock()]; holding the
    mutex, before the message is built and [WriteData] has filled it;
    before [p.seq++]; before the deferred [p.mut.Unlock()]; returned with
    its message. *)
Inductive ProvidePC : Type :=
| AtLock
| AtBuild
| AtIncrement (msg : icmp.Message)
| AtUnlock (msg : icmp.Message)
| Returned (msg : icmp.Message)
| Crashed.

(** The provider that the callers share, and where each caller stands
    (callers are numbered). *)
Record Shared : Type := {
  prov : icmpMessageProvider.t;
  callers : nat -> ProvidePC
}.

Definition setCaller (i : nat) (pc : ProvidePC) (cs : nat -> ProvidePC)
  : nat -> ProvidePC :=
  fun j => if Nat.eqb j i then pc else cs j.

(** The next statement of caller [i], run at the instant [now].  A caller
    that finds the mutex held stays where it is, and so does one that has
    returned. *)
Definition provideStep (i : nat) (now : time.Time) (s : Shared) : Shared :=
  let p := prov s in
  match callers s i with
  | AtLock =>
      match icmpMessageProvider.mut p with
      | Unlocked =>
          {| prov := icmpMessageProvider.Lock p;
             callers := setCaller i AtBuild (callers s) |}
      | Locked => s
      end
  | AtBuild =>
      let msg := {| icmp.Type' := icmpMessageProvider.msgType p;
                    icmp.Code := 0;
                    icmp.Checksum := 0;
                    icmp.Body :=
                      icmp.BodyEcho {| icmp.ID := icmpMessageProvider.id p;
                                       icmp.Seq := icmpMessageProvider.seq p;
                                       icmp.Data := [] |} |} in
      match icmpMessageProvider.WriteData now p msg with
      | Ok msg => {| prov := p; callers := setCaller i (AtIncrement msg) (callers s) |}
      | Panic _ =>
          {| prov := icmpMessageProvider.Unlock p;
             callers := setCaller i Crashed (callers s) |}
      end
  | AtIncrement msg =>
      {| prov := icmpMessageProvider.incSeq p;
         callers := setCaller i (AtUnlock msg) (callers s) |}
  | AtUnlock msg =>
      {| prov := icmpMessageProvider.Unlock p;
         callers := setCaller i (Returned msg) (callers s) |}
  | Returned _ => s
  | Crashed => s
  end.

(** A schedule names, statement after statement, the caller that runs and
    the clock reading it would get. *)
Fixpoint provideRun (schedule : list (nat * time.Time)) (s : Shared) : Shared :=
  match schedule with
  | [] => s
  | (i, now) :: rest => provideRun rest (provideStep i now s)
  end.

(** The messages whose [p.seq++] a schedule runs, in the order in which
    it runs them: the order in which the provider issues them. *)
Fixpoint issued (schedule : list (nat * time.Time)) (s : Shared)
  : list icmp.Message :=
  match schedule with
  | [] => []
  | (i, now) :: rest =>
      match callers s i with
      | AtIncrement msg => msg :: issued rest (provideStep i now s)
      | _ => issued rest (provideStep i now s)
      end
  end.

(** Every caller about to call [Provide] on provider [p]. *)
Definition allAtLock (p : icmpMessageProvider.t) : Shared :=
  {| prov := p; callers := fun _ => AtLock |}.

(** The caller is inside the critical section. *)
Definition holdsMutex (pc : ProvidePC) : bool :=
  match pc with
  | AtBuild | AtIncrement _ | AtUnlock _ => true
  | _ => false
  end.

(** The message of a caller whose [p.seq++] has run. *)
Definition counted (pc : ProvidePC) : option icmp.Message :=
  match pc with
  | AtUnlock msg | Returned msg => Some msg
  | _ => None
  end.

(** What holds of the shared state after every statement: a caller inside
    the critical section holds the locked mutex, alone; a locked mutex has
    a holder; the message about to be counted carries the current sequence
    number; the counted messages carry, one each, the numbers below it. *)
Record ProvideInv (s : Shared) : Prop := {
  inv_locked :
    forall i, holdsMutex (callers s i) = true ->
              icmpMessageProvider.mut (prov s) = Locked;
  inv_holder :
    icmpMessageProvider.mut (prov s) = Locked ->
    exists i, holdsMutex (callers s i) = true;
  inv_alone :
    forall i j, holdsMutex (callers s i) = true ->
                holdsMutex (callers s j) = true -> i = j;
  inv_current :
    forall i msg, callers s i = AtIncrement msg ->
                  icmp.echoSeq msg = Some (icmpMessageProvider.seq (prov s));
  inv_below :
    forall i msg, counted (callers s i) = Some msg ->
                  exists k, icmp.echoSeq msg = Some k
                            /\ 0 <= k < icmpMessageProvider.seq (prov s);
  inv_distinct :
    forall i j msg msg',
      counted (callers s i) = Some msg ->
      counted (callers s j) = Some msg' ->
      icmp.echoSeq msg = icmp.echoSeq msg' -> i = j;
  inv_all :
    forall k, 0 <= k < icmpMessageProvider.seq (prov s) ->
              exists i msg, counted (callers s i) = Some msg
                            /\ icmp.echoSeq msg = Some k
}.

(** The tracker [ReadData] decodes from an echo payload of 16 bytes or
    more. *)
Definition decodedTracker (echo : icmp.Echo) : Z :=
  bytesToInt (Go.slice 8 16 (icmp.Data echo)).

(** ** icmp.go: configuration and driver *)

(** [const defaultReadTimeout = 100 * time.Millisecond] *)
Definition defaultReadTimeout : time.Duration := 100 * time.Millisecond.

(** [type ICMPConfig struct] *)
Record ICMPConfig : Type := {
  Addr : option net.IPAddr;
  ReadTimeout : time.Duration
}.

(** [func validateICMPConfig(cfg *ICMPConfig) error]: the error and the
    configuration as the call leaves it. *)
Definition validateICMPConfig (cfg : ICMPConfig) : option error * ICMPConfig :=
  match Addr cfg with
  | None => (Some ErrNoAddress, cfg)
  | Some _ =>
      let cfg := if ReadTimeout cfg =? 0
                 then {| Addr := Addr cfg; ReadTimeout := defaultReadTimeout |}
                 else cfg in
      (None, cfg)
  end.

(** [func isICMPIgnoredPacket(err error) bool] *)
Definition isICMPIgnoredPacket (err : error) : bool :=
  error_eqb err ErrICMPIgnoredPacket.

(** What the environment hands to one pass of the receive loop: the error
    of the cancellation scope if it is done, the answer to
    [SetReadDeadline], the answer to the read. *)
Record RecvTurn : Type := {
  ctxErr : option error;
  deadlineErr : option error;
  socketRead : SocketRead
}.

(** The three events [Ping] selects on, in the order the runtime picks
    them: the scope is done (with its error), the send task reports an
    error, a raw packet arrives on the channel ([Closed] is the receive on
    the closed channel, which yields the zero packet). *)
Inductive PingEvent : Type :=
| Done (err : error)
| SendFailed (err : error)
| Reply (raw : RawPacket)
| Closed.

Inductive PingOutcome : Type :=
| PingReturned (raw : RawPacket) (err : option error)
| PingPanicked (why : string)
| PingWaiting.

(** How the receive task stands after the turns it was given: still in its
    loop, or returned (the deferred [close] has then closed the channel). *)
Inductive RecvStatus : Type :=
| RecvLooping
| RecvReturned (err : option error).

(** What the send task did, in order. *)
Inductive SendEffect : Type :=
| DidProvide (msg : icmp.Message)
| DidMarshal (err : option error)
| DidTimerStart (now : time.Time)
| DidWriteTo (b : list byte) (dst : option net.IPAddr) (err : option error)
| DidTimerStop (now : time.Time).

Inductive SendStatus : Type :=
| SendReturned (err : option error)
| SendPanicked (why : string)
| SendRetrying.

(** The error that the loop of [send] retries: a [*net.OpError] whose
    [Err] is [syscall.ENOBUFS] itself. *)
Definition retriedError (err : error) : Prop :=
  exists timeout, err = NetOpError ENOBUFS timeout.

(** An answer of the socket that the loop retries. *)
Definition retriedAnswer (answer : option error) : Prop :=
  exists err, answer = Some err /\ retriedError err.

(** The transient send-buffer-full condition as a write on the socket
    reports it: package net wraps the error number of the failed system
    call ([call] names it, "sendto" for [WriteTo]) in a
    [*os.SyscallError], and that in the [*net.OpError] it returns. *)
Definition sendBufferFull (err : error) : Prop :=
  exists call timeout, err = NetOpError (OsSyscallError call ENOBUFS) timeout.

(** The clock readings of one send task, one per [time.Now()] it makes. *)
Record SendClock : Type := {
  atProvide : time.Time;
  atStart : time.Time;
  atStop : time.Time
}.

Module icmpDriver.
Section WithLibrary.

(** [isIPv4], which is not among the sources: the test of the address
    family by which the handler is chosen; it is left open. *)
Variable isIPv4 : list byte -> bool.

(** [msg.Marshal(nil)] of golang.org/x/net/icmp. *)
Variable Marshal : icmp.Message -> list byte * option error.

(** [type icmpDriver struct]; the channel is represented by the packets
    that travel on it ([recv] produces them, [Ping] consumes them). *)
Record t : Type := mk {
  config : ICMPConfig;
  ctx : option Context;
  messageProvider : option icmpMessageProvider.t;
  packetConn : option PacketConn;
  protocolHandler : icmpProtocolHandler
}.

(** [func newProtocolHandler(addr *net.IPAddr) (h icmpProtocolHandler)] *)
Definition newProtocolHandler (addr : option net.IPAddr)
  : Go.result icmpProtocolHandler :=
  match addr with
  | None => Panic "nil pointer dereference"
  | Some a =>
      if isIPv4 (net.IP a) then Ok icmpIPv4Handler.handler
      else Ok icmpIPv6Handler.handler
  end.

(** [func ICMP(cfg ICMPConfig) (Pinger, error)] *)
Definition ICMP (cfg : ICMPConfig)
  : Go.result (option (@pinger.t t) * option error) :=
  let '(err, cfg) := validateICMPConfig cfg in
  match err with
  | Some _ => Ok (None, err)
  | None =>
      match newProtocolHandler (Addr cfg) with
      | Panic why => Panic why
      | Ok h =>
          Ok (Some (pinger.New {| config := cfg;
                                  ctx := None;
                                  messageProvider := None;
                                  packetConn := None;
                                  protocolHandler := h |}),
              None)
      end
  end.

(** [func (d *icmpDriver) Address() net.Addr] *)
Definition Address (d : t) : net.Addr := net.AddrIP (Addr (config d)).

(** [func (d *icmpDriver) Connect(ctx context.Context) error]; the child
    scope is named after its parent, and the receive task it launches is
    [recv] below. *)
Definition Connect (parent : Context) (s : SocketOpen) (rng : Entropy) (d : t)
  : option error * t :=
  let '(c, err, _) := Listen (protocolHandler d) "" s in
  match err with
  | Some _ => (err, d)
  | None =>
      (None,
       {| config := config d;
          ctx := Some (S parent);
          messageProvider :=
            Some (icmpMessageProvider.new (protocolHandler d)
                                          (Addr (config d)) rng);
          packetConn := c;
          protocolHandler := protocolHandler d |})
  end.

(** [func (d *icmpDriver) handlePacket(raw RawPacket) error] *)
Definition handlePacket (d : t) (raw : RawPacket) : Go.result (option error) :=
  match Parse (protocolHandler d) (Message raw) with
  | inr err => Ok (Some err)
  | inl msg =>
      match icmp.Body msg with
      | icmp.BodyEcho echo =>
          (* ignore if not echo reply *)
          if negb (icmp.Type_eqb (icmp.Type' msg) (ReplyType (protocolHandler d)))
          then Ok (Some ErrICMPIgnoredPacket)
          else
            match messageProvider d with
            | None => Panic "nil pointer dereference"
            | Some p =>
                (* ignore if id mismatched *)
                if negb (icmp.ID echo =? icmpMessageProvider.id p)
                then Ok (Some ErrICMPIgnoredPacket)
                else
                  match icmpMessageProvider.ReadData p msg with
                  | Panic why => Panic why
                  | Ok (_, _, Some err) => Ok (Some err)
                  | Ok (track, _, None) =>
                      (* ignore if tracker mismatched *)
                      if negb (track =? icmpMessageProvider.tracker p)
                      then Ok (Some ErrICMPIgnoredPacket)
                      else Ok None
                  end
            end
      | _ => Panic "interface conversion: icmp.MessageBody is not *icmp.Echo"
      end
  end.

(** The [for { select { ... } }] of [Ping], over the events the runtime
    picks. *)
Fixpoint PingLoop (d : t) (events : list PingEvent) : PingOutcome :=
  let onRaw raw rest :=
    match handlePacket d raw with
    | Panic why => PingPanicked why
    | Ok (Some err) =>
        if isICMPIgnoredPacket err then PingLoop d rest
        else PingReturned RawPacket_zero (Some err)
    | Ok None => PingReturned raw None
    end in
  match events with
  | [] => PingWaiting
  | Done err :: _ => PingReturned RawPacket_zero (Some err)
  | SendFailed err :: _ => PingReturned RawPacket_zero (Some err)
  | Reply raw :: rest => onRaw raw rest
  | Closed :: rest => onRaw RawPacket_zero rest
  end.

(** [func (d *icmpDriver) Ping(timer *Timer) (RawPacket, error)]: the
    send task runs on its own ([send] below); a failure of it shows up as
    the [SendFailed] event. *)
Definition Ping (d : t) (events : list PingEvent) : PingOutcome :=
  match ctx d with
  | None => PingPanicked "nil pointer dereference"
  | Some _ => PingLoop d events
  end.

(** [func (d *icmpDriver) recvPacket() (RawPacket, error)] *)
Definition recvPacket (d : t) (turn : RecvTurn) : RawPacket * option error :=
  match deadlineErr turn with
  | Some err => (RawPacket_zero, Some err)
  | None =>
      let '(b, nb, ttl, err) := Read (protocolHandler d) (socketRead turn) in
      match err with
      | Some _ => (RawPacket_zero, err)
      | None => ({| Message := b; Size := nb; TTL := ttl |}, None)
      end
  end.

(** [func (d *icmpDriver) recv() error]: the packets pushed onto the
    channel, oldest first, and how the task stands. *)
Fixpoint recv (d : t) (turns : list RecvTurn) : list RawPacket * RecvStatus :=
  match turns with
  | [] => ([], RecvLooping)
  | turn :: rest =>
      match ctxErr turn with
      | Some err => ([], RecvReturned (Some err))
      | None =>
          let '(raw, err) := recvPacket d turn in
          match err with
          | Some (NetOpError _ timeout) =>
              if timeout then recv d rest
              else ([], RecvReturned err)
          | _ =>
              let '(pushed, status) := recv d rest in
              (raw :: pushed, status)
          end
      end
  end.

(** The retry loop of [send]: one answer of the socket per attempt. *)
Fixpoint writeLoop (msgBytes : list byte) (dst : option net.IPAddr)
    (clock : SendClock) (answers : list (option error))
    (timer : Timer.t) : SendStatus * Timer.t * list SendEffect :=
  match answers with
  | [] => (SendRetrying, timer, [])
  | answer :: rest =>
      let wrote := DidWriteTo msgBytes dst answer in
      match answer with
      | Some err =>
          let retry :=
            match err with
            | NetOpError inner _ => error_eqb inner ENOBUFS
            | _ => false
            end in
          if retry then
            let '(status, timer, effects) :=
              writeLoop msgBytes dst clock rest timer in
            (status, timer, wrote :: effects)
          else (SendReturned (Some err), timer, [wrote])
      | None =>
          (SendReturned None, Timer.Stop (atStop clock) timer,
           [wrote; DidTimerStop (atStop clock)])
      end
  end.

(** [func (d *icmpDriver) send(timer *Timer) error]: how the task ends,
    the driver and the timer as it leaves them, and what it did. *)
Definition send (clock : SendClock) (answers : list (option error))
    (d : t) (timer : Timer.t) : SendStatus * t * Timer.t * list SendEffect :=
  match messageProvider d with
  | None => (SendPanicked "nil pointer dereference", d, timer, [])
  | Some p =>
      match icmpMessageProvider.Provide (atProvide clock) p with
      | Panic why => (SendPanicked why, d, timer, [])
      | Ok (msg, p') =>
          let d' := {| config := config d;
                       ctx := ctx d;
                       messageProvider := Some p';
                       packetConn := packetConn d;
                       protocolHandler := protocolHandler d |} in
          let '(msgBytes, err) := Marshal msg in
          match err with
          | Some _ =>
              (SendReturned err, d', timer, [DidProvide msg; DidMarshal err])
          | None =>
              let timer := Timer.Start (atStart clock) timer in
              let '(status, timer, effects) :=
                writeLoop msgBytes (Addr (config d)) clock answers timer in
              (status, d', timer,
               [DidProvide msg; DidMarshal None; DidTimerStart (atStart clock)]
                 ++ effects)
          end
      end
  end.

End WithLibrary.
End icmpDriver.

(** A raw packet arrives that [handlePacket] tells the probe to ignore. *)
Definition ignoredReply (d : icmpDriver.t) (ev : PingEvent) : Prop :=
  exists raw, ev = Reply raw
              /\ icmpDriver.handlePacket d raw = Ok (Some ErrICMPIgnoredPacket).

(** ** Values for exercising the statements *)

Definition testAddr : net.IPAddr :=
  {| net.IP := [x7f; x00; x00; x01]; net.Zone := "" |}.

Definition testEntropy : Entropy :=
  {| drawID := 4660; drawTracker := 81985529216486895 |}.

(** A family test by the length of the address. *)
Definition isIPv4ByLength (ip : list byte) : bool := (List.length ip =? 4)%nat.

(** A marshaller that lays the message out without computing a checksum. *)
Definition marshalPlain (msg : icmp.Message) : list byte * option error :=
  match icmp.Body msg with
  | icmp.BodyEcho e =>
      ([Go.byte_of_Z (match icmp.Type' msg with icmp.ICMPv4 n | icmp.ICMPv6 n => n end);
        Go.byte_of_Z (icmp.Code msg); x00; x00;
        Go.byte_of_Z (icmp.ID e / 256); Go.byte_of_Z (icmp.ID e);
        Go.byte_of_Z (icmp.Seq e / 256); Go.byte_of_Z (icmp.Seq e)]
         ++ icmp.Data e, None)
  | _ => ([], Some (ErrLibrary "unsupported body"))
  end.

(** The IPv4 driver for [testAddr] as [ICMP] and then [Connect] leave it. *)
Definition testDriver : icmpDriver.t :=
  {| icmpDriver.config := {| Addr := Some testAddr;
                             ReadTimeout := defaultReadTimeout |};
     icmpDriver.ctx := Some 1%nat;
     icmpDriver.messageProvider :=
       Some (icmpMessageProvider.new icmpIPv4Handler.handler (Some testAddr)
                                     testEntropy);
     icmpDriver.packetConn := Some (Conn 4);
     icmpDriver.protocolHandler := icmpIPv4Handler.handler |}.

(** The provider of [testDriver], an instant, and an echo request before
    and after [WriteData] has filled in its payload at that instant. *)
Definition testProvider : icmpMessageProvider.t :=
  icmpMessageProvider.new icmpIPv4Handler.handler (Some testAddr) testEntropy.

Definition testNow : time.Time := 1700000000000000000.

Definition blankEcho : icmp.Message :=
  {| icmp.Type' := ipv4.ICMPTypeEcho; icmp.Code := 0; icmp.Checksum := 0;
     icmp.Body := icmp.BodyEcho {| icmp.ID := 4660; icmp.Seq := 0;
                                   icmp.Data := [] |} |}.

Definition stampedEcho : icmp.Message :=
  {| icmp.Type' := ipv4.ICMPTypeEcho; icmp.Code := 0; icmp.Checksum := 0;
     icmp.Body :=
       icmp.BodyEcho
         {| icmp.ID := 4660; icmp.Seq := 0;
            icmp.Data := timeToBytes testNow
                         ++ intToBytes (icmpMessageProvider.tracker testProvider) |} |}.

Definition testClock : SendClock :=
  {| atProvide := testNow; atStart := testNow + 10; atStop := testNow + 25 |}.

(** The bytes of an echo reply that answers a request of provider [p]. *)
Definition echoReplyDatagram (p : icmpMessageProvider.t) (seq : Z)
    (stamp : time.Time) : list byte :=
  [x00; x00; x00; x00;
   Go.byte_of_Z (icmpMessageProvider.id p / 256);
   Go.byte_of_Z (icmpMessageProvider.id p);
   Go.byte_of_Z (seq / 256); Go.byte_of_Z seq]
    ++ timeToBytes stamp ++ intToBytes (icmpMessageProvider.tracker p).

(** The bytes of a Destination Unreachable message (type 3, code 1) quoting
    the start of an IPv4 header. *)
Definition dstUnreachDatagram : list byte :=
  [x03; x01; xfc; xfe; x00; x00; x00; x00; x45; x00; x00; x1c].

(** One pass of the receive loop in which the read succeeds with the given
    datagram. *)
Definition readTurn (datagram : list byte) : RecvTurn :=
  {| ctxErr := None;
     deadlineErr := None;
     socketRead :=
       {| read4 := ReadOK datagram (Some {| ipv4.TTL := 64 |});
          read6 := ReadOK datagram (Some {| ipv6.HopLimit := 64 |}) |} |}.

(** The packet the receive task builds from an echo reply to the first
    request of [testDriver], and the one it builds from a reply to some
    other prober (same identifier, another tracker). *)
Definition goodReply : RawPacket :=
  fst (icmpDriver.recvPacket testDriver
         (readTurn (echoReplyDatagram testProvider 0 testNow))).

Definition strayDatagram : list byte :=
  echoReplyDatagram
    {| icmpMessageProvider.mut := Unlocked;
       icmpMessageProvider.id := icmpMessageProvider.id testProvider;
       icmpMessageProvider.msgType := ipv4.ICMPTypeEcho;
       icmpMessageProvider.seq := 0;
       icmpMessageProvider.tracker := 99 |} 7 testNow.

Definition strayReply : RawPacket :=
  fst (icmpDriver.recvPacket testDriver (readTurn strayDatagram)).

(** Two callers of [Provide] whose statements interleave: caller 1 asks for
    the mutex while caller 0 holds it, and gets it once caller 0 is done. *)
Definition twoCallers : list (nat * time.Time) :=
  [(0%nat, testNow); (1%nat, testNow); (0%nat, testNow + 1);
   (1%nat, testNow + 2); (0%nat, testNow + 3); (0%nat, testNow + 4);
   (1%nat, testNow + 5); (1%nat, testNow + 6); (1%nat, testNow + 7);
   (1%nat, testNow + 8)].

(** ** The Pinger interface and the pinger as one *)

(** [type Pinger interface] over the state [P] of an implementation; a
    method can panic. *)
Record Pinger (P : Type) : Type := {
  pngConnect : Context -> P -> Go.result (option error * P);
  pngDisconnect : P -> Go.result (option error * P);
  pngPing : P -> Go.result ((Packet * option error) * P)
}.
Arguments pngConnect {P} _ _ _.
Arguments pngDisconnect {P} _ _.
Arguments pngPing {P} _ _.

(** The [*pinger] that [New] returns, as a [Pinger]. *)
Definition pingerOf {D : Type} (drv : Driver D) : Pinger (@pinger.t D) :=
  {| pngConnect := fun ctx p => Ok (pinger.Connect drv ctx p);
     pngDisconnect := fun p => Ok (pinger.Disconnect drv p);
     pngPing := fun p => Ok (pinger.Ping drv p) |}.

(** The calls a user makes on a [Pinger], and a run of a sequence of them:
    what each returned and the state left, or the panic that ended it. *)
Inductive PingerCall : Type :=
| DoConnect (ctx : Context)
| DoDisconnect
| DoPing.

Definition callPinger {P : Type} (png : Pinger P) (c : PingerCall) (p : P)
  : Go.result ((Packet * option error) * P) :=
  match c with
  | DoConnect ctx =>
      match pngConnect png ctx p with
      | Ok (err, p') => Ok ((Packet_zero, err), p')
      | Panic why => Panic why
      end
  | DoDisconnect =>
      match pngDisconnect png p with
      | Ok (err, p') => Ok ((Packet_zero, err), p')
      | Panic why => Panic why
      end
  | DoPing => pngPing png p
  end.

Fixpoint runPinger {P : Type} (png : Pinger P) (cs : list PingerCall) (p : P)
  : Go.result (list (Packet * option error) * P) :=
  match cs with
  | [] => Ok ([], p)
  | c :: rest =>
      match callPinger png c p with
      | Panic why => Panic why
      | Ok (out, p') =>
          match runPinger png rest p' with
          | Panic why => Panic why
          | Ok (outs, p'') => Ok (out :: outs, p'')
          end
      end
  end.

(** ** stats.go: the statistics middleware *)

(** [type Report struct] *)
Record Report : Type := {
  NumPings : Z;
  NumSuccessful : Z;
  NumFailed : Z;
  MeanRTT : time.Duration
}.

(** [type statResult struct] *)
Record statResult : Type := { srPacket : Packet; srErr : option error }.

Module stats.

(** [type stats struct]: the aggregated results, oldest first. *)
Definition t : Type := list statResult.

(** [func (s *stats) collectTyped() (pkts []Packet, errs []error)] *)
Definition collectTyped (s : t) : list Packet * list error :=
  fold_left
    (fun (acc : list Packet * list error) (result : statResult) =>
       let '(pkts, errs) := acc in
       match srErr result with
       | Some err => (pkts, errs ++ [err])
       | None => (pkts ++ [srPacket result], errs)
       end)
    s ([], []).

(** The loop [for _, pkt := range pkts { totalRTT += pkt.RTT }], in 64-bit
    arithmetic. *)
Definition totalRTT (pkts : list Packet) : time.Duration :=
  fold_left (fun total pkt => Go.wrap64 (total + RTT (Timed pkt))) pkts 0.

(** [func (s *stats) Calculate() (rep Report)]; the division of two
    [Duration]s truncates toward zero. *)
Definition Calculate (s : t) : Report :=
  let '(pkts, errs) := collectTyped s in
  let numPkts := Go.len pkts in
  let numErrs := Go.len errs in
  {| NumPings := Go.len s;
     NumSuccessful := numPkts;
     NumFailed := numErrs;
     MeanRTT := if 0 <? numPkts
                then Z.quot (totalRTT pkts) (Go.len pkts)
                else 0 |}.

End stats.

(** The probe behind the result returned no error. *)
Definition succeeded (r : statResult) : bool :=
  match srErr r with
  | None => true
  | Some _ => false
  end.

(** The results of the [Ping] calls among the calls of a run, given what
    each call returned. *)
Fixpoint pingResults (cs : list PingerCall) (outs : list (Packet * option error))
  : list statResult :=
  match cs, outs with
  | DoPing :: cs, (pkt, err) :: outs =>
      {| srPacket := pkt; srErr := err |} :: pingResults cs outs
  | _ :: cs, _ :: outs => pingResults cs outs
  | _, _ => []
  end.

Definition isPing (c : PingerCall) : bool :=
  match c with
  | DoPing => true
  | _ => false
  end.

Module tracker.
Section WithNext.

Context {P : Type} (inner : Pinger P).

(** [type tracker struct]; [stats] is the aggregator that [Track] also
    hands to the caller. *)
Record t : Type := mk {
  next : P;
  mut : Mutex;
  stats : stats.t
}.

(** [func Track(next Pinger) (Pinger, Stats)] *)
Definition Track (n : P) : t :=
  {| next := n; mut := Unlocked; stats := [] |}.

(** [func (t *tracker) Connect(ctx context.Context) error] *)
Definition Connect (ctx : Context) (tr : t) : Go.result (option error * t) :=
  match pngConnect inner ctx (next tr) with
  | Panic why => Panic why
  | Ok (err, n) => Ok (err, {| next := n; mut := mut tr; stats := stats tr |})
  end.

(** [func (t *tracker) Disconnect() error] *)
Definition Disconnect (tr : t) : Go.result (option error * t) :=
  match pngDisconnect inner (next tr) with
  | Panic why => Panic why
  | Ok (err, n) => Ok (err, {| next := n; mut := mut tr; stats := stats tr |})
  end.

(** [func (t *tracker) Ping() (Packet, error)]: the append is made between
    [t.mut.Lock()] and [t.mut.Unlock()]. *)
Definition Ping (tr : t) : Go.result ((Packet * option error) * t) :=
  match pngPing inner (next tr) with
  | Panic why => Panic why
  | Ok ((pkt, err), n) =>
      let locked := {| next := n; mut := Locked; stats := stats tr |} in
      let appended :=
        {| next := next locked; mut := mut locked;
           stats := stats locked ++ [{| srPacket := pkt; srErr := err |}] |} in
      Ok ((pkt, err),
          {| next := next appended; mut := Unlocked; stats := stats appended |})
  end.

Definition asPinger : Pinger t :=
  {| pngConnect := Connect; pngDisconnect := Disconnect; pngPing := Ping |}.

End WithNext.
End tracker.

(** ** error.go: the middleware that forces failures *)

(** A [float64]: not a number, an infinity, or the rational it stands
    for. *)
Inductive float64 : Type :=
| NaN
| Inf (negative : bool)
| Num (num : Z) (den : positive).

(** [a > b] on [float64]. *)
Definition float_gt (a b : float64) : bool :=
  match a, b with
  | NaN, _ => false
  | _, NaN => false
  | Inf true, _ => false
  | Inf false, Inf false => false
  | Inf false, _ => true
  | Num _ _, Inf negative => negative
  | Num n d, Num n' d' => n' * Zpos d <? n * Zpos d'
  end.

(** A [*rand.Rand]: the values that successive calls of [Float64] return. *)
Definition Rand : Type := nat -> float64.

(** [rng.Float64()] *)
Definition Float64 (rng : Rand) : float64 * Rand :=
  (rng 0%nat, fun k => rng (S k)).

(** What the library promises of [Float64]: a number of [[0.0, 1.0)]. *)
Definition unitDraws (rng : Rand) : Prop :=
  forall k, exists n d, rng k = Num n d /\ 0 <= n < Zpos d.

(** The chances the comment of [Errors] speaks of: 1 (or more), at which
    "every ping will fail", and 0 (or less, or no number), at which "no
    errors will ever occur". *)
Definition atLeastOne (c : float64) : Prop :=
  c = Inf false \/ exists n d, c = Num n d /\ Zpos d <= n.

Definition atMostZero (c : float64) : Prop :=
  c = NaN \/ c = Inf true \/ exists n d, c = Num n d /\ n <= 0.

(** [ErrForcedError = errors.New("forced failure by error pinger")] *)
Definition ErrForcedError : error := ErrLibrary "forced failure by error pinger".

Module errorPinger.
Section WithNext.

Context {P : Type} (inner : Pinger P).

(** [type errorPinger struct]; [sources] are the generators that
    [rand.New(rand.NewSource(time.Now().Unix()))] yields at the coming
    calls of [Connect]. *)
Record t : Type := mk {
  next : P;
  chance : float64;
  rng : option Rand;
  sources : nat -> Rand
}.

(** [func Errors(chance float64, next Pinger) Pinger] *)
Definition Errors (c : float64) (n : P) (world : nat -> Rand) : t :=
  {| next := n; chance := c; rng := None; sources := world |}.

(** [func (p *errorPinger) Connect(ctx context.Context) error] *)
Definition Connect (ctx : Context) (p : t) : Go.result (option error * t) :=
  let seeded := sources p 0%nat in
  let later := fun k => sources p (S k) in
  match pngConnect inner ctx (next p) with
  | Panic why => Panic why
  | Ok (err, n) =>
      Ok (err, {| next := n; chance := chance p; rng := Some seeded;
                  sources := later |})
  end.

(** [func (p *errorPinger) Disconnect() error] *)
Definition Disconnect (p : t) : Go.result (option error * t) :=
  match pngDisconnect inner (next p) with
  | Panic why => Panic why
  | Ok (err, n) =>
      Ok (err, {| next := n; chance := chance p; rng := rng p;
                  sources := sources p |})
  end.

(** [func (p *errorPinger) hasError() bool]: the answer and the pinger
    with its generator advanced. *)
Definition hasError (p : t) : Go.result (bool * t) :=
  match rng p with
  | None => Panic "nil pointer dereference"
  | Some r =>
      let '(n, r') := Float64 r in
      Ok (float_gt (chance p) n,
          {| next := next p; chance := chance p; rng := Some r';
             sources := sources p |})
  end.

(** [func (p *errorPinger) Ping() (Packet, error)] *)
Definition Ping (p : t) : Go.result ((Packet * option error) * t) :=
  match hasError p with
  | Panic why => Panic why
  | Ok (true, p') => Ok ((Packet_zero, Some ErrForcedError), p')
  | Ok (false, p') =>
      match pngPing inner (next p') with
      | Panic why => Panic why
      | Ok (out, n) =>
          Ok (out, {| next := n; chance := chance p'; rng := rng p';
                      sources := sources p' |})
      end
  end.

Definition asPinger : Pinger t :=
  {| pngConnect := Connect; pngDisconnect := Disconnect; pngPing := Ping |}.

End WithNext.
End errorPinger.

(** ** log.go: the logging middleware *)

(** What reaches the logger: [lc.Error(err)] or [lc.Trace(msg)], under the
    context and the value of the label [func]. *)
Inductive LogEntry : Type :=
| LoggedError (context func : string) (err : error)
| LoggedTrace (context func msg : string).

Definition isErrorEntry (e : LogEntry) : bool :=
  match e with
  | LoggedError _ _ _ => true
  | LoggedTrace _ _ _ => false
  end.

(** The call returned an error. *)
Definition failedOut (out : Packet * option error) : bool :=
  match snd out with
  | Some _ => true
  | None => false
  end.

Module pingerLogger.
Section WithNext.

Context {P : Type} (inner : Pinger P).

(** The [String()] method of the address implementations. *)
Variable addrString : net.Addr -> string.

(** [type pingerLogger struct]; [log] is what the logger has received,
    oldest first. *)
Record t : Type := mk {
  log : list LogEntry;
  context : string;
  next : P
}.

(** [func Log(log *logger.Instance, context string, next Pinger) Pinger] *)
Definition Log (l : list LogEntry) (c : string) (n : P) : t :=
  {| log := l; context := c; next := n |}.

(** The entry that the [if err != nil] of [Connect] and [Disconnect]
    writes. *)
Definition outcomeEntry (c func : string) (err : option error) : LogEntry :=
  match err with
  | Some e => LoggedError c func e
  | None => LoggedTrace c func "OK"
  end.

(** [func (p *pingerLogger) Connect(ctx context.Context) error] *)
Definition Connect (ctx : Context) (p : t) : Go.result (option error * t) :=
  match pngConnect inner ctx (next p) with
  | Panic why => Panic why
  | Ok (err, n) =>
      Ok (err, {| log := log p ++ [outcomeEntry (context p) "connect" err];
                  context := context p; next := n |})
  end.

(** [func (p *pingerLogger) Disconnect() error] *)
Definition Disconnect (p : t) : Go.result (option error * t) :=
  match pngDisconnect inner (next p) with
  | Panic why => Panic why
  | Ok (err, n) =>
      Ok (err, {| log := log p ++ [outcomeEntry (context p) "disconnect" err];
                  context := context p; next := n |})
  end.

(** [func (p *pingerLogger) formatPacket(pkt Packet) string]; the division
    of the two [Duration]s truncates toward zero. *)
Definition formatPacket (pkt : Packet) : Go.result string :=
  match Address (Meta pkt) with
  | None => Panic "nil pointer dereference"
  | Some a =>
      Ok (String.append "received "
            (String.append (Go.fmt_d (Size (Raw pkt)))
               (String.append "B from "
                  (String.append (addrString a)
                     (String.append " in "
                        (String.append
                           (Go.fmt_d (Z.quot (RTT (Timed pkt)) time.Millisecond))
                           "ms"))))))
  end.

(** [func (p *pingerLogger) Ping() (Packet, error)] *)
Definition Ping (p : t) : Go.result ((Packet * option error) * t) :=
  match pngPing inner (next p) with
  | Panic why => Panic why
  | Ok ((pkt, err), n) =>
      match err with
      | Some e =>
          Ok ((pkt, err),
              {| log := log p ++ [LoggedError (context p) "ping" e];
                 context := context p; next := n |})
      | None =>
          match formatPacket pkt with
          | Panic why => Panic why
          | Ok msg =>
              Ok ((pkt, err),
                  {| log := log p ++ [LoggedTrace (context p) "ping" msg];
                     context := context p; next := n |})
          end
      end
  end.

Definition asPinger : Pinger t :=
  {| pngConnect := Connect; pngDisconnect := Disconnect; pngPing := Ping |}.

End WithNext.
End pingerLogger.

(** ** http.go: the HTTP driver *)

(** What the HTTP exchange of one probe comes to: [client.Do] fails,
    reading the body fails, or the body is read. *)
Inductive HttpOutcome : Type :=
| DoFailed (err : error)
| ReadFailed (err : error)
| Answered (body : list byte).

(** The event that the [select] of the HTTP [Ping] takes: the scope is
    done (with its error), or the send task has delivered. *)
Inductive HttpEvent : Type :=
| HttpDone (err : error)
| HttpSent (outcome : HttpOutcome).

Module httpDriver.
Section WithLibrary.

(** [*url.URL], [url.Parse] and the [String] method of net/url. *)
Variable URL : Type.
Variable urlParse : string -> URL + error.
Variable urlString : URL -> string.

(** [http.MethodGet], [http.MethodHead] *)
Definition MethodGet : string := "GET".
Definition MethodHead : string := "HEAD".

(** [type httpAddr struct] *)
Record httpAddr : Type := { Method : string; addrURL : URL }.

(** [type httpDriver struct]; the zero [http.Client] is not
    represented. *)
Record t : Type := mk {
  ctx : option Context;
  addr : httpAddr
}.

(** [func errInvalidHTTPMethod(m string) error] *)
Definition errInvalidHTTPMethod (m : string) : error :=
  Errorf (String.append "invalid method " m).

(** [func httpWithAddr(addr httpAddr) (Pinger, error)] *)
Definition httpWithAddr (a : httpAddr) : option (@pinger.t t) * option error :=
  if String.eqb (Method a) MethodGet || String.eqb (Method a) MethodHead
  then (Some (pinger.New {| ctx := None; addr := a |}), None)
  else (None, Some (errInvalidHTTPMethod (Method a))).

(** [func HTTP(method string, reqURL string) (Pinger, error)] *)
Definition HTTP (method reqURL : string) : option (@pinger.t t) * option error :=
  match urlParse reqURL with
  | inr err => (None, Some err)
  | inl u => httpWithAddr {| Method := method; addrURL := u |}
  end.

(** [func (a *httpAddr) Network() string] *)
Definition Network (a : httpAddr) : string := "http".

(** [func (a *httpAddr) String() string] *)
Definition String (a : httpAddr) : string :=
  String.append (Method a) (String.append " " (urlString (addrURL a))).

(** [func (d *httpDriver) Address() net.Addr] *)
Definition Address (d : t) : net.Addr :=
  net.AddrOther (Network (addr d)) (String (addr d)).

(** [func (d *httpDriver) Connect(ctx context.Context) error] *)
Definition Connect (parent : Context) (d : t) : option error * t :=
  (None, {| ctx := Some (S parent); addr := addr d |}).

(** [func (d *httpDriver) Disconnect() error] *)
Definition Disconnect (d : t) : Go.result (option error * t) :=
  match ctx d with
  | None => Panic "nil pointer dereference"
  | Some _ => Ok (None, d)
  end.

(** [func (d *httpDriver) send() (RawPacket, error)] *)
Definition send (d : t) (outcome : HttpOutcome) : RawPacket * option error :=
  match outcome with
  | DoFailed err => (RawPacket_zero, Some err)
  | ReadFailed err => (RawPacket_zero, Some err)
  | Answered msg => ({| Message := msg; Size := Go.len msg; TTL := 0 |}, None)
  end.

(** [func (d *httpDriver) Ping() (RawPacket, error)]: the send task puts
    an error on [errc] and a packet on [rawc]; the [select] takes one
    event. *)
Definition Ping (d : t) (ev : HttpEvent) : Go.result (RawPacket * option error) :=
  match ctx d with
  | None => Panic "nil pointer dereference"
  | Some _ =>
      match ev with
      | HttpDone err => Ok (RawPacket_zero, Some err)
      | HttpSent outcome =>
          match send d outcome with
          | (_, Some err) => Ok (RawPacket_zero, Some err)
          | (raw, None) => Ok (raw, None)
          end
      end
  end.

End WithLibrary.
End httpDriver.

(** ** icmp.go: the rest of the driver *)

(** What [Disconnect] does to the world outside the driver. *)
Inductive DriverEffect : Type :=
| CancelledScope (c : Context)
| ClosedConn (c : PacketConn).

(** [func (d *icmpDriver) Disconnect() error]; [closeErr] is what closing
    the socket answers.  The driver keeps its scope and its socket. *)
Definition icmpDriver_Disconnect (closeErr : option error) (d : icmpDriver.t)
  : Go.result (option error * list DriverEffect) :=
  match icmpDriver.ctx d with
  | None => Panic "nil pointer dereference"
  | Some c =>
      match icmpDriver.packetConn d with
      | None => Ok (Some errInvalidConn, [CancelledScope c])
      | Some conn => Ok (closeErr, [CancelledScope c; ClosedConn conn])
      end
  end.

(** An echo message on the wire: type, code, checksum, identifier and
    sequence number in 16 bits each, then the data. *)
Definition echoDatagram (ty c1 c2 : byte) (id seq : Z) (data : list byte)
  : list byte :=
  [ty; x00; c1; c2;
   Go.byte_of_Z (id / 256); Go.byte_of_Z id;
   Go.byte_of_Z (seq / 256); Go.byte_of_Z seq] ++ data.

(** The number of an [icmp.Type] as the byte that carries it. *)
Definition typeByte (t : icmp.Type_) : byte :=
  match t with
  | icmp.ICMPv4 n => Go.byte_of_Z n
  | icmp.ICMPv6 n => Go.byte_of_Z n
  end.

(** The packets of the turns whose read succeeded, oldest first. *)
Definition readPackets (d : icmpDriver.t) (turns : list RecvTurn)
  : list RawPacket :=
  flat_map (fun turn =>
              match icmpDriver.recvPacket d turn with
              | (raw, None) => [raw]
              | (_, Some _) => []
              end) turns.

(** A turn in which the scope is not done and the read either succeeds or
    fails with a [*net.OpError] that reports a timeout. *)
Definition quietTurn (d : icmpDriver.t) (turn : RecvTurn) : Prop :=
  ctxErr turn = None
  /\ (snd (icmpDriver.recvPacket d turn) = None
      \/ exists inner, snd (icmpDriver.recvPacket d turn)
                       = Some (NetOpError inner true)).

(** Fixtures for the middleware: two aggregated results (a reply after 500
    ns and a forced failure), a generator whose every draw is one half,
    and a turn of the receive task that finds the scope cancelled. *)
Definition testStats : stats.t :=
  [ {| srPacket := {| Meta := {| Address := None |};
                      Raw := RawPacket_zero;
                      Timed := {| RTT := 500; Sent := testNow |} |};
       srErr := None |};
    {| srPacket := Packet_zero; srErr := Some ErrForcedError |} ].

Definition halfDraws : nat -> Rand := fun _ _ => Num 1 2.

Definition cancelledTurn : RecvTurn :=
  {| ctxErr := Some ContextCanceled;
     deadlineErr := None;
     socketRead := socketRead (readTurn []) |}.







(* ================================================================== *)
(** * Part II: properties                                              *)
(* ================================================================== *)

(** ** Integers and bytes *)

Lemma wrap64_in_range (z : Z) : Go.in_int64 z -> Go.wrap64 z = z.
Proof.
  unfold Go.in_int64, Go.wrap64, Go.int64_min, Go.int64_max.
  intros H. rewrite Z.mod_small by lia. lia.
Qed.

Lemma wrap64_uint64 (z : Z) : Go.in_int64 z -> Go.wrap64 (Go.uint64 z) = z.
Proof.
  unfold Go.in_int64, Go.wrap64, Go.uint64, Go.int64_min, Go.int64_max.
  intros H.
  rewrite Zplus_mod_idemp_l.
  rewrite Z.mod_small by lia. lia.
Qed.

Lemma Z_of_byte_range (b : byte) : 0 <= Go.Z_of_byte b < 256.
Proof.
  unfold Go.Z_of_byte. pose proof (Byte.to_N_bounded b). lia.
Qed.

Lemma Z_of_byte_of_Z (z : Z) : Go.Z_of_byte (Go.byte_of_Z z) = z mod 256.
Proof.
  unfold Go.Z_of_byte, Go.byte_of_Z.
  assert (Hr : 0 <= z mod 256 < 256) by (apply Z.mod_pos_bound; lia).
  destruct (Byte.of_N (Z.to_N (z mod 256))) as [b|] eqn:E.
  - apply Byte.to_of_N in E. rewrite E. lia.
  - apply Byte.of_N_None_iff in E. lia.
Qed.

Lemma be_encode_length (n : nat) (z : Z) : List.length (be_encode n z) = n.
Proof. induction n as [|k IH]; simpl; [reflexivity | now rewrite IH]. Qed.

Lemma be_fold_encode (n : nat) (z acc : Z) :
  fold_left (fun a b => a * 256 + Go.Z_of_byte b) (be_encode n z) acc
  = acc * 256 ^ Z.of_nat n + z mod 256 ^ Z.of_nat n.
Proof.
  revert acc. induction n as [|k IH]; intros acc.
  - simpl. rewrite Z.mod_1_r. lia.
  - cbn [be_encode fold_left]. rewrite IH, Z_of_byte_of_Z.
    rewrite Nat2Z.inj_succ, Z.pow_succ_r by lia.
    assert (Hk : 0 < 256 ^ Z.of_nat k) by (apply Z.pow_pos_nonneg; lia).
    rewrite (Z.mul_comm 256 (256 ^ Z.of_nat k)).
    rewrite (Z.rem_mul_r z (256 ^ Z.of_nat k) 256) by lia.
    lia.
Qed.

Lemma be_decode_encode (n : nat) (z : Z) :
  be_decode (be_encode n z) = z mod 256 ^ Z.of_nat n.
Proof. unfold be_decode. rewrite be_fold_encode. lia. Qed.

Lemma intToBytes_length (i : Z) : List.length (intToBytes i) = 8%nat.
Proof. apply be_encode_length. Qed.

Lemma bytesToInt_intToBytes (i : Z) : Go.in_int64 i -> bytesToInt (intToBytes i) = i.
Proof.
  intros H. unfold bytesToInt, intToBytes.
  rewrite be_decode_encode.
  change (256 ^ Z.of_nat 8) with (2 ^ 64).
  unfold Go.uint64 at 1. rewrite Z.mod_mod by lia.
  now apply wrap64_uint64.
Qed.

Lemma bytesToTime_timeToBytes (t : time.Time) :
  Go.in_int64 t -> bytesToTime (timeToBytes t) = t.
Proof.
  intros H. unfold bytesToTime, timeToBytes, time.UnixNano, time.Unix.
  rewrite (wrap64_in_range t H), bytesToInt_intToBytes by assumption.
  lia.
Qed.

(** ** Slices *)

Lemma slice_front {A : Type} (n : nat) (a rest : list A) :
  List.length a = n -> Go.slice 0 n (a ++ rest) = a.
Proof.
  intros H. unfold Go.slice. simpl. rewrite Nat.sub_0_r.
  rewrite firstn_app, H, Nat.sub_diag. simpl.
  rewrite <- H, firstn_all. apply app_nil_r.
Qed.

Lemma slice_second {A : Type} (n m : nat) (a b rest : list A) :
  List.length a = n -> List.length b = (m - n)%nat ->
  Go.slice n m (a ++ b ++ rest) = b.
Proof.
  intros Ha Hb. unfold Go.slice.
  rewrite skipn_app, Ha, Nat.sub_diag. simpl.
  rewrite <- Ha, skipn_all. simpl.
  rewrite Ha, firstn_app, Hb, Nat.sub_diag. simpl.
  rewrite <- Hb, firstn_all. apply app_nil_r.
Qed.

(** ** The codec: correlation payload *)

Lemma WriteData_payload (now : time.Time) (p : icmpMessageProvider.t)
    (msg msg' : icmp.Message) :
  icmpMessageProvider.WriteData now p msg = Ok msg' ->
  exists echo,
    icmp.Body msg' = icmp.BodyEcho echo /\
    icmp.Data echo = timeToBytes now ++ intToBytes (icmpMessageProvider.tracker p).
Proof.
  unfold icmpMessageProvider.WriteData.
  assert (Hlen : Go.len (timeToBytes now ++ intToBytes (icmpMessageProvider.tracker p)) = 16).
  { unfold Go.len, timeToBytes.
    rewrite length_app, !intToBytes_length. reflexivity. }
  rewrite Hlen. change (0 <? timeSize + trackerSize - 16) with false. cbv iota.
  destruct (icmp.Body msg) as [echo| | | | | |]; intros H; try discriminate.
  injection H as <-. eexists. split; reflexivity.
Qed.

Lemma ReadData_payload (q : icmpMessageProvider.t) (reply : icmp.Message)
    (echo : icmp.Echo) (stamp track extra : list byte) :
  icmp.Body reply = icmp.BodyEcho echo ->
  List.length stamp = 8%nat -> List.length track = 8%nat ->
  icmp.Data echo = stamp ++ track ++ extra ->
  icmpMessageProvider.ReadData q reply
  = Ok (bytesToInt track, bytesToTime stamp, None).
Proof.
  intros Hb Hs Ht Hd. unfold icmpMessageProvider.ReadData.
  rewrite Hb, Hd.
  assert (Hlen : (Go.len (stamp ++ track ++ extra) <? timeSize + trackerSize) = false).
  { apply Z.ltb_ge. unfold Go.len, timeSize, trackerSize.
    rewrite !length_app, Hs, Ht. lia. }
  rewrite Hlen.
  change (Z.to_nat timeSize) with 8%nat.
  change (Z.to_nat (timeSize + trackerSize)) with 16%nat.
  rewrite (slice_front 8 stamp (track ++ extra) Hs).
  rewrite (slice_second 8 16 stamp track extra Hs) by (rewrite Ht; reflexivity).
  reflexivity.
Qed.

(** C5: the payload [WriteData] builds for the instant [now] and the
    provider's tracker (eight bytes of timestamp, then eight bytes of
    tracker), followed by any further bytes, is decoded by [ReadData] to
    the same tracker and to a timestamp less than one encoding unit (a
    nanosecond) away from [now]. *)
Theorem C5_payload_round_trip :
  forall (p q : icmpMessageProvider.t) (now : time.Time)
         (msg msg' : icmp.Message) (extra : list byte),
    Go.in_int64 now ->
    Go.in_int64 (icmpMessageProvider.tracker p) ->
    icmpMessageProvider.WriteData now p msg = Ok msg' ->
    exists echo,
      icmp.Body msg' = icmp.BodyEcho echo /\
      icmp.Data echo = timeToBytes now ++ intToBytes (icmpMessageProvider.tracker p) /\
      forall (reply : icmp.Message) (echo' : icmp.Echo),
        icmp.Body reply = icmp.BodyEcho echo' ->
        icmp.Data echo' = icmp.Data echo ++ extra ->
        exists ts,
          icmpMessageProvider.ReadData q reply
          = Ok (icmpMessageProvider.tracker p, ts, None)
          /\ Z.abs (ts - now) < time.Nanosecond.
Proof.
  intros p q now msg msg' extra Hnow Htr Hw.
  destruct (WriteData_payload now p msg msg' Hw) as [echo [Hb Hd]].
  exists echo. split; [exact Hb|]. split; [exact Hd|].
  intros reply echo' Hb' Hd'.
  exists now. split.
  - rewrite (ReadData_payload q reply echo' (timeToBytes now)
               (intToBytes (icmpMessageProvider.tracker p)) extra Hb').
    + now rewrite bytesToInt_intToBytes, bytesToTime_timeToBytes.
    + apply intToBytes_length.
    + apply intToBytes_length.
    + rewrite Hd', Hd, <- app_assoc. reflexivity.
  - unfold time.Nanosecond. lia.
Qed.

(** ** The codec: replies that are too short *)

(** C6: on an echo message whose payload has length [L], [ReadData] fails
    exactly when [L < timeSize + trackerSize = 16]; the error is the one
    [errICMPReplyTooShort] formats from 16 and [L]; from 16 bytes on it
    succeeds. *)
Theorem C6_ReadData_reply_too_short :
  forall (p : icmpMessageProvider.t) (ty : icmp.Type_) (code ck : Z)
         (echo : icmp.Echo),
    let msg := {| icmp.Type' := ty; icmp.Code := code; icmp.Checksum := ck;
                  icmp.Body := icmp.BodyEcho echo |} in
    let L := Go.len (icmp.Data echo) in
    timeSize + trackerSize = 16 /\
    (L < 16 ->
       icmpMessageProvider.ReadData p msg
       = Ok (0, time.Unix 0 0, Some (errICMPReplyTooShort 16 L))) /\
    (16 <= L ->
       exists tracker timestamp,
         icmpMessageProvider.ReadData p msg = Ok (tracker, timestamp, None)) /\
    errICMPReplyTooShort 16 L
    = Errorf (String.append "reply too short (expected 16B; actual "
                (String.append (Go.fmt_d L) "B)")).
Proof.
  intros p ty code ck echo msg L.
  split; [reflexivity|]. split; [|split].
  - intros HL. unfold icmpMessageProvider.ReadData. cbn [icmp.Body msg].
    fold L. change (timeSize + trackerSize) with 16.
    apply Z.ltb_lt in HL. now rewrite HL.
  - intros HL. unfold icmpMessageProvider.ReadData. cbn [icmp.Body msg].
    fold L. change (timeSize + trackerSize) with 16.
    apply Z.ltb_ge in HL. rewrite HL. eauto.
  - reflexivity.
Qed.

(** ** The pinger: connect/disconnect machine *)

Section PingerFacts.

Context {D : Type} (drv : Driver D).

Lemma Connect_flag (ctx : Context) (p : pinger.t) :
  pinger.connected (snd (pinger.Connect drv ctx p))
  = pinger.flagAfter (pinger.OpConnect ctx) (fst (pinger.Connect drv ctx p))
      (pinger.connected p).
Proof.
  unfold pinger.Connect.
  destruct (pinger.connected p) eqn:Hc; [simpl; now rewrite Hc|].
  destruct (drvConnect drv ctx (pinger.driver p)) as [[e|] d'];
    simpl; rewrite ?Hc; reflexivity.
Qed.

Lemma Disconnect_flag (p : pinger.t) :
  pinger.connected (snd (pinger.Disconnect drv p))
  = pinger.flagAfter pinger.OpDisconnect (fst (pinger.Disconnect drv p))
      (pinger.connected p).
Proof.
  unfold pinger.Disconnect.
  destruct (pinger.connected p) eqn:Hc; [|simpl; now rewrite Hc]. cbn [negb].
  destruct (drvDisconnect drv (pinger.driver p)) as [[e|] d'];
    simpl; rewrite ?Hc; reflexivity.
Qed.

Lemma Ping_flag (p : pinger.t) :
  pinger.connected (snd (pinger.Ping drv p)) = pinger.connected p.
Proof.
  unfold pinger.Ping.
  destruct (drvPing drv Timer.fresh (pinger.driver p)) as [[[raw [e|]] tm] d'];
    reflexivity.
Qed.

Lemma step_flag (o : pinger.op) (p : pinger.t) :
  pinger.connected (snd (pinger.step drv o p))
  = pinger.flagAfter o (fst (pinger.step drv o p)) (pinger.connected p).
Proof.
  destruct o as [ctx| |]; cbn [pinger.step].
  - apply Connect_flag.
  - apply Disconnect_flag.
  - pose proof (Ping_flag p) as H.
    destruct (pinger.Ping drv p) as [[pkt err] p']. simpl in *.
    rewrite H. now destruct err.
Qed.

Lemma run_flag (ops : list pinger.op) (p : pinger.t) :
  pinger.connected (snd (pinger.run drv ops p))
  = pinger.flagAfterAll ops (fst (pinger.run drv ops p)) (pinger.connected p).
Proof.
  revert p. induction ops as [|o ops IH]; intros p; [reflexivity|].
  cbn [pinger.run].
  pose proof (step_flag o p) as Hs.
  destruct (pinger.step drv o p) as [err p'].
  specialize (IH p').
  destruct (pinger.run drv ops p') as [errs p''].
  simpl in *. now rewrite IH, Hs.
Qed.

(** C2: [Connect] on a connected pinger returns [ErrAlreadyConnected] and
    leaves the whole pinger as it was, the record of driver calls included;
    [Disconnect] on a pinger that is not connected returns
    [ErrNotConnected] likewise.  In the legal state the operation makes
    exactly one driver call, returns what the driver returned, and flips
    the flag when the driver returned no error and keeps it otherwise.
    Along every sequence of operations the flag is the one the
    specification's machine computes from the returned errors. *)
Theorem C2_connect_disconnect_machine :
  forall (ctx : Context) (p : pinger.t) (ops : list pinger.op),
    (pinger.connected p = true ->
       pinger.Connect drv ctx p = (Some ErrAlreadyConnected, p)) /\
    (pinger.connected p = false ->
       pinger.Disconnect drv p = (Some ErrNotConnected, p)) /\
    (pinger.connected p = false ->
       let '(err, d') := drvConnect drv ctx (pinger.driver p) in
       pinger.Connect drv ctx p
       = (err, {| pinger.connected := match err with None => true | Some _ => false end;
                  pinger.driver := d';
                  pinger.calls := pinger.calls p ++ [CallConnect ctx] |})) /\
    (pinger.connected p = true ->
       let '(err, d') := drvDisconnect drv (pinger.driver p) in
       pinger.Disconnect drv p
       = (err, {| pinger.connected := match err with None => false | Some _ => true end;
                  pinger.driver := d';
                  pinger.calls := pinger.calls p ++ [CallDisconnect] |})) /\
    pinger.connected (snd (pinger.run drv ops p))
    = pinger.flagAfterAll ops (fst (pinger.run drv ops p)) (pinger.connected p).
Proof.
  intros ctx p ops. repeat split.
  - intros Hc. unfold pinger.Connect. now rewrite Hc.
  - intros Hc. unfold pinger.Disconnect. now rewrite Hc.
  - intros Hc. unfold pinger.Connect. rewrite Hc.
    destruct (drvConnect drv ctx (pinger.driver p)) as [[e|] d'];
      rewrite ?Hc; reflexivity.
  - intros Hc. unfold pinger.Disconnect. rewrite Hc. cbn [negb].
    destruct (drvDisconnect drv (pinger.driver p)) as [[e|] d'];
      rewrite ?Hc; reflexivity.
  - apply run_flag.
Qed.

(** ** The pinger: assembling the packet *)

(** C4: when the driver's probe returns the raw response [r] with no error
    and leaves the timer stamped with start [s] and stop [e], [Ping]
    returns the packet made of [r], of the address the driver reports, of
    [s] as the send instant and of the elapsed time [e.Sub(s)] as the round
    trip, which is [e - s] whenever that difference is a [Duration]; when
    the probe returns the error [err], [Ping] returns that error with the
    zero packet, and does nothing but that one driver call. *)
Theorem C4_Ping_assembles_packet :
  forall (p : pinger.t) (r : RawPacket) (s e : time.Time) (err : error)
         (tm : Timer.t) (d' : D),
    (drvPing drv Timer.fresh (pinger.driver p) = ((r, None), Timer.mk s e, d') ->
       pinger.Ping drv p
       = (({| Meta := {| Address := Some (drvAddress drv d') |};
              Raw := r;
              Timed := {| RTT := Timer.Elapsed (Timer.mk s e); Sent := s |} |},
           None),
          {| pinger.connected := pinger.connected p;
             pinger.driver := d';
             pinger.calls := pinger.calls p ++ [CallPing; CallAddress] |})
       /\ (Go.in_int64 (e - s) -> Timer.Elapsed (Timer.mk s e) = e - s)) /\
    (drvPing drv Timer.fresh (pinger.driver p) = ((r, Some err), tm, d') ->
       pinger.Ping drv p
       = ((Packet_zero, Some err),
          {| pinger.connected := pinger.connected p;
             pinger.driver := d';
             pinger.calls := pinger.calls p ++ [CallPing] |})).
Proof.
  intros p r s e err tm d'. split.
  - intros H. split.
    + unfold pinger.Ping. rewrite H. cbn. now rewrite <- app_assoc.
    + unfold Go.in_int64, Timer.Elapsed, time.Sub.
      cbn [Timer.Started Timer.Stopped]. intros [Hlo Hhi].
      rewrite (proj2 (Z.ltb_ge _ _) Hlo), (proj2 (Z.ltb_ge _ _) Hhi).
      reflexivity.
  - intros H. unfold pinger.Ping. now rewrite H.
Qed.

End PingerFacts.

(** ** The codec: sequence numbers *)

Lemma Provide_eq (now : time.Time) (p : icmpMessageProvider.t) :
  icmpMessageProvider.Provide now p
  = Ok ({| icmp.Type' := icmpMessageProvider.msgType p;
           icmp.Code := 0;
           icmp.Checksum := 0;
           icmp.Body :=
             icmp.BodyEcho
               {| icmp.ID := icmpMessageProvider.id p;
                  icmp.Seq := icmpMessageProvider.seq p;
                  icmp.Data := timeToBytes now
                               ++ intToBytes (icmpMessageProvider.tracker p) |} |},
        {| icmpMessageProvider.mut := Unlocked;
           icmpMessageProvider.id := icmpMessageProvider.id p;
           icmpMessageProvider.msgType := icmpMessageProvider.msgType p;
           icmpMessageProvider.seq := Go.wrap64 (icmpMessageProvider.seq p + 1);
           icmpMessageProvider.tracker := icmpMessageProvider.tracker p |}).
Proof.
  unfold icmpMessageProvider.Provide, icmpMessageProvider.WriteData.
  cbn [icmpMessageProvider.Lock icmpMessageProvider.tracker icmp.Body].
  assert (Hlen : Go.len (timeToBytes now ++ intToBytes (icmpMessageProvider.tracker p)) = 16).
  { unfold Go.len, timeToBytes. rewrite length_app, !intToBytes_length. reflexivity. }
  rewrite Hlen. change (0 <? timeSize + trackerSize - 16) with false. cbv iota.
  reflexivity.
Qed.

Lemma provideN_seq (nows : list time.Time) :
  forall p : icmpMessageProvider.t,
    0 <= icmpMessageProvider.seq p ->
    icmpMessageProvider.seq p + Go.len nows <= 2 ^ 63 ->
    exists msgs p',
      icmpMessageProvider.provideN nows p = Ok (msgs, p')
      /\ List.length msgs = List.length nows
      /\ (forall n m, nth_error msgs n = Some m ->
            icmp.echoSeq m = Some (icmpMessageProvider.seq p + Z.of_nat n)).
Proof.
  induction nows as [|now rest IH]; intros p Hlo Hhi.
  - exists [], p. cbn [icmpMessageProvider.provideN].
    repeat split. intros n m H. destruct n; discriminate.
  - unfold Go.len in Hhi. cbn [List.length] in Hhi. rewrite Nat2Z.inj_succ in Hhi.
    cbn [icmpMessageProvider.provideN]. rewrite Provide_eq.
    set (msg := {| icmp.Type' := icmpMessageProvider.msgType p; icmp.Code := 0;
                   icmp.Checksum := 0; icmp.Body := _ |}).
    set (p1 := {| icmpMessageProvider.mut := Unlocked;
                  icmpMessageProvider.id := icmpMessageProvider.id p;
                  icmpMessageProvider.msgType := icmpMessageProvider.msgType p;
                  icmpMessageProvider.seq := Go.wrap64 (icmpMessageProvider.seq p + 1);
                  icmpMessageProvider.tracker := icmpMessageProvider.tracker p |}).
    assert (Hmsg : icmp.echoSeq msg = Some (icmpMessageProvider.seq p + Z.of_nat 0)).
    { subst msg. unfold icmp.echoSeq. cbn. f_equal. lia. }
    destruct rest as [|now' rest'].
    + exists [msg], p1. cbn [icmpMessageProvider.provideN].
      repeat split. intros n m Hn.
      destruct n as [|[|n]]; try discriminate.
      injection Hn as <-. exact Hmsg.
    + assert (H1 : icmpMessageProvider.seq p1 = icmpMessageProvider.seq p + 1).
      { subst p1. cbn [icmpMessageProvider.seq]. apply wrap64_in_range.
        unfold Go.in_int64, Go.int64_min, Go.int64_max.
        cbn [List.length] in Hhi. lia. }
      destruct (IH p1) as (msgs & p' & Hrun & Hlen & Hnth).
      { rewrite H1. lia. }
      { rewrite H1. unfold Go.len. lia. }
      rewrite Hrun. exists (msg :: msgs), p'. split; [reflexivity|].
      split; [cbn [List.length]; now rewrite Hlen|].
      intros n m Hn. destruct n as [|n].
      * injection Hn as <-. exact Hmsg.
      * cbn [nth_error] in Hn. rewrite (Hnth n m Hn), H1. f_equal. lia.
Qed.

Section DriverFacts.

Variable isIPv4 : list byte -> bool.
Variable Marshal : icmp.Message -> list byte * option error.

Lemma send_provider (clock : SendClock) (answers : list (option error))
    (d : icmpDriver.t) (timer : Timer.t) (p : icmpMessageProvider.t) :
  icmpDriver.messageProvider d = Some p ->
  exists p',
    icmpDriver.messageProvider
      (snd (fst (fst (icmpDriver.send Marshal clock answers d timer)))) = Some p'
    /\ icmpMessageProvider.seq p' = Go.wrap64 (icmpMessageProvider.seq p + 1).
Proof.
  intros Hp. unfold icmpDriver.send. rewrite Hp, Provide_eq.
  destruct (Marshal _) as [b [e|]].
  - eexists. split; reflexivity.
  - destruct (icmpDriver.writeLoop _ _ _ _ _) as [[st tm] eff].
    eexists. split; reflexivity.
Qed.

(** ** The constructor and its configuration *)

(** C9: with no address [ICMP] returns [ErrNoAddress] and no pinger; with
    an address it returns a pinger that is not connected, has made no
    driver call and holds no socket, whose driver keeps the address and the
    read timeout given, or 100ms when the timeout given is zero. *)
Theorem C9_ICMP_configuration :
  forall (cfg : ICMPConfig),
    (Addr cfg = None ->
       icmpDriver.ICMP isIPv4 cfg = Ok (None, Some ErrNoAddress)
       /\ fst (validateICMPConfig cfg) = Some ErrNoAddress) /\
    (forall a, Addr cfg = Some a ->
       exists p,
         icmpDriver.ICMP isIPv4 cfg = Ok (Some p, None)
         /\ pinger.connected p = false
         /\ pinger.calls p = []
         /\ icmpDriver.packetConn (pinger.driver p) = None
         /\ Addr (icmpDriver.config (pinger.driver p)) = Some a
         /\ ReadTimeout (icmpDriver.config (pinger.driver p))
            = (if ReadTimeout cfg =? 0 then 100 * time.Millisecond
               else ReadTimeout cfg)) /\
    defaultReadTimeout = 100000000.
Proof.
  intros cfg. split; [|split].
  - intros Ha. unfold icmpDriver.ICMP, validateICMPConfig. rewrite Ha.
    split; reflexivity.
  - intros a Ha. unfold icmpDriver.ICMP, validateICMPConfig. rewrite Ha.
    destruct (ReadTimeout cfg =? 0) eqn:Hz;
      cbn [Addr]; rewrite ?Ha; unfold icmpDriver.newProtocolHandler;
      destruct (isIPv4 (net.IP a)); eexists; repeat split; try exact Ha;
      cbn; now rewrite ?Hz.
  - reflexivity.
Qed.

End DriverFacts.

(** ** The send task *)

Section SendFacts.

Variable Marshal : icmp.Message -> list byte * option error.

Lemma retriedError_dec (err : error) :
  retriedError err ->
  match err with
  | NetOpError inner _ => error_eqb inner ENOBUFS
  | _ => false
  end = true.
Proof. intros [t ->]. reflexivity. Qed.

Lemma not_retriedError_dec (err : error) :
  ~ retriedError err ->
  match err with
  | NetOpError inner _ => error_eqb inner ENOBUFS
  | _ => false
  end = false.
Proof.
  intros H. destruct err as [| | | | | | | | |inner t|]; try reflexivity.
  destruct (error_eqb inner ENOBUFS) eqn:E; [|reflexivity].
  exfalso. apply H. exists t. f_equal.
  destruct inner as [| | | | | |c| | | |]; try discriminate.
  cbn in E. apply Z.eqb_eq in E. now subst c.
Qed.

Lemma sendBufferFull_not_retried (err : error) :
  sendBufferFull err -> ~ retriedError err.
Proof. intros (call & t & ->) [t' H]. discriminate. Qed.

Lemma writeLoop_retried (b : list byte) (dst : option net.IPAddr)
    (clock : SendClock) (busy rest : list (option error)) (timer : Timer.t) :
  Forall retriedAnswer busy ->
  icmpDriver.writeLoop b dst clock (busy ++ rest) timer
  = let '(status, timer', effects) := icmpDriver.writeLoop b dst clock rest timer in
    (status, timer', map (DidWriteTo b dst) busy ++ effects).
Proof.
  induction 1 as [|answer busy [err [-> Hfull]] _ IH].
  - cbn [app map]. now destruct (icmpDriver.writeLoop b dst clock rest timer) as [[? ?] ?].
  - cbn [app icmpDriver.writeLoop map]. rewrite (retriedError_dec err Hfull), IH.
    now destruct (icmpDriver.writeLoop b dst clock rest timer) as [[? ?] ?].
Qed.

(** The send task, step by step: it asks the codec for the next request
    and marshals it; a marshal error is returned before the timer is
    touched or anything is written.  Otherwise the timer is started and
    then the bytes are written: every answer that the loop retries is
    followed by another attempt, the first answer that it does not retry
    ends the task, with that error and the timer left running if it is an
    error, with success and the timer stopped if it is none. *)
Lemma send_task_trace :
  forall (clock : SendClock) (d : icmpDriver.t) (timer : Timer.t)
         (p : icmpMessageProvider.t) (busy rest : list (option error)),
    icmpDriver.messageProvider d = Some p ->
    Forall retriedAnswer busy ->
    exists msg p',
      icmpMessageProvider.Provide (atProvide clock) p = Ok (msg, p') /\
      let d' := {| icmpDriver.config := icmpDriver.config d;
                   icmpDriver.ctx := icmpDriver.ctx d;
                   icmpDriver.messageProvider := Some p';
                   icmpDriver.packetConn := icmpDriver.packetConn d;
                   icmpDriver.protocolHandler := icmpDriver.protocolHandler d |} in
      let dst := Addr (icmpDriver.config d) in
      (forall b err,
         Marshal msg = (b, Some err) ->
         icmpDriver.send Marshal clock (busy ++ rest) d timer
         = (SendReturned (Some err), d', timer,
            [DidProvide msg; DidMarshal (Some err)])) /\
      (forall b,
         Marshal msg = (b, None) ->
         let started := Timer.Start (atStart clock) timer in
         let attempts :=
           [DidProvide msg; DidMarshal None; DidTimerStart (atStart clock)]
             ++ map (DidWriteTo b dst) busy in
         icmpDriver.send Marshal clock (busy ++ None :: rest) d timer
         = (SendReturned None, d', Timer.Stop (atStop clock) started,
            attempts ++ [DidWriteTo b dst None; DidTimerStop (atStop clock)])
         /\ (forall err,
               ~ retriedError err ->
               icmpDriver.send Marshal clock (busy ++ Some err :: rest) d timer
               = (SendReturned (Some err), d', started,
                  attempts ++ [DidWriteTo b dst (Some err)]))
         /\ icmpDriver.send Marshal clock busy d timer
            = (SendRetrying, d', started, attempts)).
Proof.
  intros clock d timer p busy rest Hp Hbusy.
  eexists. eexists. split; [apply Provide_eq|].
  cbv zeta. split.
  - intros b err Hm. unfold icmpDriver.send.
    rewrite Hp, Provide_eq, Hm. reflexivity.
  - intros b Hm. split; [|split].
    + unfold icmpDriver.send. rewrite Hp, Provide_eq, Hm.
      rewrite (writeLoop_retried b _ clock busy (None :: rest) _ Hbusy).
      cbn [icmpDriver.writeLoop]. now rewrite <- !app_assoc.
    + intros err Herr. unfold icmpDriver.send. rewrite Hp, Provide_eq, Hm.
      rewrite (writeLoop_retried b _ clock busy (Some err :: rest) _ Hbusy).
      cbn [icmpDriver.writeLoop]. rewrite (not_retriedError_dec err Herr).
      now rewrite <- !app_assoc.
    + unfold icmpDriver.send. rewrite Hp, Provide_eq, Hm.
      rewrite <- (app_nil_r busy) at 1.
      rewrite (writeLoop_retried b _ clock busy [] _ Hbusy).
      cbn [icmpDriver.writeLoop]. now rewrite app_nil_r.
Qed.

End SendFacts.

(** C7 (the code departs from it): when the kernel reports the
    send-buffer-full condition, the write fails with a [*net.OpError] whose
    [Err] is the [*os.SyscallError] around [syscall.ENOBUFS], not the error
    number itself; the comparison in the loop of [send] is then false and
    the task makes no second attempt: it returns that error after one
    write, the timer started and never stopped, whatever the socket would
    have answered next.  Only an error that holds the bare error number,
    which a write does not return, is retried. *)
Theorem C7_buffer_full_write_is_fatal :
  forall (call : string) (timeout : bool) (rest : list (option error)),
    let full := NetOpError (OsSyscallError call ENOBUFS) timeout in
    let outcome :=
      icmpDriver.send marshalPlain testClock (Some full :: rest)
        testDriver Timer.fresh in
    sendBufferFull full
    /\ fst (fst (fst outcome)) = SendReturned (Some full)
    /\ snd (fst outcome) = Timer.Start (atStart testClock) Timer.fresh
    /\ snd outcome
       = [DidProvide stampedEcho; DidMarshal None;
          DidTimerStart (atStart testClock);
          DidWriteTo (fst (marshalPlain stampedEcho)) (Some testAddr)
            (Some full)]
    /\ fst (fst (fst (icmpDriver.send marshalPlain testClock
                        [Some (NetOpError ENOBUFS timeout); None]
                        testDriver Timer.fresh)))
       = SendReturned None.
Proof.
  intros call timeout rest. cbv zeta.
  split; [now exists call, timeout|].
  destruct (send_task_trace marshalPlain testClock testDriver Timer.fresh
              testProvider [] rest eq_refl (Forall_nil _))
    as (msg & p' & HP & _ & Hwrite).
  rewrite Provide_eq in HP. injection HP as <- <-.
  destruct (Hwrite _ eq_refl) as (_ & Hfatal & _).
  cbn [app] in Hfatal.
  rewrite (Hfatal _ (sendBufferFull_not_retried _
                       (ex_intro _ call (ex_intro _ timeout eq_refl)))).
  repeat split; reflexivity.
Qed.

(** ** The receive path: what a probe returns *)

Lemma copy_length (dst src : list byte) :
  List.length (Go.copy dst src) = List.length dst.
Proof.
  unfold Go.copy. rewrite length_app, length_firstn, length_skipn. lia.
Qed.

Lemma family_Parse_nil (h : icmpProtocolHandler) :
  familyHandler h -> Parse h [] = inr errMessageTooShort.
Proof. intros [-> | ->]; reflexivity. Qed.

Lemma handlePacket_zero (d : icmpDriver.t) :
  familyHandler (icmpDriver.protocolHandler d) ->
  icmpDriver.handlePacket d RawPacket_zero = Ok (Some errMessageTooShort).
Proof.
  intros H. unfold icmpDriver.handlePacket. cbn [Message RawPacket_zero].
  now rewrite (family_Parse_nil _ H).
Qed.

Lemma family_Read (h : icmpProtocolHandler) (s : SocketRead) :
  familyHandler h ->
  (exists datagram hops,
     yielded s datagram
     /\ Read h s = (Go.copy (Go.make_bytes 512) datagram,
                    Z.of_nat (Nat.min (List.length datagram) 512), hops, None))
  \/ (exists b nb ttl e, Read h s = (b, nb, ttl, Some e)).
Proof.
  intros [-> | ->]; cbn [Read icmpIPv4Handler.handler icmpIPv6Handler.handler].
  - unfold icmpIPv4Handler.Read.
    destruct (read4 s) as [dg cm|e] eqn:E; cbn [ReadFrom].
    + left. exists dg. eexists. split; [left; now exists cm | reflexivity].
    + right. do 4 eexists. reflexivity.
  - unfold icmpIPv6Handler.Read.
    destruct (read6 s) as [dg cm|e] eqn:E; cbn [ReadFrom].
    + left. exists dg. eexists. split; [right; now exists cm | reflexivity].
    + right. do 4 eexists. reflexivity.
Qed.

(** What [recvPacket] returns is the zero packet beside an error, or a packet
    holding the whole 512-byte buffer beside none. *)
Lemma recvPacket_shape (d : icmpDriver.t) (turn : RecvTurn) :
  familyHandler (icmpDriver.protocolHandler d) ->
  (exists e, icmpDriver.recvPacket d turn = (RawPacket_zero, Some e))
  \/ (exists datagram hops,
        yielded (socketRead turn) datagram
        /\ deadlineErr turn = None
        /\ icmpDriver.recvPacket d turn
           = ({| Message := Go.copy (Go.make_bytes 512) datagram;
                 Size := Z.of_nat (Nat.min (List.length datagram) 512);
                 TTL := hops |}, None)).
Proof.
  intros Hh. unfold icmpDriver.recvPacket.
  destruct (deadlineErr turn) as [e|] eqn:Hd; [left; now exists e|].
  destruct (family_Read _ (socketRead turn) Hh)
    as [(dg & hops & Hsrc & HR) | (b & nb & ttl & e & HR)]; rewrite HR.
  - right. exists dg, hops. split; [exact Hsrc | split; reflexivity].
  - left. now exists e.
Qed.

Lemma recv_pushed (d : icmpDriver.t) (turns : list RecvTurn) (raw : RawPacket) :
  In raw (fst (icmpDriver.recv d turns)) ->
  exists turn, In turn turns /\ fst (icmpDriver.recvPacket d turn) = raw.
Proof.
  induction turns as [|turn rest IH]; cbn [icmpDriver.recv]; [intros []|].
  destruct (ctxErr turn) as [e|]; [intros []|].
  destruct (icmpDriver.recvPacket d turn) as [r err] eqn:E.
  assert (Hpush :
    In raw (fst (let '(pushed, status) := icmpDriver.recv d rest in
                 (r :: pushed, status))) ->
    exists t, In t (turn :: rest) /\ fst (icmpDriver.recvPacket d t) = raw).
  { destruct (icmpDriver.recv d rest) as [pushed status]. cbn [fst].
    intros [<- | Hin].
    - exists turn. split; [now left | now rewrite E].
    - destruct (IH Hin) as [t [Ht Hr]]. exists t. split; [now right | exact Hr]. }
  assert (Hskip :
    In raw (fst (icmpDriver.recv d rest)) ->
    exists t, In t (turn :: rest) /\ fst (icmpDriver.recvPacket d t) = raw).
  { intros Hin. destruct (IH Hin) as [t [Ht Hr]].
    exists t. split; [now right | exact Hr]. }
  destruct err as [[| | | | | | | | |inner [|]|]|]; auto; intros [].
Qed.

Lemma PingLoop_returned (d : icmpDriver.t) (events : list PingEvent)
    (raw : RawPacket) :
  icmpDriver.PingLoop d events = PingReturned raw None ->
  icmpDriver.handlePacket d raw = Ok None
  /\ (In (Reply raw) events \/ raw = RawPacket_zero /\ In Closed events).
Proof.
  induction events as [|ev rest IH]; cbn [icmpDriver.PingLoop]; [discriminate|].
  destruct ev as [e|e|r|]; try discriminate.
  - destruct (icmpDriver.handlePacket d r) as [[err|]|why] eqn:E; try discriminate.
    + destruct (isICMPIgnoredPacket err); [|discriminate].
      intros H. destruct (IH H) as [Hh Hin]. split; [exact Hh|].
      destruct Hin as [Hin|[Hz Hin]]; [left; now right | right; split; [exact Hz| now right]].
    + intros H. injection H as <-. split; [exact E | left; now left].
  - destruct (icmpDriver.handlePacket d RawPacket_zero) as [[err|]|why] eqn:E;
      try discriminate.
    + destruct (isICMPIgnoredPacket err); [|discriminate].
      intros H. destruct (IH H) as [Hh Hin]. split; [exact Hh|].
      destruct Hin as [Hin|[Hz Hin]]; [left; now right | right; split; [exact Hz| now right]].
    + intros H. injection H as <-. split; [exact E | right; split; [reflexivity | now left]].
Qed.

(** C10: a packet that [Ping] of an IPv4 or IPv6 driver returns with no
    error, out of those the receive task pushed, was built by a
    [recvPacket] whose read succeeded: its [Message] is the whole 512-byte
    buffer the handler allocated (the datagram copied to its front), its
    [Size] is the count of bytes read, at most 512, and the pinger hands
    both on unchanged. *)
Theorem C10_Message_is_whole_buffer :
  forall (d : icmpDriver.t) (turns : list RecvTurn) (events : list PingEvent)
         (raw : RawPacket),
    familyHandler (icmpDriver.protocolHandler d) ->
    (forall r, In (Reply r) events -> In r (fst (icmpDriver.recv d turns))) ->
    icmpDriver.Ping d events = PingReturned raw None ->
    List.length (Message raw) = 512%nat /\
    0 <= Size raw <= 512 /\
    (exists turn datagram,
       In turn turns
       /\ icmpDriver.recvPacket d turn = (raw, None)
       /\ yielded (socketRead turn) datagram
       /\ Message raw = Go.copy (Go.make_bytes 512) datagram
       /\ Size raw = Z.of_nat (Nat.min (List.length datagram) 512)) /\
    (forall (D : Type) (drv : Driver D) (p : pinger.t) (tm : Timer.t) (d' : D),
       drvPing drv Timer.fresh (pinger.driver p) = ((raw, None), tm, d') ->
       Raw (fst (fst (pinger.Ping drv p))) = raw).
Proof.
  intros d turns events raw Hh Hev HP.
  unfold icmpDriver.Ping in HP.
  destruct (icmpDriver.ctx d); [|discriminate].
  destruct (PingLoop_returned d events raw HP) as [Hok Hin].
  assert (Hnz : raw <> RawPacket_zero).
  { intros ->. rewrite (handlePacket_zero d Hh) in Hok. discriminate. }
  destruct Hin as [Hin|[Hz _]]; [|contradiction].
  destruct (recv_pushed d turns raw (Hev raw Hin)) as [turn [Hturn Hraw]].
  destruct (recvPacket_shape d turn Hh)
    as [[e He] | (dg & hops & Hsrc & Hd & HR)].
  { rewrite He in Hraw. cbn in Hraw. congruence. }
  rewrite HR in Hraw. cbn [fst] in Hraw. subst raw.
  cbn [Message Size].
  split; [now rewrite copy_length|]. split; [lia|]. split.
  - exists turn, dg. repeat split; assumption.
  - intros D drv p tm d' Hdrv. unfold pinger.Ping. now rewrite Hdrv.
Qed.

(** ** The probe: replies that are not echo messages *)

Lemma handlePacket_not_echo (d : icmpDriver.t) (raw : RawPacket)
    (msg : icmp.Message) :
  Parse (icmpDriver.protocolHandler d) (Message raw) = inl msg ->
  (forall echo, icmp.Body msg <> icmp.BodyEcho echo) ->
  icmpDriver.handlePacket d raw
  = Panic "interface conversion: icmp.MessageBody is not *icmp.Echo".
Proof.
  intros HP Hb. unfold icmpDriver.handlePacket. rewrite HP.
  destruct (icmp.Body msg) as [echo| | | | | |]; try reflexivity.
  now destruct (Hb echo).
Qed.

(** C1 (the code departs from it): the packet the receive task builds from
    a Destination Unreachable datagram parses, its type is not the echo
    reply type, and [handlePacket] panics on it at the type assertion
    instead of returning [ErrICMPIgnoredPacket]; a [Ping] that receives it
    panics, whatever would have come next. *)
Theorem C1_non_echo_reply_panics :
  let raw := fst (icmpDriver.recvPacket testDriver (readTurn dstUnreachDatagram)) in
  (exists msg,
     Parse (icmpDriver.protocolHandler testDriver) (Message raw) = inl msg
     /\ icmp.Type' msg = icmp.ICMPv4 3
     /\ icmp.Type_eqb (icmp.Type' msg)
          (ReplyType (icmpDriver.protocolHandler testDriver)) = false) /\
  icmpDriver.handlePacket testDriver raw
  = Panic "interface conversion: icmp.MessageBody is not *icmp.Echo" /\
  forall rest,
    icmpDriver.Ping testDriver (Reply raw :: rest)
    = PingPanicked "interface conversion: icmp.MessageBody is not *icmp.Echo".
Proof.
  cbv zeta.
  assert (H : icmpDriver.handlePacket testDriver
                (fst (icmpDriver.recvPacket testDriver (readTurn dstUnreachDatagram)))
              = Panic "interface conversion: icmp.MessageBody is not *icmp.Echo")
    by (vm_compute; reflexivity).
  split; [|split].
  - eexists. split; [vm_compute; reflexivity|]. split; reflexivity.
  - exact H.
  - intros rest. unfold icmpDriver.Ping. cbn [icmpDriver.ctx testDriver].
    cbn [icmpDriver.PingLoop]. now rewrite H.
Qed.

(** ** The probe: correlation of echo replies *)

Section Correlation.

Variables (d : icmpDriver.t) (p : icmpMessageProvider.t).
Hypothesis connected : icmpDriver.ctx d <> None.
Hypothesis provider : icmpDriver.messageProvider d = Some p.

Lemma Ping_is_loop (events : list PingEvent) :
  icmpDriver.Ping d events = icmpDriver.PingLoop d events.
Proof.
  unfold icmpDriver.Ping. destruct (icmpDriver.ctx d); [reflexivity|].
  now destruct connected.
Qed.

Lemma handlePacket_echo (raw : RawPacket) (msg : icmp.Message) (echo : icmp.Echo) :
  Parse (icmpDriver.protocolHandler d) (Message raw) = inl msg ->
  icmp.Body msg = icmp.BodyEcho echo ->
  icmpDriver.handlePacket d raw
  = if negb (icmp.Type_eqb (icmp.Type' msg) (ReplyType (icmpDriver.protocolHandler d)))
    then Ok (Some ErrICMPIgnoredPacket)
    else if negb (icmp.ID echo =? icmpMessageProvider.id p)
    then Ok (Some ErrICMPIgnoredPacket)
    else if Go.len (icmp.Data echo) <? 16
    then Ok (Some (errICMPReplyTooShort 16 (Go.len (icmp.Data echo))))
    else if negb (decodedTracker echo =? icmpMessageProvider.tracker p)
    then Ok (Some ErrICMPIgnoredPacket)
    else Ok None.
Proof.
  intros HP Hb. unfold icmpDriver.handlePacket.  rewrite HP, Hb, provider.
  destruct (negb (icmp.Type_eqb (icmp.Type' msg) (ReplyType (icmpDriver.protocolHandler d)))); [reflexivity|].
  destruct (negb (icmp.ID echo =? icmpMessageProvider.id p)); [reflexivity|].
  unfold icmpMessageProvider.ReadData. rewrite Hb.
  change (timeSize + trackerSize) with 16.
  destruct (Go.len (icmp.Data echo) <? 16); reflexivity.
Qed.

(** X1: a parse error ends the probe with that error; an echo message of
    another type, of another identifier or (with a payload of 16 bytes or
    more) of another tracker is dropped and the probe goes on with the
    events that follow. *)
Theorem Ping_correlates_echo_replies :
  forall (raw : RawPacket) (rest : list PingEvent),
    (forall err,
       Parse (icmpDriver.protocolHandler d) (Message raw) = inr err ->
       err <> ErrICMPIgnoredPacket ->
       icmpDriver.Ping d (Reply raw :: rest)
       = PingReturned RawPacket_zero (Some err)) /\
    (forall msg echo,
       Parse (icmpDriver.protocolHandler d) (Message raw) = inl msg ->
       icmp.Body msg = icmp.BodyEcho echo ->
       icmp.Type' msg <> ReplyType (icmpDriver.protocolHandler d)
       \/ icmp.ID echo <> icmpMessageProvider.id p
       \/ (16 <= Go.len (icmp.Data echo)
           /\ decodedTracker echo <> icmpMessageProvider.tracker p) ->
       icmpDriver.handlePacket d raw = Ok (Some ErrICMPIgnoredPacket)
       /\ icmpDriver.Ping d (Reply raw :: rest) = icmpDriver.Ping d rest).
Proof.
  intros raw rest. split.
  - intros err HP Hne. rewrite Ping_is_loop. cbn [icmpDriver.PingLoop].
    unfold icmpDriver.handlePacket.  rewrite HP.
    destruct err; try reflexivity. now destruct Hne.
  - intros msg echo HP Hb Hmis.
    assert (Hig : icmpDriver.handlePacket d raw = Ok (Some ErrICMPIgnoredPacket)).
    { rewrite (handlePacket_echo raw msg echo HP Hb).
      destruct (icmp.Type_eqb (icmp.Type' msg) (ReplyType (icmpDriver.protocolHandler d))) eqn:Et;
        [|reflexivity]. cbn [negb].
      destruct (icmp.ID echo =? icmpMessageProvider.id p) eqn:Ei;
        [|reflexivity]. cbn [negb].
      destruct Hmis as [Ht|[Hi|[Hl Hd]]].
      - exfalso. apply Ht.
        destruct (icmp.Type' msg) as [x|x], (ReplyType (icmpDriver.protocolHandler d)) as [y|y];
          cbn in Et; try discriminate; apply Z.eqb_eq in Et; now subst.
      - apply Z.eqb_eq in Ei. contradiction.
      - apply Z.ltb_ge in Hl. rewrite Hl.
        apply Z.eqb_neq in Hd. now rewrite Hd. }
    split; [exact Hig|].
    rewrite !Ping_is_loop. cbn [icmpDriver.PingLoop]. now rewrite Hig.
Qed.

(** X2: what [Ping] returns with no error is a packet that was received
    on the channel (with a handler of either family it is one that the
    receive task sent, never the zero packet of the closed channel) and
    that parsed to an echo message of the reply type, carrying the
    provider's identifier and tracker. *)
Theorem Ping_returns_only_matching_replies :
  forall (events : list PingEvent) (raw : RawPacket),
    icmpDriver.Ping d events = PingReturned raw None ->
    (In (Reply raw) events \/ raw = RawPacket_zero /\ In Closed events)
    /\ (familyHandler (icmpDriver.protocolHandler d) -> In (Reply raw) events)
    /\ exists msg echo,
         Parse (icmpDriver.protocolHandler d) (Message raw) = inl msg
         /\ icmp.Body msg = icmp.BodyEcho echo
         /\ icmp.Type' msg = ReplyType (icmpDriver.protocolHandler d)
         /\ icmp.ID echo = icmpMessageProvider.id p
         /\ 16 <= Go.len (icmp.Data echo)
         /\ decodedTracker echo = icmpMessageProvider.tracker p.
Proof.
  intros events raw HP. rewrite Ping_is_loop in HP.
  destruct (PingLoop_returned d events raw HP) as [Hok Hin].
  split; [exact Hin|]. split.
  { intros Hh. destruct Hin as [Hin | [-> _]]; [exact Hin|].
    rewrite (handlePacket_zero d Hh) in Hok. discriminate. }
  destruct (Parse (icmpDriver.protocolHandler d) (Message raw)) as [msg|err] eqn:EP.
  2:{ unfold icmpDriver.handlePacket in Hok.
      rewrite EP in Hok. discriminate. }
  destruct (icmp.Body msg) as [echo| | | | | |] eqn:Eb;
    try (rewrite (handlePacket_not_echo d raw msg EP) in Hok;
         [discriminate | intros e; rewrite Eb; discriminate]).
  rewrite (handlePacket_echo raw msg echo EP Eb) in Hok.
  exists msg, echo.
  destruct (icmp.Type_eqb (icmp.Type' msg) (ReplyType (icmpDriver.protocolHandler d))) eqn:Et;
    [|discriminate]. cbn [negb] in Hok.
  destruct (icmp.ID echo =? icmpMessageProvider.id p) eqn:Ei;
    [|discriminate]. cbn [negb] in Hok.
  destruct (Go.len (icmp.Data echo) <? 16) eqn:El; [discriminate|].
  destruct (decodedTracker echo =? icmpMessageProvider.tracker p) eqn:Ed;
    [|discriminate].
  repeat split; trivial.
  - destruct (icmp.Type' msg) as [x|x], (ReplyType (icmpDriver.protocolHandler d)) as [y|y];
      cbn in Et; try discriminate; apply Z.eqb_eq in Et; now subst.
  - now apply Z.eqb_eq.
  - now apply Z.ltb_ge.
  - now apply Z.eqb_eq.
Qed.

End Correlation.

(** ** The probe: the race it waits on *)

Lemma PingLoop_ignored (d : icmpDriver.t) (ignored rest : list PingEvent) :
  Forall (ignoredReply d) ignored ->
  icmpDriver.PingLoop d (ignored ++ rest) = icmpDriver.PingLoop d rest.
Proof.
  induction 1 as [|ev ignored (raw & -> & Hig) _ IH]; [reflexivity|].
  cbn [app icmpDriver.PingLoop]. rewrite Hig. exact IH.
Qed.

(** X5: after any number of ignored packets the probe is still waiting, and
    what ends it is the next event: the error of the scope if the scope is
    done, the error of the send task if that failed, the packet itself if
    [handlePacket] accepts it. *)
Theorem Ping_waits_on_the_same_race :
  forall (d : icmpDriver.t) (ignored rest : list PingEvent) (err : error)
         (raw : RawPacket),
    icmpDriver.ctx d <> None ->
    Forall (ignoredReply d) ignored ->
    icmpDriver.Ping d ignored = PingWaiting
    /\ icmpDriver.Ping d (ignored ++ Done err :: rest)
       = PingReturned RawPacket_zero (Some err)
    /\ icmpDriver.Ping d (ignored ++ SendFailed err :: rest)
       = PingReturned RawPacket_zero (Some err)
    /\ (icmpDriver.handlePacket d raw = Ok None ->
        icmpDriver.Ping d (ignored ++ Reply raw :: rest) = PingReturned raw None).
Proof.
  intros d ignored rest err raw Hc Hig.
  unfold icmpDriver.Ping. destruct (icmpDriver.ctx d); [|now destruct Hc].
  repeat split.
  - rewrite <- (app_nil_r ignored). now rewrite PingLoop_ignored.
  - now rewrite PingLoop_ignored.
  - now rewrite PingLoop_ignored.
  - intros Hok. rewrite PingLoop_ignored by exact Hig.
    cbn [icmpDriver.PingLoop]. now rewrite Hok.
Qed.

(** ** The receive task: timeouts and fatal errors *)


(** ** Provide under the mutex: callers that interleave *)

Lemma WriteData_echo (now : time.Time) (p : icmpMessageProvider.t)
    (ty : icmp.Type_) (code ck : Z) (e : icmp.Echo) :
  icmpMessageProvider.WriteData now p
    {| icmp.Type' := ty; icmp.Code := code; icmp.Checksum := ck;
       icmp.Body := icmp.BodyEcho e |}
  = Ok {| icmp.Type' := ty; icmp.Code := code; icmp.Checksum := ck;
          icmp.Body :=
            icmp.BodyEcho
              {| icmp.ID := icmp.ID e; icmp.Seq := icmp.Seq e;
                 icmp.Data := timeToBytes now
                              ++ intToBytes (icmpMessageProvider.tracker p) |} |}.
Proof.
  unfold icmpMessageProvider.WriteData. cbn [icmp.Body].
  assert (Hlen : Go.len (timeToBytes now ++ intToBytes (icmpMessageProvider.tracker p)) = 16).
  { unfold Go.len, timeToBytes. rewrite length_app, !intToBytes_length. reflexivity. }
  rewrite Hlen. reflexivity.
Qed.

Lemma setCaller_same (i : nat) (pc : ProvidePC) (cs : nat -> ProvidePC) :
  setCaller i pc cs i = pc.
Proof. unfold setCaller. now rewrite Nat.eqb_refl. Qed.

Lemma setCaller_other (i j : nat) (pc : ProvidePC) (cs : nat -> ProvidePC) :
  j <> i -> setCaller i pc cs j = cs j.
Proof. intros H. unfold setCaller. now rewrite (proj2 (Nat.eqb_neq j i) H). Qed.

Ltac caller j i :=
  destruct (Nat.eq_dec j i) as [->|?];
  [rewrite ?setCaller_same in * | rewrite ?setCaller_other in * by assumption].

Lemma provideStep_inv (i : nat) (now : time.Time) (s : Shared) (n : Z) :
  ProvideInv s ->
  0 <= icmpMessageProvider.seq (prov s) <= n ->
  n < 2 ^ 63 - 1 ->
  ProvideInv (provideStep i now s)
  /\ 0 <= icmpMessageProvider.seq (prov (provideStep i now s)) <= n + 1.
Proof.
  intros Hinv Hseq Hn.
  pose proof Hinv as [Hlocked Hholder Halone Hcur Hbelow Hdist Hall].
  unfold provideStep.
  destruct (callers s i) as [| |msg|msg|msg|] eqn:Hi.
  - (* p.mut.Lock() *)
    destruct (icmpMessageProvider.mut (prov s)) eqn:Hm.
    + split; [|cbn; lia]. constructor; cbn [prov callers icmpMessageProvider.Lock
                                              icmpMessageProvider.mut icmpMessageProvider.seq].
      * reflexivity.
      * intros _. exists i. now rewrite setCaller_same.
      * intros j1 j2 H1 H2.
        caller j1 i; caller j2 i; trivial;
          match goal with
          | H : holdsMutex (callers s ?j) = true |- _ =>
              specialize (Hlocked j H); congruence
          end.
      * intros j m H. caller j i; [discriminate | eauto].
      * intros j m H. caller j i; [discriminate | eauto].
      * intros j1 j2 m1 m2 H1 H2. caller j1 i; [discriminate|].
        caller j2 i; [discriminate | eauto].
      * intros k Hk. destruct (Hall k Hk) as (j & m & Hj & Hm').
        exists j, m. split; [|exact Hm'].
        caller j i; [rewrite Hi in Hj; discriminate | exact Hj].
    + split; [exact Hinv | lia].
  - (* msg := ...; p.WriteData(msg) *)
    rewrite WriteData_echo.
    assert (Hhi : holdsMutex (callers s i) = true) by now rewrite Hi.
    split; [|cbn; lia]. constructor; cbn [prov callers].
    + intros j H. caller j i; eauto.
    + intros _. exists i. now rewrite setCaller_same.
    + intros j1 j2 H1 H2.
      assert (forall j, holdsMutex (setCaller i (AtIncrement
                {| icmp.Type' := icmpMessageProvider.msgType (prov s);
                   icmp.Code := 0; icmp.Checksum := 0;
                   icmp.Body := icmp.BodyEcho
                     {| icmp.ID := icmp.ID {| icmp.ID := icmpMessageProvider.id (prov s);
                                              icmp.Seq := icmpMessageProvider.seq (prov s);
                                              icmp.Data := [] |};
                        icmp.Seq := icmp.Seq {| icmp.ID := icmpMessageProvider.id (prov s);
                                                icmp.Seq := icmpMessageProvider.seq (prov s);
                                                icmp.Data := [] |};
                        icmp.Data := timeToBytes now
                                     ++ intToBytes (icmpMessageProvider.tracker (prov s)) |} |})
                (callers s) j) = true -> holdsMutex (callers s j) = true) as Hold.
      { intros j H. caller j i; assumption. }
      eauto.
    + intros j m H. caller j i; [|eauto]. injection H as <-. reflexivity.
    + intros j m H. caller j i; [discriminate | eauto].
    + intros j1 j2 m1 m2 H1 H2. caller j1 i; [discriminate|].
      caller j2 i; [discriminate | eauto].
    + intros k Hk. destruct (Hall k Hk) as (j & m & Hj & Hm').
      exists j, m. split; [|exact Hm'].
      caller j i; [rewrite Hi in Hj; discriminate | exact Hj].
  - (* p.seq++ *)
    assert (Hhi : holdsMutex (callers s i) = true) by now rewrite Hi.
    assert (Hs : Go.wrap64 (icmpMessageProvider.seq (prov s) + 1)
                 = icmpMessageProvider.seq (prov s) + 1).
    { apply wrap64_in_range. unfold Go.in_int64, Go.int64_min, Go.int64_max. lia. }
    assert (Hold : forall j, holdsMutex (setCaller i (AtUnlock msg) (callers s) j) = true ->
                             holdsMutex (callers s j) = true).
    { intros j H. caller j i; assumption. }
    split; [|cbn; lia].
    constructor; cbn [prov callers icmpMessageProvider.incSeq
                        icmpMessageProvider.mut icmpMessageProvider.seq];
      rewrite ?Hs.
    + intros j H. eauto.
    + intros _. exists i. now rewrite setCaller_same.
    + intros j1 j2 H1 H2. eauto.
    + intros j m H. caller j i; [discriminate|].
      assert (j = i) by (apply Halone; [now rewrite H | exact Hhi]). contradiction.
    + intros j m H. caller j i.
      * injection H as <-. exists (icmpMessageProvider.seq (prov s)).
        split; [eauto | lia].
      * destruct (Hbelow j m H) as (k & Hk & Hr). exists k. split; [exact Hk | lia].
    + intros j1 j2 m1 m2 H1 H2 He.
      caller j1 i; caller j2 i; trivial.
      * injection H1 as <-. rewrite (Hcur i msg Hi) in He.
        destruct (Hbelow j2 m2 H2) as (k & Hk & Hr). rewrite Hk in He.
        injection He as He. lia.
      * injection H2 as <-. rewrite (Hcur i msg Hi) in He.
        destruct (Hbelow j1 m1 H1) as (k & Hk & Hr). rewrite Hk in He.
        injection He as He. lia.
      * eauto.
    + intros k Hk.
      destruct (Z.eq_dec k (icmpMessageProvider.seq (prov s))) as [->|Hne].
      * exists i, msg. rewrite setCaller_same. split; [reflexivity | eauto].
      * destruct (Hall k) as (j & m & Hj & Hm'); [lia|].
        exists j, m. split; [|exact Hm'].
        caller j i; [rewrite Hi in Hj; discriminate | exact Hj].
  - (* the deferred p.mut.Unlock() *)
    assert (Hhi : holdsMutex (callers s i) = true) by now rewrite Hi.
    assert (Hnone : forall j, holdsMutex (setCaller i (Returned msg) (callers s) j) = true ->
                              False).
    { intros j H. caller j i; [discriminate|].
      assert (j = i) by (apply Halone; assumption). contradiction. }
    assert (Hcnt : forall j, counted (setCaller i (Returned msg) (callers s) j)
                             = counted (callers s j)).
    { intros j. caller j i; [now rewrite Hi | reflexivity]. }
    split; [|cbn; lia].
    constructor; cbn [prov callers icmpMessageProvider.Unlock
                        icmpMessageProvider.mut icmpMessageProvider.seq].
    + intros j H. destruct (Hnone j H).
    + discriminate.
    + intros j1 j2 H1 _. destruct (Hnone j1 H1).
    + intros j m H. caller j i; [discriminate | eauto].
    + intros j m H. rewrite Hcnt in H. eauto.
    + intros j1 j2 m1 m2 H1 H2. rewrite Hcnt in H1, H2. eauto.
    + intros k Hk. destruct (Hall k Hk) as (j & m & Hj & Hm').
      exists j, m. rewrite Hcnt. split; assumption.
  - split; [exact Hinv | lia].
  - split; [exact Hinv | lia].
Qed.

Lemma provideRun_inv (schedule : list (nat * time.Time)) :
  forall (s : Shared) (n : Z),
    ProvideInv s ->
    0 <= icmpMessageProvider.seq (prov s) <= n ->
    n + Go.len schedule < 2 ^ 63 ->
    ProvideInv (provideRun schedule s)
    /\ 0 <= icmpMessageProvider.seq (prov (provideRun schedule s))
       <= n + Go.len schedule.
Proof.
  induction schedule as [|[i now] rest IH]; intros s n Hinv Hseq Hn.
  - cbn [provideRun]. split; [exact Hinv|]. unfold Go.len. cbn [List.length]. lia.
  - unfold Go.len in Hn |- *. cbn [List.length] in Hn |- *.
    rewrite Nat2Z.inj_succ in Hn |- *. cbn [provideRun].
    destruct (provideStep_inv i now s n Hinv Hseq) as [Hinv' Hseq']; [lia|].
    destruct (IH (provideStep i now s) (n + 1) Hinv' Hseq') as [Hinv'' Hseq''].
    { unfold Go.len. lia. }
    split; [exact Hinv''|]. unfold Go.len in Hseq''. lia.
Qed.

Lemma allAtLock_inv (p : icmpMessageProvider.t) :
  icmpMessageProvider.mut p = Unlocked ->
  icmpMessageProvider.seq p = 0 ->
  ProvideInv (allAtLock p).
Proof.
  intros Hm Hs. constructor; cbn [allAtLock prov callers holdsMutex counted];
    try discriminate.
  - rewrite Hm. discriminate.
  - rewrite Hs. intros k Hk. lia.
Qed.

Lemma provideStep_lock (i : nat) (now : time.Time) (p : icmpMessageProvider.t)
    (cs : nat -> ProvidePC) :
  cs i = AtLock -> icmpMessageProvider.mut p = Unlocked ->
  provideStep i now {| prov := p; callers := cs |}
  = {| prov := icmpMessageProvider.Lock p; callers := setCaller i AtBuild cs |}.
Proof. unfold provideStep. cbn [prov callers]. intros -> ->. reflexivity. Qed.

Lemma provideStep_build (i : nat) (now : time.Time) (p : icmpMessageProvider.t)
    (cs : nat -> ProvidePC) :
  cs i = AtBuild ->
  exists msg,
    icmpMessageProvider.Provide now (icmpMessageProvider.Unlock p)
    = Ok (msg, icmpMessageProvider.Unlock (icmpMessageProvider.incSeq p))
    /\ provideStep i now {| prov := p; callers := cs |}
       = {| prov := p; callers := setCaller i (AtIncrement msg) cs |}.
Proof.
  unfold provideStep. cbn [prov callers]. intros ->.
  rewrite WriteData_echo. eexists. split; [|reflexivity].
  rewrite Provide_eq. reflexivity.
Qed.

Lemma provideStep_increment (i : nat) (now : time.Time)
    (p : icmpMessageProvider.t) (cs : nat -> ProvidePC) (msg : icmp.Message) :
  cs i = AtIncrement msg ->
  provideStep i now {| prov := p; callers := cs |}
  = {| prov := icmpMessageProvider.incSeq p;
       callers := setCaller i (AtUnlock msg) cs |}.
Proof. unfold provideStep. cbn [prov callers]. intros ->. reflexivity. Qed.

Lemma provideStep_unlock (i : nat) (now : time.Time)
    (p : icmpMessageProvider.t) (cs : nat -> ProvidePC) (msg : icmp.Message) :
  cs i = AtUnlock msg ->
  provideStep i now {| prov := p; callers := cs |}
  = {| prov := icmpMessageProvider.Unlock p;
       callers := setCaller i (Returned msg) cs |}.
Proof. unfold provideStep. cbn [prov callers]. intros ->. reflexivity. Qed.

(** X4: callers of [Provide] that interleave statement by statement, in any
    order, on a provider fresh from [newICMPMessageProvider]: at most one is
    inside the critical section; the messages that have been counted carry
    pairwise different sequence numbers, and these are exactly the numbers
    below the provider's current one; and a caller that runs its four
    statements with no other in between does what [Provide] does. *)
Theorem Provide_under_mutex :
  forall (h : icmpProtocolHandler) (addr : option net.IPAddr) (rng : Entropy)
         (schedule : list (nat * time.Time)),
    Go.len schedule < 2 ^ 63 ->
    let s := provideRun schedule
               (allAtLock (icmpMessageProvider.new h addr rng)) in
    (forall i j, holdsMutex (callers s i) = true ->
                 holdsMutex (callers s j) = true -> i = j) /\
    (forall i j msg msg',
       callers s i = Returned msg -> callers s j = Returned msg' -> i <> j ->
       icmp.echoSeq msg <> icmp.echoSeq msg') /\
    (forall i msg,
       callers s i = Returned msg ->
       exists k, icmp.echoSeq msg = Some k
                 /\ 0 <= k < icmpMessageProvider.seq (prov s)) /\
    (forall k,
       0 <= k < icmpMessageProvider.seq (prov s) ->
       exists i msg, counted (callers s i) = Some msg
                     /\ icmp.echoSeq msg = Some k) /\
    (forall (p : icmpMessageProvider.t) (cs : nat -> ProvidePC)
            (i : nat) (t1 now t3 t4 : time.Time),
       cs i = AtLock ->
       icmpMessageProvider.mut p = Unlocked ->
       exists msg p',
         icmpMessageProvider.Provide now p = Ok (msg, p')
         /\ let s' := provideRun [(i, t1); (i, now); (i, t3); (i, t4)]
                        {| prov := p; callers := cs |} in
            prov s' = p'
            /\ callers s' i = Returned msg
            /\ forall j, j <> i -> callers s' j = cs j).
Proof.
  intros h addr rng schedule Hn s.
  destruct (provideRun_inv schedule
              (allAtLock (icmpMessageProvider.new h addr rng)) 0)
    as [[Hlocked Hholder Halone Hcur Hbelow Hdist Hall] _].
  { now apply allAtLock_inv. }
  { cbn. lia. }
  { lia. }
  fold s in Hlocked, Hholder, Halone, Hcur, Hbelow, Hdist, Hall.
  split; [exact Halone|]. split; [|split; [|split; [exact Hall|]]].
  - intros i j msg msg' Hi Hj Hne He. apply Hne.
    apply (Hdist i j msg msg'); [now rewrite Hi | now rewrite Hj | exact He].
  - intros i msg Hi. apply (Hbelow i). now rewrite Hi.
  - intros p cs i t1 now t3 t4 Hi Hm. cbv zeta. cbn [provideRun].
    rewrite (provideStep_lock i t1 p cs Hi Hm).
    destruct (provideStep_build i now (icmpMessageProvider.Lock p)
                (setCaller i AtBuild cs) (setCaller_same _ _ _))
      as (msg & HP & ->).
    rewrite (provideStep_increment i t3 _ _ msg (setCaller_same _ _ _)).
    rewrite (provideStep_unlock i t4 _ _ msg (setCaller_same _ _ _)).
    exists msg. eexists. cbn [prov callers]. split; [|split; [reflexivity|split]].
    + rewrite <- HP. f_equal.
      destruct p as [m ? ? ? ?]. cbn in Hm. subst m. reflexivity.
    + apply setCaller_same.
    + intros j Hj. now rewrite !setCaller_other by exact Hj.
Qed.

(** ** The codec: sequence numbers in the order of issue *)

Lemma provideStep_seq (i : nat) (now : time.Time) (s : Shared) :
  icmpMessageProvider.seq (prov (provideStep i now s))
  = match callers s i with
    | AtIncrement _ => Go.wrap64 (icmpMessageProvider.seq (prov s) + 1)
    | _ => icmpMessageProvider.seq (prov s)
    end.
Proof.
  unfold provideStep.
  destruct (callers s i) as [| |msg|msg|msg|]; try reflexivity.
  now destruct (icmpMessageProvider.mut (prov s)).
Qed.

Lemma issued_numbers (schedule : list (nat * time.Time)) :
  forall (s : Shared) (k : Z),
    ProvideInv s ->
    icmpMessageProvider.seq (prov s) = k ->
    0 <= k ->
    k + Go.len schedule < 2 ^ 63 ->
    (forall n m, nth_error (issued schedule s) n = Some m ->
                 icmp.echoSeq m = Some (k + Z.of_nat n))
    /\ icmpMessageProvider.seq (prov (provideRun schedule s))
       = k + Go.len (issued schedule s).
Proof.
  induction schedule as [|[i now] rest IH]; intros s k Hinv Hk Hlo Hhi.
  - cbn [issued provideRun]. split.
    + intros [|n] m H; discriminate.
    + unfold Go.len. cbn [List.length]. lia.
  - unfold Go.len in Hhi. cbn [List.length] in Hhi. rewrite Nat2Z.inj_succ in Hhi.
    destruct (provideStep_inv i now s k Hinv) as [Hinv' _]; [lia | lia |].
    pose proof (provideStep_seq i now s) as Hseq.
    cbn [issued provideRun].
    destruct (callers s i) as [| |msg|msg|msg|] eqn:Hi;
      try (rewrite Hk in Hseq;
           destruct (IH (provideStep i now s) k Hinv' Hseq Hlo) as [Hnth Hend];
           [unfold Go.len; lia | split; [exact Hnth | exact Hend]]).
    rewrite Hk, wrap64_in_range in Hseq
      by (unfold Go.in_int64, Go.int64_min, Go.int64_max; lia).
    destruct (IH (provideStep i now s) (k + 1) Hinv' Hseq) as [Hnth Hend];
      [lia | unfold Go.len; lia |].
    split.
    + intros [|n] m Hn.
      * injection Hn as <-. rewrite (inv_current s Hinv i msg Hi), Hk.
        f_equal. cbn. lia.
      * cbn [nth_error] in Hn. rewrite (Hnth n m Hn). f_equal. lia.
    + rewrite Hend. unfold Go.len. cbn [List.length]. lia.
Qed.

(** C8: a provider is built with sequence number 0 and a free mutex (and
    [Connect] builds one afresh).  A caller of [Provide] that finds the
    mutex free takes it, stamps the message with the sequence number the
    provider holds and adds one to that number while it holds the mutex,
    and releases it last.  Whatever the order in which the statements of
    concurrent callers run, a caller about to run [p.seq++] holds the
    locked mutex alone and its message carries the provider's current
    number; so the messages carry, in the order in which the provider
    issues them, 0, 1, 2, ...: the one at index [n] (the [n+1]-th) carries
    [n], and the provider's number is the count of messages issued.  The
    same holds of successive calls by one caller, and the only other code
    that touches the provider, [send], moves the number by that same one
    step. *)
Theorem C8_sequence_numbers :
  forall (Marshal : icmp.Message -> list byte * option error)
         (h : icmpProtocolHandler) (addr : option net.IPAddr) (rng : Entropy)
         (schedule : list (nat * time.Time)) (nows : list time.Time),
    let p0 := icmpMessageProvider.new h addr rng in
    let s := provideRun schedule (allAtLock p0) in
    (icmpMessageProvider.seq p0 = 0 /\ icmpMessageProvider.mut p0 = Unlocked) /\
    (forall (now : time.Time) (p : icmpMessageProvider.t),
       icmpMessageProvider.mut p = Unlocked ->
       let held := icmpMessageProvider.Lock p in
       icmpMessageProvider.mut held = Locked /\
       exists msg,
         icmpMessageProvider.Provide now p
         = Ok (msg, icmpMessageProvider.Unlock (icmpMessageProvider.incSeq held))
         /\ icmp.echoSeq msg = Some (icmpMessageProvider.seq p)
         /\ icmpMessageProvider.mut (icmpMessageProvider.incSeq held) = Locked
         /\ icmpMessageProvider.seq (icmpMessageProvider.incSeq held)
            = Go.wrap64 (icmpMessageProvider.seq p + 1)) /\
    (Go.len schedule < 2 ^ 63 ->
       (forall i msg,
          callers s i = AtIncrement msg ->
          icmpMessageProvider.mut (prov s) = Locked
          /\ (forall j, holdsMutex (callers s j) = true -> j = i)
          /\ icmp.echoSeq msg = Some (icmpMessageProvider.seq (prov s)))
       /\ (forall i, callers s i = AtLock ->
                     icmpMessageProvider.mut (prov s) = Locked ->
                     forall now, provideStep i now s = s)
       /\ (forall n m,
             nth_error (issued schedule (allAtLock p0)) n = Some m ->
             icmp.echoSeq m = Some (Z.of_nat n))
       /\ icmpMessageProvider.seq (prov s)
          = Go.len (issued schedule (allAtLock p0))) /\
    (Go.len nows <= 2 ^ 63 ->
       exists msgs p',
         icmpMessageProvider.provideN nows p0 = Ok (msgs, p')
         /\ List.length msgs = List.length nows
         /\ forall n m, nth_error msgs n = Some m ->
              icmp.echoSeq m = Some (Z.of_nat n)) /\
    (forall parent so rng' d d',
       icmpDriver.Connect parent so rng' d = (None, d') ->
       exists p, icmpDriver.messageProvider d' = Some p
                 /\ icmpMessageProvider.seq p = 0
                 /\ icmpMessageProvider.mut p = Unlocked) /\
    (forall clock answers d timer p,
       icmpDriver.messageProvider d = Some p ->
       exists p',
         icmpDriver.messageProvider
           (snd (fst (fst (icmpDriver.send Marshal clock answers d timer))))
         = Some p'
         /\ icmpMessageProvider.seq p' = Go.wrap64 (icmpMessageProvider.seq p + 1)).
Proof.
  intros Marshal h addr rng schedule nows p0 s.
  split; [split; reflexivity|].
  split; [|split; [|split; [|split]]].
  - intros now p Hm held. split; [reflexivity|].
    eexists. split; [rewrite Provide_eq; reflexivity|].
    repeat split.
  - intros Hn.
    destruct (provideRun_inv schedule (allAtLock p0) 0) as [Hinv _].
    { now apply allAtLock_inv. }
    { cbn. lia. }
    { lia. }
    fold s in Hinv.
    destruct (issued_numbers schedule (allAtLock p0) 0) as [Hnth Hend].
    { now apply allAtLock_inv. }
    { reflexivity. }
    { lia. }
    { lia. }
    fold s in Hend.
    split; [|split; [|split]].
    + intros i msg Hi.
      assert (Hhold : holdsMutex (callers s i) = true) by now rewrite Hi.
      split; [exact (inv_locked s Hinv i Hhold)|]. split.
      * intros j Hj. exact (inv_alone s Hinv j i Hj Hhold).
      * exact (inv_current s Hinv i msg Hi).
    + intros i Hi Hm now. unfold provideStep. now rewrite Hi, Hm.
    + intros n m Hm. now rewrite (Hnth n m Hm).
    + rewrite Hend. lia.
  - intros Hn.
    destruct (provideN_seq nows p0) as (msgs & p' & Hrun & Hlen & Hnth).
    + subst p0. cbn. lia.
    + subst p0. cbn [icmpMessageProvider.seq icmpMessageProvider.new]. lia.
    + exists msgs, p'. split; [exact Hrun|]. split; [exact Hlen|].
      intros n m Hm. rewrite (Hnth n m Hm). subst p0. reflexivity.
  - intros parent so rng' d d' H. unfold icmpDriver.Connect in H.
    destruct (Listen (icmpDriver.protocolHandler d) "" so) as [[c [e|]] closed];
      [discriminate|].
    injection H as <-. eexists. repeat split.
  - intros clock answers d timer p Hp. now apply send_provider.
Qed.

(** ** The statements at concrete inputs *)

(** [testDriver] is the driver that [ICMP] builds for [testAddr] and that
    [Connect] then connects. *)
Example testDriver_reachable :
  exists p,
    icmpDriver.ICMP isIPv4ByLength {| Addr := Some testAddr; ReadTimeout := 0 |}
    = Ok (Some p, None)
    /\ icmpDriver.Connect 0%nat {| listenErr := None; controlErr := None |}
         testEntropy (pinger.driver p)
       = (None, testDriver).
Proof. eexists. split; reflexivity. Qed.

Lemma C5_witness :
  exists echo,
    icmp.Body stampedEcho = icmp.BodyEcho echo /\
    icmp.Data echo
    = timeToBytes testNow ++ intToBytes (icmpMessageProvider.tracker testProvider) /\
    forall (reply : icmp.Message) (echo' : icmp.Echo),
      icmp.Body reply = icmp.BodyEcho echo' ->
      icmp.Data echo' = icmp.Data echo ++ [x01; x02; x03] ->
      exists ts,
        icmpMessageProvider.ReadData testProvider reply
        = Ok (icmpMessageProvider.tracker testProvider, ts, None)
        /\ Z.abs (ts - testNow) < time.Nanosecond.
Proof.
  apply (C5_payload_round_trip testProvider testProvider testNow blankEcho
           stampedEcho [x01; x02; x03]).
  - vm_compute. split; discriminate.
  - vm_compute. split; discriminate.
  - reflexivity.
Defined.

Lemma C10_witness :
  List.length (Message goodReply) = 512%nat /\ Size goodReply = 24.
Proof.
  destruct (C10_Message_is_whole_buffer testDriver
              [readTurn strayDatagram;
               readTurn (echoReplyDatagram testProvider 0 testNow)]
              [Reply strayReply; Reply goodReply] goodReply)
    as (Hlen & _ & _ & _).
  - left. reflexivity.
  - intros r [Hr | [Hr | []]]; injection Hr as <-.
    + left. reflexivity.
    + right. left. reflexivity.
  - vm_compute. reflexivity.
  - split; [exact Hlen | reflexivity].
Defined.

Lemma Ping_correlates_witness :
  icmpDriver.handlePacket testDriver strayReply = Ok (Some ErrICMPIgnoredPacket)
  /\ icmpDriver.Ping testDriver [Reply strayReply; Reply goodReply]
     = icmpDriver.Ping testDriver [Reply goodReply].
Proof.
  assert (Hconn : icmpDriver.ctx testDriver <> None) by discriminate.
  destruct (Ping_correlates_echo_replies testDriver testProvider Hconn eq_refl
              strayReply [Reply goodReply]) as [_ H].
  eapply H.
  - vm_compute. reflexivity.
  - reflexivity.
  - right. right. split; vm_compute; discriminate.
Defined.

Lemma Ping_matching_witness :
  In (Reply goodReply) [Reply strayReply; Reply goodReply; Closed]
  /\ exists msg echo,
       Parse (icmpDriver.protocolHandler testDriver) (Message goodReply) = inl msg
       /\ icmp.Body msg = icmp.BodyEcho echo
       /\ icmp.Type' msg = ReplyType (icmpDriver.protocolHandler testDriver)
       /\ icmp.ID echo = icmpMessageProvider.id testProvider
       /\ 16 <= Go.len (icmp.Data echo)
       /\ decodedTracker echo = icmpMessageProvider.tracker testProvider.
Proof.
  assert (Hconn : icmpDriver.ctx testDriver <> None) by discriminate.
  destruct (Ping_returns_only_matching_replies testDriver testProvider Hconn
              eq_refl [Reply strayReply; Reply goodReply; Closed] goodReply)
    as (_ & Hin & Hmatch).
  - vm_compute. reflexivity.
  - split; [apply Hin; now left | exact Hmatch].
Defined.

Lemma Provide_under_mutex_witness :
  exists msg msg',
    callers (provideRun twoCallers (allAtLock testProvider)) 0%nat = Returned msg
    /\ callers (provideRun twoCallers (allAtLock testProvider)) 1%nat = Returned msg'
    /\ icmp.echoSeq msg = Some 0
    /\ icmp.echoSeq msg' = Some 1
    /\ icmp.echoSeq msg <> icmp.echoSeq msg'.
Proof.
  eexists. eexists.
  split; [vm_compute; reflexivity|]. split; [vm_compute; reflexivity|].
  split; [reflexivity|]. split; [reflexivity|].
  destruct (Provide_under_mutex icmpIPv4Handler.handler (Some testAddr)
              testEntropy twoCallers) as (_ & Hdist & _).
  - vm_compute. reflexivity.
  - apply (Hdist 0%nat 1%nat); [vm_compute; reflexivity | vm_compute; reflexivity |].
    discriminate.
Defined.

Lemma Ping_race_witness :
  icmpDriver.Ping testDriver [Reply strayReply; Reply strayReply] = PingWaiting
  /\ icmpDriver.Ping testDriver
       [Reply strayReply; Reply strayReply; Done ContextCanceled; Reply goodReply]
     = PingReturned RawPacket_zero (Some ContextCanceled).
Proof.
  destruct (Ping_waits_on_the_same_race testDriver
              [Reply strayReply; Reply strayReply] [Reply goodReply]
              ContextCanceled goodReply) as (Hw & Hd & _).
  - discriminate.
  - repeat constructor; eexists; (split; [reflexivity | vm_compute; reflexivity]).
  - split; [exact Hw | exact Hd].
Defined.

Lemma C2_witness :
  pinger.Connect scriptedDriver 7%nat
    (snd (pinger.Connect scriptedDriver 7%nat (pinger.New 0%nat)))
  = (Some ErrAlreadyConnected,
     snd (pinger.Connect scriptedDriver 7%nat (pinger.New 0%nat)))
  /\ pinger.Disconnect scriptedDriver (pinger.New 0%nat)
     = (Some ErrNotConnected, pinger.New 0%nat)
  /\ pinger.connected (snd (pinger.Connect scriptedDriver 7%nat (pinger.New 0%nat)))
     = true.
Proof.
  destruct (C2_connect_disconnect_machine scriptedDriver 7%nat
              (snd (pinger.Connect scriptedDriver 7%nat (pinger.New 0%nat))) [])
    as (Hc & _).
  destruct (C2_connect_disconnect_machine scriptedDriver 7%nat
              (pinger.New 0%nat) [pinger.OpConnect 7%nat])
    as (_ & Hd & _ & _ & Hrun).
  split; [apply Hc; reflexivity|]. split; [apply Hd; reflexivity|].
  exact Hrun.
Defined.

Lemma C4_witness :
  RTT (Timed (fst (fst (pinger.Ping scriptedDriver (pinger.New 0%nat))))) = 500
  /\ Sent (Timed (fst (fst (pinger.Ping scriptedDriver (pinger.New 0%nat))))) = 1000
  /\ fst (pinger.Ping scriptedDriver (pinger.New 2%nat))
     = (Packet_zero, Some (Errno 113)).
Proof.
  pose proof (proj1 (C4_Ping_assembles_packet scriptedDriver (pinger.New 0%nat)
                       {| Message := [x2a]; Size := 1; TTL := 64 |} 1000 1500
                       (Errno 113) Timer.fresh 1%nat) eq_refl) as [Hok Hrtt].
  pose proof (proj2 (C4_Ping_assembles_packet scriptedDriver (pinger.New 2%nat)
                       RawPacket_zero 0 0 (Errno 113) Timer.fresh 3%nat) eq_refl)
    as Hfail.
  rewrite Hok, Hfail. cbn [fst Timed RTT Sent].
  split; [|split; reflexivity].
  apply Hrtt. vm_compute. split; discriminate.
Defined.

Lemma C6_witness :
  icmpMessageProvider.ReadData testProvider
    {| icmp.Type' := ipv4.ICMPTypeEchoReply; icmp.Code := 0; icmp.Checksum := 0;
       icmp.Body := icmp.BodyEcho {| icmp.ID := 4660; icmp.Seq := 0;
                                     icmp.Data := [x01; x02; x03] |} |}
  = Ok (0, time.Unix 0 0, Some (Errorf "reply too short (expected 16B; actual 3B)")).
Proof.
  destruct (C6_ReadData_reply_too_short testProvider ipv4.ICMPTypeEchoReply 0 0
              {| icmp.ID := 4660; icmp.Seq := 0; icmp.Data := [x01; x02; x03] |})
    as (_ & Hshort & _ & _).
  apply Hshort. vm_compute. reflexivity.
Defined.

Lemma C9_witness :
  icmpDriver.ICMP isIPv4ByLength {| Addr := None; ReadTimeout := 5 |}
  = Ok (None, Some ErrNoAddress)
  /\ exists p,
       icmpDriver.ICMP isIPv4ByLength {| Addr := Some testAddr; ReadTimeout := 0 |}
       = Ok (Some p, None)
       /\ ReadTimeout (icmpDriver.config (pinger.driver p)) = 100000000.
Proof.
  destruct (C9_ICMP_configuration isIPv4ByLength {| Addr := None; ReadTimeout := 5 |})
    as (Hnil & _).
  destruct (C9_ICMP_configuration isIPv4ByLength
              {| Addr := Some testAddr; ReadTimeout := 0 |}) as (_ & Hsome & _).
  split; [apply Hnil; reflexivity|].
  destruct (Hsome testAddr eq_refl) as (p & Hp & _ & _ & _ & _ & Ht).
  exists p. split; [exact Hp | exact Ht].
Defined.

(** ** The statistics middleware *)

Lemma collectTyped_from (s : stats.t) (pkts : list Packet) (errs : list error) :
  fold_left
    (fun (acc : list Packet * list error) (result : statResult) =>
       let '(pkts, errs) := acc in
       match srErr result with
       | Some err => (pkts, errs ++ [err])
       | None => (pkts ++ [srPacket result], errs)
       end) s (pkts, errs)
  = (pkts ++ map srPacket (filter succeeded s),
     errs ++ flat_map (fun r => match srErr r with
                                | Some e => [e]
                                | None => []
                                end) s).
Proof.
  revert pkts errs. induction s as [|r s IH]; intros pkts errs.
  - cbn. now rewrite !app_nil_r.
  - cbn [fold_left filter flat_map].
    destruct (srErr r) as [e|] eqn:E; rewrite IH.
    + replace (succeeded r) with false by (unfold succeeded; now rewrite E).
      cbn [app]. now rewrite <- app_assoc.
    + replace (succeeded r) with true by (unfold succeeded; now rewrite E).
      cbn [map app]. now rewrite <- app_assoc.
Qed.

Lemma failed_count (s : stats.t) :
  List.length (flat_map (fun r => match srErr r with
                                  | Some e => [e]
                                  | None => []
                                  end) s)
  = List.length (filter (fun r => negb (succeeded r)) s).
Proof.
  induction s as [|r s IH]; [reflexivity|].
  cbn [flat_map filter]. unfold succeeded at 1.
  destruct (srErr r); cbn; now rewrite ?IH.
Qed.

Lemma partition_count (s : stats.t) :
  (List.length (filter succeeded s)
   + List.length (filter (fun r => negb (succeeded r)) s))%nat
  = List.length s.
Proof.
  induction s as [|r s IH]; [reflexivity|].
  cbn [filter]. destruct (succeeded r); cbn; lia.
Qed.

Lemma Calculate_fields (s : stats.t) :
  NumPings (stats.Calculate s) = Go.len s
  /\ NumSuccessful (stats.Calculate s) = Go.len (filter succeeded s)
  /\ NumFailed (stats.Calculate s)
     = Go.len (filter (fun r => negb (succeeded r)) s)
  /\ (filter succeeded s = [] -> MeanRTT (stats.Calculate s) = 0).
Proof.
  unfold stats.Calculate, stats.collectTyped.
  rewrite collectTyped_from. cbn [app fst NumPings NumSuccessful NumFailed MeanRTT].
  unfold Go.len. rewrite length_map, failed_count.
  repeat split. intros ->. reflexivity.
Qed.

(** X6: a report counts every aggregated result once, as successful when
    its error is nil and as failed otherwise, so the two counts add up to
    the number of pings; the packets that enter the mean are those of the
    successful results, in the order they were aggregated. *)
Theorem Calculate_counts :
  forall s : stats.t,
    NumPings (stats.Calculate s) = Go.len s
    /\ NumSuccessful (stats.Calculate s) = Go.len (filter succeeded s)
    /\ NumFailed (stats.Calculate s)
       = Go.len (filter (fun r => negb (succeeded r)) s)
    /\ NumPings (stats.Calculate s)
       = NumSuccessful (stats.Calculate s) + NumFailed (stats.Calculate s)
    /\ fst (stats.collectTyped s) = map srPacket (filter succeeded s).
Proof.
  intros s. destruct (Calculate_fields s) as (Hp & Hs & Hf & _).
  rewrite Hp, Hs, Hf. repeat split.
  - unfold Go.len. rewrite <- (partition_count s). lia.
  - unfold stats.collectTyped. now rewrite collectTyped_from.
Qed.

Lemma totalRTT_bounds (lo hi : Z) (pkts : list Packet) :
  forall (acc j : Z),
    Forall (fun pkt => lo <= RTT (Timed pkt) <= hi) pkts ->
    0 <= j ->
    j * lo <= acc <= j * hi ->
    Go.int64_min <= (j + Go.len pkts) * lo ->
    (j + Go.len pkts) * hi <= Go.int64_max ->
    (j + Go.len pkts) * lo
    <= fold_left (fun total pkt => Go.wrap64 (total + RTT (Timed pkt))) pkts acc
    <= (j + Go.len pkts) * hi.
Proof.
  induction pkts as [|pkt pkts IH]; intros acc j Hall Hj Hacc Hlo Hhi.
  - unfold Go.len. cbn. rewrite Z.add_0_r. exact Hacc.
  - unfold Go.len in *. cbn [List.length fold_left] in *.
    rewrite Nat2Z.inj_succ in *.
    inversion Hall as [|? ? Hpkt Hrest]; subst.
    assert (Hlen : 0 <= Z.of_nat (List.length pkts)) by lia.
    assert (Hlohi : lo <= hi) by lia.
    assert (Hw : Go.wrap64 (acc + RTT (Timed pkt)) = acc + RTT (Timed pkt)).
    { apply wrap64_in_range. unfold Go.in_int64.
      unfold Go.int64_min, Go.int64_max in *. nia. }
    rewrite Hw.
    replace (j + Z.succ (Z.of_nat (List.length pkts)))
      with ((j + 1) + Z.of_nat (List.length pkts)) in * by lia.
    apply IH; trivial; lia.
Qed.

(** X7: when every successful result has a round trip between [lo] and
    [hi], and the sum of that many round trips cannot leave the 64-bit
    range, the reported mean lies between [lo] and [hi] too; with no
    successful result the mean is zero. *)
Theorem Calculate_mean_bounds :
  forall (s : stats.t) (lo hi : Z),
    (forall r, In r s -> succeeded r = true ->
               lo <= RTT (Timed (srPacket r)) <= hi) ->
    Go.int64_min <= NumSuccessful (stats.Calculate s) * lo ->
    NumSuccessful (stats.Calculate s) * hi <= Go.int64_max ->
    (0 < NumSuccessful (stats.Calculate s) ->
       lo <= MeanRTT (stats.Calculate s) <= hi)
    /\ (NumSuccessful (stats.Calculate s) = 0 ->
          MeanRTT (stats.Calculate s) = 0).
Proof.
  intros s lo hi Hall.
  unfold stats.Calculate, stats.collectTyped. rewrite collectTyped_from.
  cbn [app NumSuccessful MeanRTT].
  set (pkts := map srPacket (filter succeeded s)).
  intros Hlo Hhi. split.
  - intros Hn. apply Z.ltb_lt in Hn as Hn'. rewrite Hn'.
    assert (Hp : Forall (fun pkt => lo <= RTT (Timed pkt) <= hi) pkts).
    { subst pkts. apply Forall_forall. intros pkt Hin.
      apply in_map_iff in Hin as (r & <- & Hr).
      apply filter_In in Hr as [Hr Hs]. now apply Hall. }
    pose proof (totalRTT_bounds lo hi pkts 0 0 Hp (Z.le_refl 0)) as Hsum.
    rewrite !Z.add_0_l in Hsum. fold (stats.totalRTT pkts) in Hsum.
    specialize (Hsum ltac:(lia) Hlo Hhi).
    set (n := Go.len pkts) in *. set (total := stats.totalRTT pkts) in *.
    destruct (Z.le_gt_cases 0 total) as [Hpos|Hneg].
    + rewrite Z.quot_div_nonneg by lia. split.
      * apply Z.div_le_lower_bound; lia.
      * apply Z.div_le_upper_bound; lia.
    + replace total with (- (- total)) by lia.
      rewrite Z.quot_opp_l by lia.
      rewrite Z.quot_div_nonneg by lia. split.
      * assert (- total / n <= - lo) by (apply Z.div_le_upper_bound; lia). lia.
      * assert (- hi <= - total / n) by (apply Z.div_le_lower_bound; lia). lia.
  - intros Hz. now rewrite Hz.
Qed.

Section Middleware.

Context {P : Type} (inner : Pinger P).

Lemma runPinger_length (cs : list PingerCall) :
  forall (p p' : P) (outs : list (Packet * option error)),
    runPinger inner cs p = Ok (outs, p') -> List.length outs = List.length cs.
Proof.
  induction cs as [|c cs IH]; intros p p' outs H; cbn [runPinger] in H.
  - now injection H as <- <-.
  - destruct (callPinger inner c p) as [[out p1]|why]; [|discriminate].
    destruct (runPinger inner cs p1) as [[outs1 p2]|why] eqn:E; [|discriminate].
    injection H as <- <-. cbn. f_equal. exact (IH _ _ _ E).
Qed.

Lemma pingResults_length (cs : list PingerCall) :
  forall outs : list (Packet * option error),
    List.length outs = List.length cs ->
    List.length (pingResults cs outs) = List.length (filter isPing cs).
Proof.
  induction cs as [|c cs IH]; intros [|[pkt err] outs] H; try discriminate;
    [reflexivity|].
  injection H as H. destruct c; cbn; rewrite ?(IH _ H); reflexivity.
Qed.

Lemma tracker_call (c : PingerCall) (tr : tracker.t) :
  tracker.mut tr = Unlocked ->
  callPinger (tracker.asPinger inner) c tr
  = match callPinger inner c (tracker.next tr) with
    | Panic why => Panic why
    | Ok (out, p) =>
        Ok (out,
            {| tracker.next := p;
               tracker.mut := Unlocked;
               tracker.stats :=
                 tracker.stats tr ++ pingResults [c] [out] |})
    end.
Proof.
  intros Hm. destruct c as [ctx| |]; cbn [callPinger tracker.asPinger pngConnect
                                            pngDisconnect pngPing].
  - unfold tracker.Connect.
    destruct (pngConnect inner ctx (tracker.next tr)) as [[err p]|why];
      [|reflexivity].
    cbn [pingResults]. now rewrite app_nil_r, Hm.
  - unfold tracker.Disconnect.
    destruct (pngDisconnect inner (tracker.next tr)) as [[err p]|why];
      [|reflexivity].
    cbn [pingResults]. now rewrite app_nil_r, Hm.
  - unfold tracker.Ping.
    destruct (pngPing inner (tracker.next tr)) as [[[pkt err] p]|why];
      reflexivity.
Qed.

Lemma tracker_run (cs : list PingerCall) :
  forall tr : tracker.t,
    tracker.mut tr = Unlocked ->
    runPinger (tracker.asPinger inner) cs tr
    = match runPinger inner cs (tracker.next tr) with
      | Panic why => Panic why
      | Ok (outs, p) =>
          Ok (outs,
              {| tracker.next := p;
                 tracker.mut := Unlocked;
                 tracker.stats := tracker.stats tr ++ pingResults cs outs |})
      end.
Proof.
  induction cs as [|c cs IH]; intros tr Hm; cbn [runPinger].
  - cbn [pingResults]. rewrite app_nil_r. destruct tr as [n m s].
    cbn in Hm. now subst m.
  - rewrite (tracker_call c tr Hm).
    destruct (callPinger inner c (tracker.next tr)) as [[out p1]|why];
      [|reflexivity].
    rewrite IH by reflexivity. cbn [tracker.next tracker.stats].
    destruct (runPinger inner cs p1) as [[outs p2]|why]; [|reflexivity].
    f_equal. f_equal. f_equal. rewrite <- app_assoc. f_equal.
    destruct c, out; reflexivity.
Qed.

(** X8: a pinger wrapped by [Track] answers every call exactly as the
    wrapped pinger does and leaves it in the same state (a panic of the
    wrapped pinger included); its aggregator holds the results of the
    [Ping] calls made, in order, so that a report counts as many pings as
    [Ping] was called, whatever [Connect] and [Disconnect] calls came in
    between. *)
Theorem Track_is_transparent :
  forall (cs : list PingerCall) (p0 : P),
    runPinger (tracker.asPinger inner) cs (tracker.Track p0)
    = match runPinger inner cs p0 with
      | Panic why => Panic why
      | Ok (outs, p) =>
          Ok (outs,
              {| tracker.next := p;
                 tracker.mut := Unlocked;
                 tracker.stats := pingResults cs outs |})
      end
    /\ forall outs tr,
         runPinger (tracker.asPinger inner) cs (tracker.Track p0) = Ok (outs, tr) ->
         NumPings (stats.Calculate (tracker.stats tr))
         = Go.len (filter isPing cs).
Proof.
  intros cs p0.
  pose proof (tracker_run cs (tracker.Track p0) eq_refl) as Hrun.
  cbn [tracker.Track tracker.next tracker.stats app] in Hrun.
  split; [exact Hrun|].
  intros outs tr H. rewrite Hrun in H.
  destruct (runPinger inner cs p0) as [[outs' p]|why] eqn:E; [|discriminate].
  injection H as <- <-. cbn [tracker.stats].
  destruct (Calculate_fields (pingResults cs outs')) as (-> & _).
  unfold Go.len. f_equal. apply pingResults_length.
  exact (runPinger_length cs _ _ _ E).
Qed.

(** ** The middleware that forces failures *)

Lemma unitDraws_gt_one (c : float64) (r : Rand) :
  atLeastOne c -> unitDraws r -> float_gt c (r 0%nat) = true.
Proof.
  intros Hc Hr. destruct (Hr 0%nat) as (n & d & -> & Hn).
  destruct Hc as [->|(m & e & -> & Hm)]; [reflexivity|].
  cbn [float_gt]. apply Z.ltb_lt. nia.
Qed.

Lemma unitDraws_gt_zero (c : float64) (r : Rand) :
  atMostZero c -> unitDraws r -> float_gt c (r 0%nat) = false.
Proof.
  intros Hc Hr. destruct (Hr 0%nat) as (n & d & -> & Hn).
  destruct Hc as [->|[->|(m & e & -> & Hm)]]; try reflexivity.
  cbn [float_gt]. apply Z.ltb_ge. nia.
Qed.

Lemma unitDraws_next (r : Rand) :
  unitDraws r -> unitDraws (snd (Float64 r)).
Proof. intros H k. exact (H (S k)). Qed.

Lemma Errors_Ping_eq (p : errorPinger.t) (r : Rand) :
  errorPinger.rng p = Some r ->
  errorPinger.Ping inner p
  = (if float_gt (errorPinger.chance p) (r 0%nat)
     then Ok ((Packet_zero, Some ErrForcedError),
              {| errorPinger.next := errorPinger.next p;
                 errorPinger.chance := errorPinger.chance p;
                 errorPinger.rng := Some (snd (Float64 r));
                 errorPinger.sources := errorPinger.sources p |})
     else match pngPing inner (errorPinger.next p) with
          | Panic why => Panic why
          | Ok (out, n) =>
              Ok (out,
                  {| errorPinger.next := n;
                     errorPinger.chance := errorPinger.chance p;
                     errorPinger.rng := Some (snd (Float64 r));
                     errorPinger.sources := errorPinger.sources p |})
          end).
Proof.
  intros Hr. unfold errorPinger.Ping, errorPinger.hasError. rewrite Hr.
  cbn [Float64 snd].
  destruct (float_gt (errorPinger.chance p) (r 0%nat)); reflexivity.
Qed.

(** X9: with a generator whose draws are in [[0, 1)]: at a chance of 1 or
    more every [Ping] fails with [ErrForcedError] and the wrapped pinger is
    not called; at a chance of 0 or less (or not a number) no failure is
    forced and [Ping] is the wrapped pinger's, result and panic alike; in
    general the failure is forced exactly when the chance exceeds the
    draw.  Before the first [Connect] there is no generator and [Ping]
    panics. *)
Theorem Errors_chance :
  forall (p : errorPinger.t) (r : Rand),
    (errorPinger.rng p = None ->
       errorPinger.Ping inner p = Panic "nil pointer dereference") /\
    (errorPinger.rng p = Some r -> unitDraws r ->
       let p' := {| errorPinger.next := errorPinger.next p;
                    errorPinger.chance := errorPinger.chance p;
                    errorPinger.rng := Some (snd (Float64 r));
                    errorPinger.sources := errorPinger.sources p |} in
       let delegated :=
         match pngPing inner (errorPinger.next p) with
         | Panic why => Panic why
         | Ok (out, n) =>
             Ok (out, {| errorPinger.next := n;
                         errorPinger.chance := errorPinger.chance p;
                         errorPinger.rng := Some (snd (Float64 r));
                         errorPinger.sources := errorPinger.sources p |})
         end in
       errorPinger.Ping inner p
       = (if float_gt (errorPinger.chance p) (r 0%nat)
          then Ok ((Packet_zero, Some ErrForcedError), p')
          else delegated)
       /\ (atLeastOne (errorPinger.chance p) ->
            errorPinger.Ping inner p
            = Ok ((Packet_zero, Some ErrForcedError), p'))
       /\ (atMostZero (errorPinger.chance p) ->
            errorPinger.Ping inner p = delegated)).
Proof.
  intros p r. split.
  - intros Hr. unfold errorPinger.Ping, errorPinger.hasError. now rewrite Hr.
  - intros Hr Hu. cbv zeta. pose proof (Errors_Ping_eq p r Hr) as Hgen.
    split; [exact Hgen|]. split.
    + intros Hc. now rewrite Hgen, (unitDraws_gt_one _ r Hc Hu).
    + intros Hc. now rewrite Hgen, (unitDraws_gt_zero _ r Hc Hu).
Qed.

Lemma Errors_forced_run (N : nat) :
  forall (p : errorPinger.t) (r : Rand),
    errorPinger.rng p = Some r -> unitDraws r ->
    atLeastOne (errorPinger.chance p) ->
    exists p',
      runPinger (errorPinger.asPinger inner) (repeat DoPing N) p
      = Ok (repeat (Packet_zero, Some ErrForcedError) N, p')
      /\ errorPinger.next p' = errorPinger.next p.
Proof.
  induction N as [|N IH]; intros p r Hr Hu Hc.
  - exists p. split; reflexivity.
  - cbn [repeat runPinger callPinger errorPinger.asPinger pngPing].
    rewrite (Errors_Ping_eq p r Hr), (unitDraws_gt_one _ r Hc Hu).
    destruct (IH {| errorPinger.next := errorPinger.next p;
                    errorPinger.chance := errorPinger.chance p;
                    errorPinger.rng := Some (snd (Float64 r));
                    errorPinger.sources := errorPinger.sources p |}
                 (snd (Float64 r)) eq_refl (unitDraws_next r Hu) Hc)
      as (p' & Hrun & Hnext).
    rewrite Hrun. exists p'. split; [reflexivity | exact Hnext].
Qed.

End Middleware.

Section Composition.

Context {P : Type} (inner : Pinger P).

(** X10: behind [Track], a pinger that [Errors] wraps with a chance of 1
    or more, once connected, answers [N] pings with [N] forced failures;
    the report then counts [N] pings, none successful, [N] failed, with a
    zero mean; and the innermost pinger saw the [Connect] only. *)
Theorem Track_Errors_always_fail :
  forall (c : float64) (n n1 : P) (world : nat -> Rand) (ctx : Context)
         (err : option error) (N : nat),
    atLeastOne c ->
    (forall k, unitDraws (world k)) ->
    pngConnect inner ctx n = Ok (err, n1) ->
    exists tr,
      runPinger (tracker.asPinger (errorPinger.asPinger inner))
        (DoConnect ctx :: repeat DoPing N)
        (tracker.Track (errorPinger.Errors c n world))
      = Ok ((Packet_zero, err) :: repeat (Packet_zero, Some ErrForcedError) N, tr)
      /\ NumPings (stats.Calculate (tracker.stats tr)) = Z.of_nat N
      /\ NumSuccessful (stats.Calculate (tracker.stats tr)) = 0
      /\ NumFailed (stats.Calculate (tracker.stats tr)) = Z.of_nat N
      /\ MeanRTT (stats.Calculate (tracker.stats tr)) = 0
      /\ errorPinger.next (tracker.next tr) = n1.
Proof.
  intros c n n1 world ctx err N Hc Hw Hconn.
  rewrite (tracker_run (errorPinger.asPinger inner)
             (DoConnect ctx :: repeat DoPing N)
             (tracker.Track (errorPinger.Errors c n world)) eq_refl).
  cbn [tracker.Track tracker.next tracker.stats app].
  cbn [runPinger callPinger errorPinger.asPinger pngConnect].
  unfold errorPinger.Connect at 1.
  cbn [errorPinger.Errors errorPinger.next errorPinger.chance errorPinger.sources].
  rewrite Hconn.
  destruct (Errors_forced_run inner N
              {| errorPinger.next := n1; errorPinger.chance := c;
                 errorPinger.rng := Some (world 0%nat);
                 errorPinger.sources := fun k => world (S k) |}
              (world 0%nat) eq_refl (Hw 0%nat) Hc)
    as (p' & Hpings & Hnext).
  fold (@errorPinger.asPinger P inner). rewrite Hpings.
  eexists. split; [reflexivity|].
  cbn [tracker.stats tracker.next pingResults].
  assert (Hres : forall k,
            pingResults (repeat DoPing k)
              (repeat (Packet_zero, Some ErrForcedError) k)
            = repeat {| srPacket := Packet_zero; srErr := Some ErrForcedError |} k).
  { induction k as [|k IHk]; [reflexivity|]. cbn. now rewrite IHk. }
  rewrite Hres.
  assert (Hnone : forall k,
            filter succeeded
              (repeat {| srPacket := Packet_zero; srErr := Some ErrForcedError |} k)
            = []).
  { induction k as [|k IHk]; [reflexivity | exact IHk]. }
  assert (Hall : forall k,
            filter (fun r => negb (succeeded r))
              (repeat {| srPacket := Packet_zero; srErr := Some ErrForcedError |} k)
            = repeat {| srPacket := Packet_zero; srErr := Some ErrForcedError |} k).
  { induction k as [|k IHk]; [reflexivity|]. cbn. now rewrite IHk. }
  destruct (Calculate_fields
              (repeat {| srPacket := Packet_zero; srErr := Some ErrForcedError |} N))
    as (Hp & Hs & Hf & Hz).
  rewrite Hp, Hs, Hf, Hnone, Hall, (Hz (Hnone N)). unfold Go.len.
  rewrite repeat_length. cbn [List.length].
  repeat split. exact Hnext.
Qed.

End Composition.

(** ** The logging middleware *)

Section Logging.

Context {P : Type} (inner : Pinger P).
Variable addrString : net.Addr -> string.

Lemma logger_call (c : PingerCall) (p p' : pingerLogger.t)
    (out : Packet * option error) :
  callPinger (pingerLogger.asPinger inner addrString) c p = Ok (out, p') ->
  callPinger inner c (pingerLogger.next p) = Ok (out, pingerLogger.next p')
  /\ pingerLogger.context p' = pingerLogger.context p
  /\ exists entry,
       pingerLogger.log p' = pingerLogger.log p ++ [entry]
       /\ isErrorEntry entry = failedOut out.
Proof.
  destruct c as [ctx| |];
    cbn [callPinger pingerLogger.asPinger pngConnect pngDisconnect pngPing].
  - unfold pingerLogger.Connect.
    destruct (pngConnect inner ctx (pingerLogger.next p)) as [[err n]|why];
      [|discriminate].
    intros H. injection H as <- <-. cbn. repeat split.
    eexists. split; [reflexivity|]. now destruct err.
  - unfold pingerLogger.Disconnect.
    destruct (pngDisconnect inner (pingerLogger.next p)) as [[err n]|why];
      [|discriminate].
    intros H. injection H as <- <-. cbn. repeat split.
    eexists. split; [reflexivity|]. now destruct err.
  - unfold pingerLogger.Ping.
    destruct (pngPing inner (pingerLogger.next p)) as [[[pkt [e|]] n]|why];
      [| |discriminate].
    + intros H. injection H as <- <-. cbn. repeat split.
      eexists. split; reflexivity.
    + destruct (pingerLogger.formatPacket addrString pkt) as [msg|why];
        [|discriminate].
      intros H. injection H as <- <-. cbn. repeat split.
      eexists. split; reflexivity.
Qed.

(** X11: when a run of calls on a pinger wrapped by [Log] does not panic,
    the wrapped pinger was given the same calls, answered each one as
    reported and is left as it would be without the wrapper; the logger
    has received exactly one entry per call, an error entry for each call
    that returned an error and a trace entry for each that did not. *)
Theorem Log_is_transparent :
  forall (cs : list PingerCall) (p p' : pingerLogger.t)
         (outs : list (Packet * option error)),
    runPinger (pingerLogger.asPinger inner addrString) cs p = Ok (outs, p') ->
    runPinger inner cs (pingerLogger.next p) = Ok (outs, pingerLogger.next p')
    /\ pingerLogger.context p' = pingerLogger.context p
    /\ exists entries,
         pingerLogger.log p' = pingerLogger.log p ++ entries
         /\ List.length entries = List.length cs
         /\ map isErrorEntry entries = map failedOut outs.
Proof.
  induction cs as [|c cs IH]; intros p p' outs H; cbn [runPinger] in H |- *.
  - injection H as <- <-. repeat split. exists []. now rewrite app_nil_r.
  - destruct (callPinger (pingerLogger.asPinger inner addrString) c p)
      as [[out p1]|why] eqn:Ec; [|discriminate].
    destruct (runPinger (pingerLogger.asPinger inner addrString) cs p1)
      as [[outs1 p2]|why] eqn:Er; [|discriminate].
    injection H as <- <-.
    destruct (logger_call c p p1 out Ec) as (Hc & Hctx & entry & Hlog & Hkind).
    destruct (IH p1 p2 outs1 Er) as (Hr & Hctx' & entries & Hlog' & Hlen & Hkinds).
    rewrite Hc, Hr. split; [reflexivity|]. split; [congruence|].
    exists (entry :: entries). split; [|split].
    + rewrite Hlog', Hlog, <- app_assoc. reflexivity.
    + cbn. now rewrite Hlen.
    + cbn. now rewrite Hkind, Hkinds.
Qed.

End Logging.

Section LoggingThePinger.

Context {D : Type} (drv : Driver D).
Variable addrString : net.Addr -> string.

Lemma pinger_Ping_address (p : pinger.t) :
  snd (fst (pinger.Ping drv p)) = None ->
  exists a, Address (Meta (fst (fst (pinger.Ping drv p)))) = Some a.
Proof.
  unfold pinger.Ping.
  destruct (drvPing drv Timer.fresh (pinger.driver p)) as [[[raw [e|]] tm] d'];
    cbn; [discriminate|]. intros _. eexists. reflexivity.
Qed.

Lemma logged_pinger_call (c : PingerCall) (p : pingerLogger.t) :
  exists out p',
    callPinger (pingerLogger.asPinger (pingerOf drv) addrString) c p
    = Ok (out, p').
Proof.
  destruct c as [ctx| |];
    cbn [callPinger pingerLogger.asPinger pingerOf pngConnect pngDisconnect pngPing].
  - unfold pingerLogger.Connect. cbn [pingerOf pngConnect].
    destruct (pinger.Connect drv ctx (pingerLogger.next p)) as [err n].
    eexists. eexists. reflexivity.
  - unfold pingerLogger.Disconnect. cbn [pingerOf pngDisconnect].
    destruct (pinger.Disconnect drv (pingerLogger.next p)) as [err n].
    eexists. eexists. reflexivity.
  - unfold pingerLogger.Ping. cbn [pingerOf pngPing].
    pose proof (pinger_Ping_address (pingerLogger.next p)) as Ha.
    destruct (pinger.Ping drv (pingerLogger.next p)) as [[pkt [e|]] n].
    + eexists. eexists. reflexivity.
    + destruct (Ha eq_refl) as [a Hpkt]. cbn [fst] in Hpkt.
      unfold pingerLogger.formatPacket. rewrite Hpkt.
      eexists. eexists. reflexivity.
Qed.

(** X12: [Log] around the pinger of [New] never panics, whatever the
    driver and the calls: the address that [formatPacket] asks for its
    string is set in every packet that [Ping] returns without error.
    The trace entry of such a ping gives the size, the string of the
    driver's address and the round trip in whole milliseconds, truncated
    toward zero. *)
Theorem Log_of_pinger_never_panics :
  forall (cs : list PingerCall) (p : pingerLogger.t),
    (exists outs p',
       runPinger (pingerLogger.asPinger (pingerOf drv) addrString) cs p
       = Ok (outs, p'))
    /\ forall pkt n,
         pinger.Ping drv (pingerLogger.next p) = ((pkt, None), n) ->
         pingerLogger.Ping (pingerOf drv) addrString p
         = Ok ((pkt, None),
               {| pingerLogger.log :=
                    pingerLogger.log p
                    ++ [LoggedTrace (pingerLogger.context p) "ping"
                          (String.append "received "
                             (String.append (Go.fmt_d (Size (Raw pkt)))
                                (String.append "B from "
                                   (String.append
                                      (addrString
                                         (drvAddress drv (pinger.driver n)))
                                      (String.append " in "
                                         (String.append
                                            (Go.fmt_d
                                               (Z.quot (RTT (Timed pkt)) 1000000))
                                            "ms"))))))];
                  pingerLogger.context := pingerLogger.context p;
                  pingerLogger.next := n |}).
Proof.
  intros cs p. split.
  - revert p. induction cs as [|c cs IH]; intros p; cbn [runPinger].
    + eexists. eexists. reflexivity.
    + destruct (logged_pinger_call c p) as (out & p1 & ->).
      destruct (IH p1) as (outs & p2 & ->). eexists. eexists. reflexivity.
  - intros pkt n H. unfold pingerLogger.Ping. cbn [pingerOf pngPing].
    rewrite H. unfold pinger.Ping in H.
    destruct (drvPing drv Timer.fresh (pinger.driver (pingerLogger.next p)))
      as [[[raw [e|]] tm] d']; [discriminate|].
    injection H as <- <-. reflexivity.
Qed.

End LoggingThePinger.

(** ** The HTTP driver *)

Section HTTPFacts.

Variable URL : Type.
Variable urlParse : string -> URL + error.
Variable urlString : URL -> string.

(** X13: [HTTP] returns a pinger exactly when the URL parses and the
    method is "GET" or "HEAD", letter for letter; the pinger is then
    disconnected and its driver holds the method and the parsed URL.  A URL
    that does not parse gives the parser's error whatever the method;
    otherwise another method gives the error "invalid method" followed by
    the method. *)
Theorem HTTP_accepts_GET_and_HEAD :
  forall (method reqURL : string),
    ((exists p, httpDriver.HTTP URL urlParse method reqURL = (Some p, None))
     <-> (exists u, urlParse reqURL = inl u)
         /\ (method = "GET" \/ method = "HEAD"))
    /\ (forall err, urlParse reqURL = inr err ->
          httpDriver.HTTP URL urlParse method reqURL = (None, Some err))
    /\ (forall u, urlParse reqURL = inl u ->
          method <> "GET" -> method <> "HEAD" ->
          httpDriver.HTTP URL urlParse method reqURL
          = (None, Some (Errorf (String.append "invalid method " method))))
    /\ (forall u, urlParse reqURL = inl u ->
          method = "GET" \/ method = "HEAD" ->
          httpDriver.HTTP URL urlParse method reqURL
          = (Some (pinger.New
                     {| httpDriver.ctx := None;
                        httpDriver.addr :=
                          {| httpDriver.Method := method;
                             httpDriver.addrURL := u |} |}),
             None)).
Proof.
  intros method reqURL.
  assert (Hok : forall u, urlParse reqURL = inl u ->
            method = "GET" \/ method = "HEAD" ->
            httpDriver.HTTP URL urlParse method reqURL
            = (Some (pinger.New
                       {| httpDriver.ctx := None;
                          httpDriver.addr :=
                            {| httpDriver.Method := method;
                               httpDriver.addrURL := u |} |}),
               None)).
  { intros u Hu Hm. unfold httpDriver.HTTP, httpDriver.httpWithAddr.
    rewrite Hu. cbn [httpDriver.Method].
    destruct Hm as [-> | ->]; reflexivity. }
  assert (Hbad : forall u, urlParse reqURL = inl u ->
            method <> "GET" -> method <> "HEAD" ->
            httpDriver.HTTP URL urlParse method reqURL
            = (None, Some (Errorf (String.append "invalid method " method)))).
  { intros u Hu Hg Hh. unfold httpDriver.HTTP, httpDriver.httpWithAddr.
    rewrite Hu. cbn [httpDriver.Method].
    unfold httpDriver.MethodGet, httpDriver.MethodHead.
    rewrite (proj2 (String.eqb_neq method "GET") Hg).
    rewrite (proj2 (String.eqb_neq method "HEAD") Hh). reflexivity. }
  assert (Herr : forall err, urlParse reqURL = inr err ->
            httpDriver.HTTP URL urlParse method reqURL = (None, Some err)).
  { intros err He. unfold httpDriver.HTTP. now rewrite He. }
  split; [|split; [exact Herr | split; [exact Hbad | exact Hok]]].
  split.
  - intros [p Hp]. destruct (urlParse reqURL) as [u|err] eqn:Eu.
    + split; [now exists u|].
      destruct (string_dec method "GET") as [Hg|Hg]; [now left|].
      destruct (string_dec method "HEAD") as [Hh|Hh]; [now right|].
      rewrite (Hbad u eq_refl Hg Hh) in Hp. discriminate.
    + rewrite (Herr err eq_refl) in Hp. discriminate.
  - intros [[u Hu] Hm]. eexists. exact (Hok u Hu Hm).
Qed.

(** X14: a probe of a connected HTTP driver returns an error exactly when
    the scope is done, the request fails or reading the body fails, and the
    error it returns is then that very error, with the zero packet; in
    every other case it returns no error and a packet whose message is the
    body read, whose size is the length of that message and whose TTL is
    zero; never a packet together with an error.  On a driver that was
    never connected it panics. *)
Theorem HTTP_Ping_packet :
  forall (d : httpDriver.t URL) (ev : HttpEvent),
    (httpDriver.ctx URL d = None ->
       httpDriver.Ping URL d ev = Panic "nil pointer dereference")
    /\ (httpDriver.ctx URL d <> None ->
          exists raw err,
            httpDriver.Ping URL d ev = Ok (raw, err)
            /\ (forall e,
                  err = Some e
                  <-> ev = HttpDone e
                      \/ ev = HttpSent (DoFailed e)
                      \/ ev = HttpSent (ReadFailed e))
            /\ (err = None ->
                  ev = HttpSent (Answered (Message raw))
                  /\ Size raw = Go.len (Message raw) /\ TTL raw = 0)
            /\ (err <> None -> raw = RawPacket_zero)).
Proof.
  intros d ev. unfold httpDriver.Ping. split.
  - intros ->. reflexivity.
  - intros Hc. destruct (httpDriver.ctx URL d) as [c|]; [|now destruct Hc].
    destruct ev as [e|[e|e|body]]; cbn [httpDriver.send];
      eexists; eexists; (split; [reflexivity|]);
      (split; [intros e'; split;
                 [intros [= <-]; auto
                 |intros [H | [H | H]]; congruence]|]);
      split; try discriminate; try reflexivity; try congruence.
    intros _. repeat split.
Qed.

End HTTPFacts.

(** ** The ICMP driver: connecting *)

Lemma Intn_range (n draw : Z) :
  0 < n -> 0 <= icmpMessageProvider.Intn n draw < n.
Proof. intros H. unfold icmpMessageProvider.Intn. now apply Z.mod_pos_bound. Qed.

(** X15: when [Listen] fails, [Connect] returns its error and leaves the
    driver as it was; when it succeeds the driver holds the socket, a child
    scope and a fresh provider: sequence number 0, mutex free, the
    handler's request type, an identifier in [[0, 32767)] and a tracker in
    [[0, 2^63 - 1)].  The handlers of both families never return a socket
    together with an error, and close the socket they opened exactly when
    setting it up failed. *)
Theorem ICMP_Connect_outcomes :
  forall (parent : Context) (s : SocketOpen) (rng : Entropy) (d : icmpDriver.t),
    let h := icmpDriver.protocolHandler d in
    (forall e,
       snd (fst (Listen h "" s)) = Some e ->
       icmpDriver.Connect parent s rng d = (Some e, d))
    /\ (snd (fst (Listen h "" s)) = None ->
        exists p,
          icmpDriver.Connect parent s rng d
          = (None,
             {| icmpDriver.config := icmpDriver.config d;
                icmpDriver.ctx := Some (S parent);
                icmpDriver.messageProvider := Some p;
                icmpDriver.packetConn := fst (fst (Listen h "" s));
                icmpDriver.protocolHandler := h |})
          /\ icmpMessageProvider.seq p = 0
          /\ icmpMessageProvider.mut p = Unlocked
          /\ icmpMessageProvider.msgType p = RequestType h
          /\ 0 <= icmpMessageProvider.id p < 32767
          /\ 0 <= icmpMessageProvider.tracker p < 2 ^ 63 - 1)
    /\ (familyHandler h ->
        forall addr,
          let '(conn, err, closed) := Listen h addr s in
          (conn = None <-> err <> None)
          /\ (closed = true <-> listenErr s = None /\ controlErr s <> None)).
Proof.
  intros parent s rng d h. split; [|split].
  - intros e He. unfold icmpDriver.Connect. fold h.
    destruct (Listen h "" s) as [[c err] closed]. cbn in He. now subst err.
  - intros He. unfold icmpDriver.Connect. fold h.
    destruct (Listen h "" s) as [[c err] closed]. cbn in He. subst err.
    eexists. split; [reflexivity|].
    cbn [icmpMessageProvider.new icmpMessageProvider.seq icmpMessageProvider.mut
           icmpMessageProvider.msgType icmpMessageProvider.id
           icmpMessageProvider.tracker].
    repeat split; try apply Intn_range; reflexivity.
  - intros [-> | ->] addr;
      cbn [Listen icmpIPv4Handler.handler icmpIPv6Handler.handler];
      unfold icmpIPv4Handler.Listen, icmpIPv6Handler.Listen;
      destruct (listenErr s) as [e1|]; [| destruct (controlErr s) as [e2|] | |
                                         destruct (controlErr s) as [e2|]];
      (split; split; try discriminate; try congruence; try easy;
       intros []; congruence).
Qed.

(** ** The ICMP driver: what the correlation lets through *)

Lemma be16_split (z : Z) :
  0 <= z < 65536 ->
  icmp.be16 (Go.byte_of_Z (z / 256)) (Go.byte_of_Z z) = z.
Proof.
  intros H. unfold icmp.be16. rewrite !Z_of_byte_of_Z.
  assert (0 <= z / 256 < 256).
  { split; [apply Z.div_pos; lia | apply Z.div_lt_upper_bound; lia]. }
  rewrite (Z.mod_small (z / 256)) by lia.
  pose proof (Z.div_mod z 256). lia.
Qed.

Lemma copy_echoDatagram (ty c1 c2 : byte) (id seq : Z) (data : list byte) :
  Go.copy (Go.make_bytes 512) (echoDatagram ty c1 c2 id seq data)
  = echoDatagram ty c1 c2 id seq
      (firstn 504 data ++ skipn (8 + List.length data) (Go.make_bytes 512)).
Proof.
  unfold Go.copy, Go.make_bytes, echoDatagram.
  rewrite repeat_length.
  change 512%nat with (8 + 504)%nat at 1.
  rewrite firstn_app_2 with (n := 504%nat)
                            (l1 := [ty; x00; c1; c2; Go.byte_of_Z (id / 256);
                                    Go.byte_of_Z id; Go.byte_of_Z (seq / 256);
                                    Go.byte_of_Z seq]).
  rewrite length_app. cbn [List.length]. rewrite <- app_assoc. reflexivity.
Qed.

Lemma family_Parse_echo (h : icmpProtocolHandler) (ty c1 c2 : byte)
    (id seq : Z) (data : list byte) :
  familyHandler h ->
  ty = typeByte (ReplyType h) \/ ty = typeByte (RequestType h) ->
  Parse h (echoDatagram ty c1 c2 id seq data)
  = inl {| icmp.Type' := if Byte.eqb ty (typeByte (ReplyType h))
                         then ReplyType h else RequestType h;
           icmp.Code := 0;
           icmp.Checksum := icmp.be16 c1 c2;
           icmp.Body :=
             icmp.BodyEcho
               {| icmp.ID := icmp.be16 (Go.byte_of_Z (id / 256)) (Go.byte_of_Z id);
                  icmp.Seq := icmp.be16 (Go.byte_of_Z (seq / 256)) (Go.byte_of_Z seq);
                  icmp.Data := data |} |}.
Proof.
  intros [-> | ->] [-> | ->]; reflexivity.
Qed.

Lemma parseBody_cases (t : icmp.Type_) (b : list byte) :
  icmp.parseBody t b = icmp.parseEcho b
  \/ (exists mk, icmp.parseBody t b = icmp.parseOther mk b
                 /\ forall x e, mk x <> icmp.BodyEcho e)
  \/ icmp.parseBody t b = inl (icmp.BodyRaw b).
Proof.
  unfold icmp.parseBody.
  repeat match goal with
         | |- context [match ?x with _ => _ end] => destruct x
         end;
    first [ now left
          | now (right; right)
          | right; left; eexists; split; [reflexivity | discriminate] ].
Qed.

Lemma parseBody_echo (t : icmp.Type_) (b : list byte) (e : icmp.Echo) :
  icmp.parseBody t b = inl (icmp.BodyEcho e) ->
  exists i1 i2 s1 s2, b = i1 :: i2 :: s1 :: s2 :: icmp.Data e.
Proof.
  destruct (parseBody_cases t b) as [-> | [(mk & -> & Hmk) | ->]].
  - unfold icmp.parseEcho. destruct b as [|i1 [|i2 [|s1 [|s2 data]]]];
      try discriminate.
    intros H. injection H as <-. now exists i1, i2, s1, s2.
  - unfold icmp.parseOther. destruct (_ <? _)%nat; [discriminate|].
    intros H. injection H as H. now destruct (Hmk _ _ H).
  - discriminate.
Qed.

Lemma parseBody_error (t : icmp.Type_) (b : list byte) (err : error) :
  icmp.parseBody t b = inr err -> err = errMessageTooShort.
Proof.
  destruct (parseBody_cases t b) as [-> | [(mk & -> & Hmk) | ->]].
  - unfold icmp.parseEcho. destruct b as [|i1 [|i2 [|s1 [|s2 data]]]];
      try discriminate; intros H; now injection H.
  - unfold icmp.parseOther. destruct (_ <? _)%nat; [|discriminate].
    intros H. now injection H.
  - discriminate.
Qed.

Lemma family_Parse_shape (h : icmpProtocolHandler) (b : list byte) :
  familyHandler h ->
  (forall err, Parse h b = inr err -> exists why, err = ErrLibrary why)
  /\ (forall msg e,
        Parse h b = inl msg -> icmp.Body msg = icmp.BodyEcho e ->
        List.length b = (8 + List.length (icmp.Data e))%nat).
Proof.
  intros Hh.
  assert (Hproto : exists proto, (proto = 1 \/ proto = 58)
                                 /\ Parse h b = icmp.ParseMessage proto b).
  { destruct Hh as [-> | ->]; eexists; (split; [|reflexivity]); auto. }
  destruct Hproto as (proto & Hp & ->).
  unfold icmp.ParseMessage.
  destruct b as [|ty [|code [|c1 [|c2 rest]]]];
    try (split; [intros err H; injection H as <-; now eexists | discriminate]).
  set (t := if proto =? 1 then _ else _).
  assert (Ht : exists t', t = Some t').
  { subst t. destruct Hp as [-> | ->]; eexists; reflexivity. }
  destruct Ht as [t' ->].
  destruct (icmp.parseBody t' rest) as [body|err'] eqn:Eb; split.
  - discriminate.
  - intros msg e H Hbody. injection H as <-. cbn [icmp.Body] in Hbody.
    subst body. destruct (parseBody_echo _ _ _ Eb) as (i1 & i2 & s1 & s2 & ->).
    reflexivity.
  - intros err H. injection H as <-.
    rewrite (parseBody_error _ _ _ Eb). now eexists.
  - discriminate.
Qed.

Lemma recvPacket_readTurn (d : icmpDriver.t) (datagram : list byte) :
  familyHandler (icmpDriver.protocolHandler d) ->
  icmpDriver.recvPacket d (readTurn datagram)
  = ({| Message := Go.copy (Go.make_bytes 512) datagram;
        Size := Z.of_nat (Nat.min (List.length datagram) 512);
        TTL := 64 |}, None).
Proof.
  intros H. unfold icmpDriver.recvPacket. cbn [readTurn deadlineErr socketRead].
  destruct H as [-> | ->]; reflexivity.
Qed.

Lemma Type_eqb_refl (t : icmp.Type_) : icmp.Type_eqb t t = true.
Proof. destruct t; cbn; apply Z.eqb_refl. Qed.

Lemma family_types (h : icmpProtocolHandler) :
  familyHandler h ->
  icmp.Type_eqb (RequestType h) (ReplyType h) = false
  /\ Byte.eqb (typeByte (RequestType h)) (typeByte (ReplyType h)) = false
  /\ Byte.eqb (typeByte (ReplyType h)) (typeByte (ReplyType h)) = true.
Proof. intros [-> | ->]; repeat split. Qed.

Section Acceptance.

Variable d : icmpDriver.t.
Hypothesis family : familyHandler (icmpDriver.protocolHandler d).

(** X16: an echo reply of the driver's family that carries the provider's
    identifier (a 16-bit value) and, after eight bytes of timestamp, its
    tracker is accepted by [handlePacket] once the receive task has built
    its packet, whatever its sequence number, checksum, timestamp and
    further payload; a [Ping] that has ignored other packets returns it. *)
Theorem genuine_reply_is_accepted :
  forall (p : icmpMessageProvider.t) (seq : Z) (c1 c2 : byte)
         (stamp extra : list byte),
    icmpDriver.messageProvider d = Some p ->
    0 <= icmpMessageProvider.id p < 65536 ->
    Go.in_int64 (icmpMessageProvider.tracker p) ->
    List.length stamp = 8%nat ->
    let datagram :=
      echoDatagram (typeByte (ReplyType (icmpDriver.protocolHandler d))) c1 c2
        (icmpMessageProvider.id p) seq
        (stamp ++ intToBytes (icmpMessageProvider.tracker p) ++ extra) in
    let raw := fst (icmpDriver.recvPacket d (readTurn datagram)) in
    icmpDriver.handlePacket d raw = Ok None
    /\ forall ignored rest,
         icmpDriver.ctx d <> None ->
         Forall (ignoredReply d) ignored ->
         icmpDriver.Ping d (ignored ++ Reply raw :: rest) = PingReturned raw None.
Proof.
  intros p seq c1 c2 stamp extra Hp Hid Htr Hstamp datagram raw.
  assert (Hok : icmpDriver.handlePacket d raw = Ok None).
  { subst raw datagram. rewrite (recvPacket_readTurn d _ family). cbn [fst].
    set (data := stamp ++ intToBytes (icmpMessageProvider.tracker p) ++ extra).
    erewrite (handlePacket_echo d p Hp).
    2:{ cbn [Message]. rewrite copy_echoDatagram.
        apply (family_Parse_echo _ _ _ _ _ _ _ family). now left. }
    2:{ reflexivity. }
    destruct (family_types _ family) as (_ & _ & ->).
    cbn [icmp.Type' icmp.ID icmp.Data]. rewrite Type_eqb_refl. cbn [negb].
    rewrite (be16_split _ Hid), Z.eqb_refl. cbn [negb].
    assert (Hdata : firstn 504 data
                    ++ skipn (8 + List.length data) (Go.make_bytes 512)
                    = stamp ++ intToBytes (icmpMessageProvider.tracker p)
                      ++ (firstn 488 extra
                          ++ skipn (8 + List.length data) (Go.make_bytes 512))).
    { subst data. rewrite !firstn_app, Hstamp, intToBytes_length.
      rewrite (firstn_all2 (n := 504) stamp) by (rewrite Hstamp; lia).
      rewrite (firstn_all2 (n := (504 - 8)%nat) (intToBytes _))
        by (rewrite intToBytes_length; lia).
      change (504 - 8 - 8)%nat with 488%nat.
      now rewrite <- !app_assoc. }
    rewrite Hdata.
    assert (Hlen : (Go.len (stamp ++ intToBytes (icmpMessageProvider.tracker p)
                            ++ firstn 488 extra
                            ++ skipn (8 + List.length data) (Go.make_bytes 512))
                    <? 16) = false).
    { apply Z.ltb_ge. unfold Go.len.
      rewrite !length_app, Hstamp, intToBytes_length. lia. }
    rewrite Hlen. unfold decodedTracker. cbn [icmp.Data].
    rewrite (slice_second 8 16 stamp (intToBytes (icmpMessageProvider.tracker p)))
      by (trivial; now rewrite intToBytes_length).
    rewrite (bytesToInt_intToBytes _ Htr), Z.eqb_refl. reflexivity. }
  split; [exact Hok|].
  intros ignored rest Hc Hig.
  rewrite (Ping_is_loop d Hc), (PingLoop_ignored d ignored _ Hig).
  cbn [icmpDriver.PingLoop]. now rewrite Hok.
Qed.

(** X17: an echo request of the driver's own family (such as the driver's
    own request, seen again on the raw socket) is told to be ignored by
    [handlePacket], whatever it carries and whether or not a provider is
    set, and [Ping] goes on to the next event. *)
Theorem own_request_is_ignored :
  forall (id seq : Z) (c1 c2 : byte) (data : list byte) (rest : list PingEvent),
    let datagram :=
      echoDatagram (typeByte (RequestType (icmpDriver.protocolHandler d))) c1 c2
        id seq data in
    let raw := fst (icmpDriver.recvPacket d (readTurn datagram)) in
    icmpDriver.handlePacket d raw = Ok (Some ErrICMPIgnoredPacket)
    /\ icmpDriver.PingLoop d (Reply raw :: rest) = icmpDriver.PingLoop d rest.
Proof.
  intros id seq c1 c2 data rest datagram raw.
  assert (Hig : icmpDriver.handlePacket d raw = Ok (Some ErrICMPIgnoredPacket)).
  { subst raw datagram. rewrite (recvPacket_readTurn d _ family). cbn [fst].
    unfold icmpDriver.handlePacket. cbn [Message].
    rewrite copy_echoDatagram.
    rewrite (family_Parse_echo _ _ _ _ _ _ _ family) by now right.
    destruct (family_types _ family) as (Ht & -> & _).
    cbn [icmp.Body icmp.Type']. now rewrite Ht. }
  split; [exact Hig|]. cbn [icmpDriver.PingLoop]. now rewrite Hig.
Qed.

(** X18: the packets that the receive task builds never make
    [handlePacket] return the reply-too-short error: their message is the
    whole 512-byte buffer, so an echo message parsed from it has 504 bytes
    of data however short the datagram was; the only errors left are those
    of the parser and [ErrICMPIgnoredPacket]. *)
Theorem reply_too_short_is_unreachable :
  forall (turn : RecvTurn) (raw : RawPacket),
    icmpDriver.recvPacket d turn = (raw, None) ->
    (forall msg echo,
       Parse (icmpDriver.protocolHandler d) (Message raw) = inl msg ->
       icmp.Body msg = icmp.BodyEcho echo ->
       Go.len (icmp.Data echo) = 504)
    /\ (forall err,
          icmpDriver.handlePacket d raw = Ok (Some err) ->
          err = ErrICMPIgnoredPacket \/ exists why, err = ErrLibrary why)
    /\ forall expected actual,
         icmpDriver.handlePacket d raw
         <> Ok (Some (errICMPReplyTooShort expected actual)).
Proof.
  intros turn raw HR.
  assert (Hlen : List.length (Message raw) = 512%nat).
  { destruct (recvPacket_shape d turn family)
      as [[e He] | (dg & hops & _ & _ & HR')].
    - rewrite He in HR. discriminate.
    - rewrite HR' in HR. injection HR as <-. cbn [Message].
      now rewrite copy_length. }
  destruct (family_Parse_shape _ (Message raw) family) as [Herr Hecho].
  assert (Hdata : forall msg echo,
            Parse (icmpDriver.protocolHandler d) (Message raw) = inl msg ->
            icmp.Body msg = icmp.BodyEcho echo ->
            Go.len (icmp.Data echo) = 504).
  { intros msg echo HP Hb. pose proof (Hecho msg echo HP Hb) as H.
    unfold Go.len. lia. }
  assert (Hres : forall err,
            icmpDriver.handlePacket d raw = Ok (Some err) ->
            err = ErrICMPIgnoredPacket \/ exists why, err = ErrLibrary why).
  { intros err H. unfold icmpDriver.handlePacket in H.
    destruct (Parse (icmpDriver.protocolHandler d) (Message raw))
      as [msg|perr] eqn:EP.
    2:{ injection H as <-. right. exact (Herr perr eq_refl). }
    destruct (icmp.Body msg) as [echo| | | | | |] eqn:Eb; try discriminate.
    destruct (negb _); [injection H as <-; now left|].
    destruct (icmpDriver.messageProvider d) as [p|]; [|discriminate].
    destruct (negb _); [injection H as <-; now left|].
    unfold icmpMessageProvider.ReadData in H. rewrite Eb in H.
    rewrite (Hdata msg echo eq_refl Eb) in H.
    change (504 <? timeSize + trackerSize) with false in H. cbv iota in H.
    destruct (negb _); [injection H as <-; now left | discriminate]. }
  split; [exact Hdata|]. split; [exact Hres|].
  intros expected actual H. destruct (Hres _ H) as [He|[why He]]; discriminate.
Qed.

End Acceptance.

(** ** The ICMP driver: before it is connected *)

(** X19: the pinger that [ICMP] returns is disconnected and the driver
    inside it has no scope, no provider and no socket until [Connect]
    succeeds; nothing in the driver's [Ping], [send] or [Disconnect]
    checks for that, and each of them panics on the nil field.  The
    connected flag of the pinger keeps [Disconnect] away from the driver
    (it returns [ErrNotConnected] and calls nothing), but [Ping] of the
    pinger consults no flag: it calls the driver's [Ping] all the same. *)
Theorem ICMP_driver_unconnected_panics :
  forall (isIPv4 : list byte -> bool)
         (Marshal : icmp.Message -> list byte * option error)
         (cfg : ICMPConfig) (p : pinger.t),
    icmpDriver.ICMP isIPv4 cfg = Ok (Some p, None) ->
    (pinger.connected p = false
     /\ pinger.calls p = []
     /\ icmpDriver.ctx (pinger.driver p) = None
     /\ icmpDriver.messageProvider (pinger.driver p) = None
     /\ icmpDriver.packetConn (pinger.driver p) = None)
    /\ (forall events,
          icmpDriver.Ping (pinger.driver p) events
          = PingPanicked "nil pointer dereference")
    /\ (forall clock answers timer,
          icmpDriver.send Marshal clock answers (pinger.driver p) timer
          = (SendPanicked "nil pointer dereference", pinger.driver p, timer, []))
    /\ (forall closeErr,
          icmpDriver_Disconnect closeErr (pinger.driver p)
          = Panic "nil pointer dereference")
    /\ (forall drv : Driver icmpDriver.t,
          pinger.Disconnect drv p = (Some ErrNotConnected, p)
          /\ exists after,
               pinger.calls (snd (pinger.Ping drv p)) = CallPing :: after).
Proof.
  intros isIPv4 Marshal cfg p H. unfold icmpDriver.ICMP in H.
  destruct (validateICMPConfig cfg) as [[e|] cfg']; [discriminate|].
  destruct (icmpDriver.newProtocolHandler isIPv4 (Addr cfg')) as [h|why];
    [|discriminate].
  injection H as <-.
  split; [repeat split|]. split; [reflexivity|]. split; [reflexivity|].
  split; [reflexivity|].
  intros drv. split; [reflexivity|].
  unfold pinger.Ping. cbn [pinger.driver pinger.New pinger.calls app].
  destruct (drvPing drv Timer.fresh _) as [[[raw [err|]] tm] d'];
    eexists; reflexivity.
Qed.

(** ** The receive task over many turns *)

Lemma recv_quiet_turn (d : icmpDriver.t) (turn : RecvTurn)
    (rest : list RecvTurn) :
  quietTurn d turn ->
  icmpDriver.recv d (turn :: rest)
  = (readPackets d [turn] ++ fst (icmpDriver.recv d rest),
     snd (icmpDriver.recv d rest)).
Proof.
  intros [Hc Hr]. cbn [icmpDriver.recv readPackets flat_map]. rewrite Hc.
  destruct (icmpDriver.recvPacket d turn) as [raw err]. cbn [snd] in Hr.
  destruct Hr as [-> | [inner ->]].
  - now destruct (icmpDriver.recv d rest).
  - now destruct (icmpDriver.recv d rest).
Qed.




(** X20: over turns in which the scope is not done and every read either
    succeeds or times out, the receive task pushes the packets of the
    successful reads, each once and in the order read, and stays in its
    loop; when the scope is then found done it returns the scope's error
    with nothing more pushed, and what the socket would have answered
    afterwards is never read. *)
Theorem recv_pushes_reads_in_order :
  forall (d : icmpDriver.t) (turns rest : list RecvTurn) (last : RecvTurn)
         (err : error),
    Forall (quietTurn d) turns ->
    icmpDriver.recv d turns = (readPackets d turns, RecvLooping)
    /\ (ctxErr last = Some err ->
        icmpDriver.recv d (turns ++ last :: rest)
        = (readPackets d turns, RecvReturned (Some err))).
Proof.
  intros d turns rest last err Hq.
  induction Hq as [|turn turns Hturn _ [IH1 IH2]].
  - split; [reflexivity|]. intros Hc. cbn [app icmpDriver.recv]. now rewrite Hc.
  - split.
    + rewrite (recv_quiet_turn d turn turns Hturn), IH1.
      cbn [fst snd readPackets flat_map]. now rewrite app_nil_r.
    + intros Hc. cbn [app].
      rewrite (recv_quiet_turn d turn _ Hturn), (IH2 Hc).
      cbn [fst snd readPackets flat_map]. now rewrite app_nil_r.
Qed.

(** ** The configuration *)

(** X21: validating a configuration twice changes nothing more than
    validating it once; a configuration that passes has an address and a
    read timeout that is not zero, and a timeout given as a negative
    duration is kept as it is. *)
Theorem validateICMPConfig_idempotent :
  forall cfg : ICMPConfig,
    validateICMPConfig (snd (validateICMPConfig cfg)) = validateICMPConfig cfg
    /\ (fst (validateICMPConfig cfg) = None ->
        Addr (snd (validateICMPConfig cfg)) = Addr cfg
        /\ Addr cfg <> None
        /\ ReadTimeout (snd (validateICMPConfig cfg)) <> 0)
    /\ (ReadTimeout cfg < 0 ->
        ReadTimeout (snd (validateICMPConfig cfg)) = ReadTimeout cfg).
Proof.
  intros [a rt]. unfold validateICMPConfig. cbn [Addr ReadTimeout].
  destruct a as [a|].
  - destruct (Z.eqb_spec rt 0) as [->|Hne]; cbn [snd fst Addr ReadTimeout].
    + repeat split; try discriminate; try lia.
    + apply Z.eqb_neq in Hne as Hb. rewrite Hb.
      repeat split; try discriminate; assumption.
  - cbn. repeat split; discriminate.
Qed.

(** ** The timer *)

(** X22: a timer started at [a] and then stopped at [b] reports the
    elapsed time [b.Sub(a)]: [b - a] when that is a [Duration], and not
    negative exactly when [a] is not after [b].  A fresh timer reports
    zero; one that was started at or after the Unix epoch and never
    stopped reports the most negative [Duration], its stop instant being
    the zero time. *)
Theorem Timer_elapsed :
  forall (a b : time.Time) (tm : Timer.t),
    Timer.Elapsed (Timer.Stop b (Timer.Start a tm)) = time.Sub b a
    /\ (Go.in_int64 (b - a) ->
        Timer.Elapsed (Timer.Stop b (Timer.Start a tm)) = b - a)
    /\ (0 <= Timer.Elapsed (Timer.Stop b (Timer.Start a tm)) <-> a <= b)
    /\ Timer.Elapsed Timer.fresh = 0
    /\ (0 <= a -> Timer.Elapsed (Timer.Start a Timer.fresh) = Go.int64_min).
Proof.
  intros a b tm. unfold Timer.Elapsed, Timer.Stop, Timer.Start, Timer.fresh.
  cbn [Timer.Started Timer.Stopped]. unfold time.Sub, Go.in_int64.
  split; [reflexivity|]. split; [|split; [|split]].
  - intros [Hlo Hhi].
    now rewrite (proj2 (Z.ltb_ge _ _) Hlo), (proj2 (Z.ltb_ge _ _) Hhi).
  - unfold Go.int64_min, Go.int64_max.
    destruct (Z.ltb_spec (b - a) (- 2 ^ 63)); [lia|].
    destruct (Z.ltb_spec (2 ^ 63 - 1) (b - a)); lia.
  - reflexivity.
  - intros Ha. unfold time.zero, time.Second, Go.int64_min.
    destruct (Z.ltb_spec (-62135596800 * 1000000000 - a) (- 2 ^ 63)); [reflexivity|lia].
Qed.

(** ** Instances of the properties above on concrete inputs *)

Lemma Calculate_mean_witness :
  400 <= MeanRTT (stats.Calculate testStats) <= 600.
Proof.
  apply (Calculate_mean_bounds testStats 400 600).
  - intros r [<- | [<- | []]]; cbn; [lia | discriminate].
  - vm_compute. discriminate.
  - vm_compute. discriminate.
  - vm_compute. reflexivity.
Defined.

Lemma Track_Errors_witness :
  exists tr,
    runPinger
      (tracker.asPinger (errorPinger.asPinger (pingerOf scriptedDriver)))
      [DoConnect 7%nat; DoPing; DoPing; DoPing]
      (tracker.Track (errorPinger.Errors (Num 1 1) (pinger.New 0%nat) halfDraws))
    = Ok ([(Packet_zero, None);
           (Packet_zero, Some ErrForcedError);
           (Packet_zero, Some ErrForcedError);
           (Packet_zero, Some ErrForcedError)], tr)
    /\ NumPings (stats.Calculate (tracker.stats tr)) = 3
    /\ NumSuccessful (stats.Calculate (tracker.stats tr)) = 0
    /\ NumFailed (stats.Calculate (tracker.stats tr)) = 3
    /\ MeanRTT (stats.Calculate (tracker.stats tr)) = 0
    /\ errorPinger.next (tracker.next tr)
       = snd (pinger.Connect scriptedDriver 7%nat (pinger.New 0%nat)).
Proof.
  apply (Track_Errors_always_fail (pingerOf scriptedDriver) (Num 1 1)
           (pinger.New 0%nat)
           (snd (pinger.Connect scriptedDriver 7%nat (pinger.New 0%nat)))
           halfDraws 7%nat None 3%nat).
  - right. exists 1, 1%positive. split; [reflexivity | lia].
  - intros k j. exists 1, 2%positive. split; [reflexivity | lia].
  - reflexivity.
Defined.

Lemma Log_transparent_witness :
  exists outs p',
    runPinger (pingerLogger.asPinger (pingerOf scriptedDriver) (fun _ => "peer"))
      [DoPing; DoConnect 7%nat; DoPing; DoDisconnect]
      (pingerLogger.Log [] "probe" (pinger.New 0%nat))
    = Ok (outs, p')
    /\ runPinger (pingerOf scriptedDriver)
         [DoPing; DoConnect 7%nat; DoPing; DoDisconnect] (pinger.New 0%nat)
       = Ok (outs, pingerLogger.next p')
    /\ List.length (pingerLogger.log p') = 4%nat
    /\ map isErrorEntry (pingerLogger.log p') = map failedOut outs.
Proof.
  eexists. eexists.
  assert (Hrun :
    runPinger (pingerLogger.asPinger (pingerOf scriptedDriver) (fun _ => "peer"))
      [DoPing; DoConnect 7%nat; DoPing; DoDisconnect]
      (pingerLogger.Log [] "probe" (pinger.New 0%nat))
    = Ok (_, _)) by reflexivity.
  split; [exact Hrun|].
  destruct (Log_is_transparent (pingerOf scriptedDriver) (fun _ => "peer")
              _ _ _ _ Hrun) as (Hinner & _ & entries & Hlog & Hlen & Hmap).
  split; [exact Hinner|]. split; reflexivity.
Defined.

Lemma genuine_reply_witness :
  icmpDriver.handlePacket testDriver
    (fst (icmpDriver.recvPacket testDriver
            (readTurn
               (echoDatagram x00 xab xcd 4660 9
                  (timeToBytes testNow
                   ++ intToBytes (icmpMessageProvider.tracker testProvider)
                   ++ [x01; x02])))))
  = Ok None.
Proof.
  apply (genuine_reply_is_accepted testDriver (or_introl eq_refl) testProvider
           9 xab xcd (timeToBytes testNow) [x01; x02]).
  - reflexivity.
  - vm_compute. split; [discriminate | reflexivity].
  - vm_compute. split; discriminate.
  - reflexivity.
Defined.

Lemma own_request_witness :
  icmpDriver.handlePacket testDriver
    (fst (icmpDriver.recvPacket testDriver
            (readTurn (fst (marshalPlain stampedEcho)))))
  = Ok (Some ErrICMPIgnoredPacket).
Proof.
  apply (own_request_is_ignored testDriver (or_introl eq_refl)
           4660 0 x00 x00
           (timeToBytes testNow
            ++ intToBytes (icmpMessageProvider.tracker testProvider)) []).
Defined.

Lemma reply_too_short_witness :
  exists msg echo,
    Parse (icmpDriver.protocolHandler testDriver)
      (Message (fst (icmpDriver.recvPacket testDriver
                       (readTurn [x00; x00; x00; x00; x12; x34; x00; x00]))))
    = inl msg
    /\ icmp.Body msg = icmp.BodyEcho echo
    /\ Go.len (icmp.Data echo) = 504.
Proof.
  eexists. eexists. split; [reflexivity|]. split; [reflexivity|].
  eapply (proj1 (reply_too_short_is_unreachable testDriver (or_introl eq_refl)
                   (readTurn [x00; x00; x00; x00; x12; x34; x00; x00]) _ eq_refl));
    reflexivity.
Defined.

Lemma ICMP_unconnected_witness :
  exists p,
    icmpDriver.ICMP isIPv4ByLength {| Addr := Some testAddr; ReadTimeout := 0 |}
    = Ok (Some p, None)
    /\ icmpDriver.ctx (pinger.driver p) = None
    /\ icmpDriver.Ping (pinger.driver p) [Reply goodReply]
       = PingPanicked "nil pointer dereference"
    /\ pinger.connected p = false.
Proof.
  eexists.
  assert (H :
    icmpDriver.ICMP isIPv4ByLength {| Addr := Some testAddr; ReadTimeout := 0 |}
    = Ok (Some _, None)) by reflexivity.
  split; [exact H|].
  destruct (ICMP_driver_unconnected_panics isIPv4ByLength marshalPlain _ _ H)
    as ((Hconn & _ & Hctx & _) & Hping & _).
  split; [exact Hctx|]. split; [apply Hping | exact Hconn].
Defined.

Lemma recv_order_witness :
  icmpDriver.recv testDriver
    [readTurn strayDatagram;
     readTurn (echoReplyDatagram testProvider 0 testNow);
     cancelledTurn;
     readTurn strayDatagram]
  = ([strayReply; goodReply], RecvReturned (Some ContextCanceled)).
Proof.
  apply (recv_pushes_reads_in_order testDriver
           [readTurn strayDatagram;
            readTurn (echoReplyDatagram testProvider 0 testNow)]
           [readTurn strayDatagram] cancelledTurn ContextCanceled).
  - repeat constructor.
  - reflexivity.
Defined.


Lemma C8_witness :
  map icmp.echoSeq (issued twoCallers (allAtLock testProvider))
  = [Some 0; Some 1]
  /\ icmpMessageProvider.seq (prov (provideRun twoCallers (allAtLock testProvider)))
     = 2.
Proof.
  destruct (C8_sequence_numbers marshalPlain icmpIPv4Handler.handler
              (Some testAddr) testEntropy twoCallers [])
    as (_ & _ & Hrun & _).
  destruct Hrun as (_ & _ & Hnth & Hend); [vm_compute; reflexivity|].
  split.
  - assert (Hlen : List.length (issued twoCallers (allAtLock testProvider)) = 2%nat)
      by reflexivity.
    change (icmpMessageProvider.new icmpIPv4Handler.handler (Some testAddr)
              testEntropy) with testProvider in Hnth.
    destruct (issued twoCallers (allAtLock testProvider))
      as [|m0 [|m1 [|m2 rest]]]; try discriminate Hlen.
    cbn [map].
    rewrite (Hnth 0%nat m0 eq_refl), (Hnth 1%nat m1 eq_refl). reflexivity.
  - exact Hend.
Defined.
